(** * The landing-page item API: a shallow embedding and its checked properties

    The repository serves property listings ("items") through three
    parallel back ends:

    - [Local]    : the Express server of [src/server/server.js], lines 1-239
                   (items in one JSON file, media in an uploads directory);
    - [Supabase] : the function of [src/server/server.js], lines 241-600
                   (items in a SQL table, media in an object-storage bucket);
    - [Neon]     : the function of [src/unnamed/part_000]
                   (items in a SQL table, media in a blob store).

    A fourth function, [Media], is the one of [src/unnamed/part_002]: it
    serves the blobs of the [Neon] back end under [/api/media/<key>].

    JavaScript values are embedded as the inductive [JValue]; objects are
    finite maps from property names to values.  Code that reads or writes
    the backing stores is written in a small state-and-exception monad, so
    that a [throw] keeps the writes that happened before it, as it does in
    JavaScript. *)

From Stdlib Require Import ZArith NArith String Ascii List Bool Lia DecimalString.
From stdpp Require Import base gmap strings list.

Set Warnings "-register-all".
Open Scope string_scope.
Open Scope list_scope.

(* ===================================================================== *)
(** ** JavaScript values *)
(* ===================================================================== *)

(** A JSON-shaped JavaScript value.  Numbers are integers: the handlers only
    test a number for truthiness or print it.  A character of a string is an
    [ascii] (one code unit). *)
Inductive JValue : Type :=
| JUndefined
| JNull
| JBool (b : bool)
| JNum (n : Z)
| JStr (s : string)
| JArr (l : list JValue)
| JObj (o : gmap string JValue).

(** A JavaScript object.  A property that is [undefined] and a property
    that is absent read the same and serialise the same (JSON.stringify
    drops both), and the handlers never enumerate keys, so an object never
    stores [JUndefined]: see [set]. *)
Abbreviation Obj := (gmap string JValue).

(** Exceptions the handlers can meet. *)
Inductive Exn : Type :=
| TypeError
| SyntaxError
| MulterError (code : string)
| Error (message : string).

Inductive Outcome (A : Type) : Type :=
| Done (a : A)
| Raise (e : Exn).
Arguments Done {A} a.
Arguments Raise {A} e.

(** [v ? a : b] on the truthiness of [v]. *)
Definition truthy (v : JValue) : bool :=
  match v with
  | JUndefined | JNull => false
  | JBool b => b
  | JNum n => negb (n =? 0)%Z
  | JStr s => match s with EmptyString => false | String _ _ => true end
  | JArr _ | JObj _ => true
  end.

(** [a || b] *)
Definition or_ (a b : JValue) : JValue := if truthy a then a else b.

(** [a || b] for two strings. *)
Definition orElse (a b : string) : string :=
  match a with
  | EmptyString => b
  | String _ _ => a
  end.

(** [typeof v === "string"] *)
Definition isString (v : JValue) : bool :=
  match v with JStr _ => true | _ => false end.

(** [Array.isArray(v)] *)
Definition isArray (v : JValue) : bool :=
  match v with JArr _ => true | _ => false end.

(** [o.k] for an object [o]. *)
Definition prop (o : Obj) (k : string) : JValue := default JUndefined (o !! k).

(** [o.k = v] *)
Definition set (k : string) (v : JValue) (o : Obj) : Obj :=
  match v with
  | JUndefined => delete k o
  | _ => <[k := v]> o
  end.

(** An object literal [{ k1: v1, k2: v2, ... }]. *)
Definition object (fields : list (string * JValue)) : Obj :=
  foldr (fun kv o => set kv.1 kv.2 o) ∅ fields.

(** [v.k] for any value [v]: reading a property of [null] or [undefined]
    throws; a JSON array or a primitive has none of the property names the
    handlers read. *)
Definition get (v : JValue) (k : string) : Outcome JValue :=
  match v with
  | JUndefined | JNull => Raise TypeError
  | JObj o => Done (prop o k)
  | _ => Done JUndefined
  end.

(** Decimal text of an integer, as [String(n)] and string concatenation
    print it. *)
Definition decimal (n : Z) : string := NilZero.string_of_int (Z.to_int n).

(** [Array.prototype.join(",")] over already printed elements. *)
Definition join (parts : list string) : string := String.concat "," parts.

(** [v.toString()] for a truthy value (and [String(v)] in general). *)
Fixpoint toString (v : JValue) : string :=
  match v with
  | JUndefined => "undefined"
  | JNull => "null"
  | JBool b => if b then "true" else "false"
  | JNum n => decimal n
  | JStr s => s
  | JArr l =>
      join (map (fun x => match x with
                          | JUndefined | JNull => ""
                          | _ => toString x
                          end) l)
  | JObj _ => "[object Object]"
  end.

(** White space as [String.prototype.trim] sees it, among the code units
    below 256: tab, line feed, vertical tab, form feed, carriage return,
    space and no-break space. *)
Definition isSpace (c : ascii) : bool :=
  let n := nat_of_ascii c in
  (((9 <=? n) && (n <=? 13)) || (n =? 32) || (n =? 160))%nat.

Fixpoint trimStart (s : string) : string :=
  match s with
  | EmptyString => EmptyString
  | String c s' => if isSpace c then trimStart s' else s
  end.

(** Drops trailing white space: a character survives when it is not a
    space or something after it survives. *)
Fixpoint trimEnd (s : string) : string :=
  match s with
  | EmptyString => EmptyString
  | String c s' =>
      match trimEnd s' with
      | EmptyString => if isSpace c then EmptyString else String c EmptyString
      | rest => String c rest
      end
  end.

(** [s.trim()] *)
Definition trim (s : string) : string := trimEnd (trimStart s).

(** [v.trim()]: only a string has the method. *)
Definition trimOf (v : JValue) : Outcome string :=
  match v with
  | JStr s => Done (trim s)
  | _ => Raise TypeError
  end.

(** [s.startsWith(p)] *)
Definition startsWith (s p : string) : bool := String.prefix p s.

(** [s.includes(p)] *)
Definition includes (s p : string) : bool :=
  match String.index 0 p s with Some _ => true | None => false end.

Definition DEFAULT_WHATS_MESSAGE : string :=
  "Ola, me interessei no imovel da landing e quero mais informacoes.".

(** The character class [[a-zA-Z0-9._-]] of the two file-name regular
    expressions. *)
Definition safeChar (c : ascii) : bool :=
  let n := nat_of_ascii c in
  (((97 <=? n) && (n <=? 122)) || ((65 <=? n) && (n <=? 90))
   || ((48 <=? n) && (n <=? 57))
   || (n =? 46) || (n =? 95) || (n =? 45))%nat.

Fixpoint allChars (p : ascii -> bool) (s : string) : bool :=
  match s with
  | EmptyString => true
  | String c s' => p c && allChars p s'
  end.

(** An HTTP response: status and JSON body. *)
Record Response : Type := jsonResponse { status : Z; body : JValue }.

(* ===================================================================== *)
(** ** State and exceptions *)
(* ===================================================================== *)

(** A computation over a store [S] that returns or throws; the store it
    leaves is kept either way. *)
Definition M (S A : Type) : Type := S -> Outcome A * S.

Definition ret {S A} (a : A) : M S A := fun st => (Done a, st).
Definition throw {S A} (e : Exn) : M S A := fun st => (Raise e, st).
Definition bind {S A B} (m : M S A) (k : A -> M S B) : M S B :=
  fun st =>
    match m st with
    | (Done a, st') => k a st'
    | (Raise e, st') => (Raise e, st')
    end.
Definition lift {S A} (o : Outcome A) : M S A := fun st => (o, st).
Definition gets {S A} (f : S -> A) : M S A := fun st => (Done (f st), st).
Definition modify {S} (f : S -> S) : M S unit := fun st => (Done tt, f st).

Notation "'let*' x ':=' m 'in' k" := (bind m (fun x => k))
  (at level 10, x pattern, m at level 100, k at level 200).
Notation "m ';;' k" := (bind m (fun _ => k))
  (at level 100, k at level 200, right associativity).

(** [for (const x of xs) body(x)] *)
Fixpoint forEach {S A} (body : A -> M S unit) (xs : list A) : M S unit :=
  match xs with
  | [] => ret tt
  | x :: xs' => body x ;; forEach body xs'
  end.

(** [xs.map(f)] where [f] may throw. *)
Fixpoint mapM {A B} (f : A -> Outcome B) (xs : list A) : Outcome (list B) :=
  match xs with
  | [] => Done []
  | x :: xs' =>
      match f x with
      | Raise e => Raise e
      | Done y =>
          match mapM f xs' with
          | Raise e => Raise e
          | Done ys => Done (y :: ys)
          end
      end
  end.

(** Sequencing of code that may throw and touches no store. *)
Definition andThen {A B} (o : Outcome A) (k : A -> Outcome B) : Outcome B :=
  match o with
  | Done a => k a
  | Raise e => Raise e
  end.

Notation "'let?' x ':=' o 'in' k" := (andThen o (fun x => k))
  (at level 10, x pattern, o at level 100, k at level 200).

(** [l[0]] *)
Definition first (l : list JValue) : JValue :=
  match l with
  | x :: _ => x
  | [] => JUndefined
  end.

(** [v?.k] *)
Definition optProp (v : JValue) (k : string) : JValue :=
  match v with
  | JObj o => prop o k
  | _ => JUndefined
  end.

(** The MediaRef type of a content type: ["video"] for ["video/..."],
    ["image"] otherwise. *)
Definition mediaType (contentType : string) : string :=
  if startsWith contentType "video/" then "video" else "image".

(* ===================================================================== *)
(** ** File names *)
(* ===================================================================== *)

Fixpoint mapChars (f : ascii -> ascii) (s : string) : string :=
  match s with
  | EmptyString => EmptyString
  | String c s' => String (f c) (mapChars f s')
  end.

(** [s.replace(/[^a-zA-Z0-9._-]+/g, "_")]: every maximal run of characters
    outside the class becomes one underscore.  [inRun] says that the
    previous character was already part of the current run. *)
Fixpoint replaceRuns (inRun : bool) (s : string) : string :=
  match s with
  | EmptyString => EmptyString
  | String c s' =>
      if safeChar c then String c (replaceRuns false s')
      else if inRun then replaceRuns true s'
      else String "_" (replaceRuns true s')
  end.

(** [sanitizeFilename], the same text in [part_000] (lines 29-32) and in
    the Supabase function ([server.js], lines 263-266). *)
Definition sanitizeFilename (name : string) : string :=
  let safe := replaceRuns false (orElse name "file") in
  orElse safe "file".

(** [t] is [s] with the characters outside the class substituted by the
    replacement [r]; neighbouring substituted characters may share one
    replacement. *)
Inductive Substituted (r : ascii) : string -> string -> Prop :=
| subst_nil : Substituted r EmptyString EmptyString
| subst_keep c s t :
    safeChar c = true -> Substituted r s t ->
    Substituted r (String c s) (String c t)
| subst_char c s t :
    safeChar c = false -> Substituted r s t ->
    Substituted r (String c s) (String r t)
| subst_run c c' s t :
    safeChar c = false -> safeChar c' = false ->
    Substituted r (String c' s) (String r t) ->
    Substituted r (String c (String c' s)) (String r t).

(* ===================================================================== *)
(** ** The local server ([src/server/server.js], lines 1-239) *)
(* ===================================================================== *)

Module Local.

(** One file part of a multipart body as multer's disk storage meets it:
    what the client sent ([originalname], [mimetype], [size] in bytes) and
    the two readings the [filename] callback takes while storing it,
    [Date.now()] and [Math.round(Math.random() * 1e6)]. *)
Record Part : Type := {
  originalname : string;
  mimetype : string;
  size : N;
  storedAt : Z;
  random : Z
}.

(** An entry of [req.files]. *)
Record File : Type := {
  file_mimetype : string;
  filename : string
}.

(** The data file [uploads/items.json] (an array of item records) and the
    names of the media files beside it in the uploads directory. *)
Record Store : Type := {
  dataFile : list Obj;
  uploadsDir : gset string
}.

(** [limits.fileSize] *)
Definition fileSizeLimit : N := 500 * 1024 * 1024.

(** The [safeName] of [multer.diskStorage]'s [filename] callback:
    [file.originalname.replace(/[^a-zA-Z0-9._-]/g, "-")]. *)
Definition safeName (originalname : string) : string :=
  mapChars (fun c => if safeChar c then c else "-"%char) originalname.

(** The name [multer.diskStorage] stores a part under. *)
Definition diskFilename (p : Part) : string :=
  let unique := decimal (storedAt p) +:+ "-" +:+ decimal (random p) in
  unique +:+ "-" +:+ safeName (originalname p).

Definition storedFile (p : Part) : File :=
  {| file_mimetype := mimetype p; filename := diskFilename p |}.

(** [upload.array("files")]: multer stores every part in the uploads
    directory and hands the handler [req.files]; a part over the size limit
    makes it remove what it stored and pass a [MulterError] to the error
    middleware instead of calling the handler. *)
Definition uploadArray (parts : list Part) : M Store (list File) :=
  fun st =>
    if existsb (fun p => (fileSizeLimit <? size p)%N) parts
    then (Raise (MulterError "File too large"), st)
    else
      let files := map storedFile parts in
      (Done files,
       {| dataFile := dataFile st;
          uploadsDir := list_to_set (map filename files) ∪ uploadsDir st |}).

Definition readItems : M Store (list Obj) := gets dataFile.

Definition writeItems (items : list Obj) : M Store unit :=
  modify (fun st => {| dataFile := items; uploadsDir := uploadsDir st |}).

(** [if (fs.existsSync(p)) fs.unlinkSync(p)] for a file of the uploads
    directory. *)
Definition unlink (name : string) : M Store unit :=
  modify (fun st => {| dataFile := dataFile st;
                       uploadsDir := uploadsDir st ∖ {[ name ]} |}).

(** [normalizeItem(item)] *)
Definition normalizeItem (item : Obj) : Obj :=
  let item :=
    match prop item "media" with
    | JArr (_ :: _) => item
    | _ =>
        if truthy (prop item "url") then
          set "media"
            (JArr [JObj (object [("type", or_ (prop item "type") (JStr "image"));
                                 ("url", prop item "url");
                                 ("filename", prop item "filename")])])
            item
        else set "media" (JArr []) item
    end in
  if negb (truthy (prop item "whatsappMessage"))
     || negb (isString (prop item "whatsappMessage"))
  then set "whatsappMessage" (JStr DEFAULT_WHATS_MESSAGE) item
  else item.

(** The elements of [item.media] for a normalised item. *)
Definition mediaList (item : Obj) : Outcome (list JValue) :=
  match prop item "media" with
  | JArr l => Done l
  | _ => Raise TypeError
  end.

(** [toItemResponse(item)] *)
Definition toItemResponse (item : Obj) : Outcome JValue :=
  let normalized := normalizeItem item in
  let? entries := mediaList normalized in
  let? media :=
    mapM (fun media =>
            let? type := get media "type" in
            let? url := get media "url" in
            Done (JObj (object [("type", type); ("url", url)])))
         entries in
  Done (JObj (object [("id", prop normalized "id");
                      ("title", prop normalized "title");
                      ("desc", prop normalized "desc");
                      ("whatsappMessage", prop normalized "whatsappMessage");
                      ("media", JArr media);
                      ("createdAt", prop normalized "createdAt")])).

(** The MediaRef both [app.post] and [app.put] build for a stored file. *)
Definition mediaOfFile (file : File) : JValue :=
  JObj (object [("type", JStr (mediaType (file_mimetype file)));
                ("url", JStr ("/uploads/" +:+ filename file));
                ("filename", JStr (filename file))]).

(** The body of the two [forEach] loops that remove an item's files. *)
Definition unlinkMedia (media : JValue) : M Store unit :=
  let* name := lift (get media "filename") in
  if negb (truthy name) then ret tt
  else
    match name with
    | JStr f => unlink f
    | _ => throw TypeError   (* path.join rejects a non-string *)
    end.

(** [entry.id === targetId] *)
Definition hasId (targetId : string) (entry : Obj) : bool :=
  match prop entry "id" with
  | JStr s => String.eqb s targetId
  | _ => false
  end.

(** [items.findIndex(...)], with the entry found. *)
Fixpoint findIndex (targetId : string) (items : list Obj) : option (nat * Obj) :=
  match items with
  | [] => None
  | entry :: rest =>
      if hasId targetId entry then Some (0, entry)
      else match findIndex targetId rest with
           | Some (i, e) => Some (S i, e)
           | None => None
           end
  end.

(** The readings [app.post] takes: [Date.now()],
    [Math.round(Math.random() * 1e6)] and [new Date().toISOString()]. *)
Record Clock : Type := {
  now : Z;
  rnd : Z;
  isoDate : string
}.

Definition errorBody (message : string) : JValue :=
  JObj (object [("error", JStr message)]).

(** [app.get("/api/items")] *)
Definition getItems : M Store Response :=
  let* items := readItems in
  let items := map normalizeItem items in
  let* out := lift (mapM toItemResponse items) in
  ret (jsonResponse 200 (JArr out)).

(** [app.post("/api/items")], after [upload.array]. *)
Definition postItem (clock : Clock) (body : Obj) (files : list File)
  : M Store Response :=
  let* items := readItems in
  let* title := lift (trimOf (or_ (prop body "title") (JStr "Novo imovel"))) in
  let* desc :=
    lift (trimOf (or_ (prop body "desc") (JStr "Mais detalhes no WhatsApp."))) in
  let* whatsappMessage :=
    lift (trimOf (or_ (prop body "whatsappMessage") (JStr DEFAULT_WHATS_MESSAGE))) in
  match files with
  | [] => ret (jsonResponse 400 (errorBody "No files"))
  | _ :: _ =>
      let media := map mediaOfFile files in
      let newItem :=
        object [("id", JStr ("item-" +:+ decimal (now clock) +:+ "-"
                             +:+ decimal (rnd clock)));
                ("title", JStr title);
                ("desc", JStr desc);
                ("whatsappMessage", JStr whatsappMessage);
                ("media", JArr media);
                ("type", or_ (optProp (first media) "type") (JStr "image"));
                ("url", or_ (optProp (first media) "url") (JStr ""));
                ("createdAt", JStr (isoDate clock))] in
      writeItems (items ++ [newItem]) ;;
      let* out := lift (toItemResponse newItem) in
      ret (jsonResponse 200 out)
  end.

(** [app.put("/api/items/:id")], after [upload.array].  The item is
    changed in place inside [items], which is written back whole. *)
Definition putItem (targetId : string) (body : Obj) (files : list File)
  : M Store Response :=
  let* items := readItems in
  match findIndex targetId items with
  | None => ret (jsonResponse 404 (errorBody "Not found"))
  | Some (index, item) =>
      let item := normalizeItem item in
      let* title := lift (trimOf (or_ (prop body "title") (prop item "title"))) in
      let* desc := lift (trimOf (or_ (prop body "desc") (prop item "desc"))) in
      let* whatsappMessage :=
        lift (trimOf (or_ (or_ (prop body "whatsappMessage")
                               (prop item "whatsappMessage"))
                          (JStr DEFAULT_WHATS_MESSAGE))) in
      let item := set "title" (JStr title) item in
      let item := set "desc" (JStr desc) item in
      let item := set "whatsappMessage" (JStr whatsappMessage) item in
      let* item :=
        match files with
        | [] => ret item
        | _ :: _ =>
            let* old := lift (mediaList item) in
            forEach unlinkMedia old ;;
            let media := map mediaOfFile files in
            let item := set "media" (JArr media) item in
            let item :=
              set "type" (or_ (optProp (first media) "type") (JStr "image")) item in
            let item :=
              set "url" (or_ (optProp (first media) "url") (JStr "")) item in
            ret item
        end in
      writeItems (<[index := item]> items) ;;
      let* out := lift (toItemResponse item) in
      ret (jsonResponse 200 out)
  end.

(** [app.delete("/api/items/:id")] *)
Definition deleteItem (targetId : string) : M Store Response :=
  let* items := readItems in
  match findIndex targetId items with
  | None => ret (jsonResponse 404 (errorBody "Not found"))
  | Some (index, removed) =>
      let items := delete index items in
      let removed := normalizeItem removed in
      let* old := lift (mediaList removed) in
      forEach unlinkMedia old ;;
      writeItems items ;;
      ret (jsonResponse 200 (JObj (object [("ok", JBool true)])))
  end.

(** The requests the four routes accept.  The update and delete routes are
    mounted on ["/api/items/:id"], so their handlers always have an id. *)
Inductive Request : Type :=
| GetItems
| PostItems (clock : Clock) (body : Obj) (parts : list Part)
| PutItem (targetId : string) (body : Obj) (parts : list Part)
| DeleteItem (targetId : string).

Definition route (req : Request) : M Store Response :=
  match req with
  | GetItems => getItems
  | PostItems clock body parts =>
      let* files := uploadArray parts in postItem clock body files
  | PutItem targetId body parts =>
      let* files := uploadArray parts in putItem targetId body files
  | DeleteItem targetId => deleteItem targetId
  end.

(** The route, then the error middleware at the end of the chain. *)
Definition serve (req : Request) (st : Store) : Response * Store :=
  match route req st with
  | (Done res, st') => (res, st')
  | (Raise (MulterError message), st') =>
      (jsonResponse 400 (errorBody message), st')
  | (Raise _, st') => (jsonResponse 500 (errorBody "Upload error"), st')
  end.

End Local.

(* ===================================================================== *)
(** ** The hosted functions: what the two files share

    [src/unnamed/part_000] and the second half of [src/server/server.js]
    repeat the same helpers word for word: [jsonResponse], [extractId],
    [sanitizeFilename], [parseMultipart], [normalizeText], and the block
    that reads the body in the POST and PUT branches. *)
(* ===================================================================== *)

Module Hosted.

Definition MAX_FILE_SIZE : N := 40 * 1024 * 1024.

(** What busboy emits while it reads a multipart body: a text field, or a
    file part with its field name, the [filename] and [mimeType] of its
    [info] (empty when the part gives none) and the number of bytes the
    client sent for it. *)
Inductive BusboyEvent : Type :=
| FieldEvent (name value : string)
| FileEvent (fieldname filename mimeType : string) (size : N).

(** An entry of [files]; [buffer] is the length of the bytes kept. *)
Record Upload : Type := {
  fieldname : string;
  filename : string;
  contentType : string;
  buffer : N
}.

(** The body of a request as its two readers see it: the events busboy
    emits for it, or the value [req.json()] parses from it. *)
Inductive Payload : Type :=
| Multipart (events : list BusboyEvent)
| Json (value : JValue)
| Unreadable.

(** A request: the method, the non-empty segments of the URL's path, the
    [content-type] header (empty when absent) and the body. *)
Record Request : Type := {
  method : string;
  pathname : list string;
  contentTypeHeader : string;
  payload : Payload
}.

(** A row of the table [items]; [media] is the jsonb column, an array or
    null. *)
Record Row : Type := {
  id : string;
  title : string;
  description : string;
  whatsapp_message : string;
  media : option (list JValue)
}.

(** A stored blob: its content type and length. *)
Record Blob : Type := {
  blobType : string;
  blobSize : N
}.

(** The table and the media store (blob store or storage bucket). *)
Record Store : Type := {
  items : list Row;
  blobs : gmap string Blob
}.

Definition errorBody (message : string) : JValue :=
  JObj (object [("error", JStr message)]).

Definition toUpperCase (s : string) : string :=
  mapChars (fun c => let n := nat_of_ascii c in
                     if ((97 <=? n) && (n <=? 122))%nat
                     then ascii_of_nat (n - 32) else c) s.

(** [extractId(req.url)], from the path's segments. *)
Fixpoint afterItems (parts : list string) : option string :=
  match parts with
  | [] => None
  | part :: rest =>
      if String.eqb part "items" then
        match rest with
        | next :: _ => Some next
        | [] => None
        end
      else afterItems rest
  end.

Definition extractId (segments : list string) : option string :=
  afterItems (filter (fun s => s ≠ "") segments).

(** [normalizeText(value)] *)
Definition normalizeText (value : JValue) : string :=
  trim (toString (or_ value (JStr ""))).

(** The three busboy listeners of [parseMultipart], over the events in
    order.  Busboy counts the bytes of a file part as it reads them and
    raises the part's [limit] event as soon as the count reaches
    [limits.fileSize]: a part of exactly [MAX_FILE_SIZE] bytes raises it
    too.  What the listener keeps of a part is cut at the limit. *)
Fixpoint busboy (events : list BusboyEvent) (fields : Obj) (files : list Upload)
  (tooLarge : bool) : Obj * list Upload * bool :=
  match events with
  | [] => (fields, files, tooLarge)
  | FieldEvent name value :: rest =>
      busboy rest (set name (JStr value) fields) files tooLarge
  | FileEvent fieldname filename mimeType size :: rest =>
      let file :=
        {| fieldname := fieldname;
           filename := orElse filename "file";
           contentType := orElse mimeType "application/octet-stream";
           buffer := N.min size MAX_FILE_SIZE |} in
      busboy rest fields (files ++ [file])
        (tooLarge || (MAX_FILE_SIZE <=? size)%N)
  end.

(** [parseMultipart(req)] *)
Definition parseMultipart (events : list BusboyEvent)
  : Outcome (JValue * list Upload) :=
  let '(fields, files, tooLarge) := busboy events ∅ [] false in
  if tooLarge then Raise (Error "FILE_TOO_LARGE")
  else Done (JObj fields, files).

(** The block that opens the POST and PUT branches: read the body as
    multipart or as JSON, answer 413 when a file was too large, and go on
    with [fields] and [files]. *)
Definition withBody {S} (req : Request)
  (k : JValue -> list Upload -> M S Response) : M S Response :=
  if includes (contentTypeHeader req) "multipart/form-data" then
    match payload req with
    | Multipart events =>
        match parseMultipart events with
        | Done (fields, files) => k fields files
        | Raise (Error message) =>
            if String.eqb message "FILE_TOO_LARGE"
            then ret (jsonResponse 413 (errorBody "Arquivo acima de 40 MB."))
            else throw (Error message)
        | Raise e => throw e
        end
    | _ => throw (Error "Unexpected end of form")
    end
  else
    match payload req with
    | Json fields => k fields []
    | _ => throw SyntaxError
    end.

(** The table, as the SQL statements of the handlers use it. *)
Definition selectById (target : string) : M Store (list Row) :=
  gets (fun st => filter (fun r => id r = target) (items st)).

Definition updateRow (target : string) (change : Row -> Row) : M Store unit :=
  modify (fun st =>
            {| items := map (fun r => if decide (id r = target) then change r else r)
                            (items st);
               blobs := blobs st |}).

Definition deleteRow (target : string) : M Store unit :=
  modify (fun st =>
            {| items := filter (fun r => id r ≠ target) (items st);
               blobs := blobs st |}).

Definition appendRow (r : Row) : M Store unit :=
  modify (fun st => {| items := items st ++ [r]; blobs := blobs st |}).

(** The media store.  Deleting a key that holds nothing is not an error,
    and only a string names a blob. *)
Definition removeBlob (key : JValue) : M Store unit :=
  match key with
  | JStr k => modify (fun st => {| items := items st; blobs := delete k (blobs st) |})
  | _ => ret tt
  end.

Definition putBlob (key : string) (file : Upload) : M Store unit :=
  modify (fun st =>
            {| items := items st;
               blobs := <[key := {| blobType := contentType file;
                                    blobSize := buffer file |}]> (blobs st) |}).

(** The JSON object the handlers answer for one row. *)
Definition itemJson (id title desc whatsappMessage : string)
  (media : list JValue) : JValue :=
  JObj (object [("id", JStr id);
                ("title", JStr title);
                ("desc", JStr desc);
                ("whatsappMessage", JStr whatsappMessage);
                ("media", JArr media)]).

(** The four seed listings. *)
Definition seed : list (string * string * string) :=
  [("Casa com area gourmet",
    "Ambientes integrados, patio amplo e acabamento premium.", "imovel1.jpg");
   ("Apartamento com varanda",
    "Vista aberta, condominio completo e otima localizacao.", "imovel2.jpg");
   ("Sobrado em condominio",
    "Seguranca 24h e lazer para toda a familia.", "imovel3.jpg");
   ("Casa terrea moderna",
    "Projeto contemporaneo com garagem coberta.", "imovel4.jpg")].

Definition seedRow (rowId : string) (s : string * string * string) : Row :=
  {| id := rowId;
     title := s.1.1;
     description := s.1.2;
     whatsapp_message := DEFAULT_WHATS_MESSAGE;
     media := Some [JObj (object [("type", JStr "image"); ("url", JStr s.2)])] |}.

(** A file's storage key, [itemId/Date.now()-randomUUID()-safeName]. *)
Definition storageKey (itemId : string) (now : Z) (uuid : string)
  (file : Upload) : string :=
  itemId +:+ "/" +:+ decimal now +:+ "-" +:+ uuid +:+ "-"
  +:+ sanitizeFilename (filename file).

(** [try { ... } catch (error) { return jsonResponse(500, ...) }] around a
    handler's body.  (The blob-store function adds a [detail] that is
    [undefined] outside [netlify dev].) *)
Definition catchAll (run : Outcome Response * Store) : Response * Store :=
  match run with
  | (Done res, st') => (res, st')
  | (Raise _, st') => (jsonResponse 500 (errorBody "Server error."), st')
  end.

End Hosted.

(* ===================================================================== *)
(** ** The blob-store function ([src/unnamed/part_000]) *)
(* ===================================================================== *)

Module Neon.
Import Hosted.

(** What the function reads from its surroundings during one request: the
    results of [crypto.randomUUID()] for the seed rows, for a new item and
    for each stored file, and of [Date.now()] for each stored file. *)
Record Env : Type := {
  seedId : nat -> string;
  newId : string;
  fileNow : nat -> Z;
  fileUuid : nat -> string
}.

Definition hexDigit (n : nat) : ascii :=
  ascii_of_nat (if (n <? 10)%nat then 48 + n else 55 + n).

Definition percent (byte : nat) : string :=
  String "%" (String (hexDigit (byte / 16)) (String (hexDigit (byte mod 16)) "")).

(** The characters [encodeURIComponent] leaves alone:
    letters, digits and [- _ . ! ~ * ' ( )]. *)
Definition unreserved (c : ascii) : bool :=
  let n := nat_of_ascii c in
  (((97 <=? n) && (n <=? 122)) || ((65 <=? n) && (n <=? 90))
   || ((48 <=? n) && (n <=? 57))
   || (n =? 45) || (n =? 95) || (n =? 46) || (n =? 33) || (n =? 126)
   || (n =? 42) || (n =? 39) || (n =? 40) || (n =? 41))%nat.

(** [encodeURIComponent(s)]: every other character as the percent-escaped
    bytes of its UTF-8 encoding. *)
Fixpoint encodeURIComponent (s : string) : string :=
  match s with
  | EmptyString => EmptyString
  | String c s' =>
      let n := nat_of_ascii c in
      (if unreserved c then String c EmptyString
       else if (n <? 128)%nat then percent n
       else percent (192 + n / 64) +:+ percent (128 + n mod 64))
      +:+ encodeURIComponent s'
  end.

(** The callback of [withMediaUrls]. *)
Definition withMediaUrl (item : JValue) : Outcome JValue :=
  let? url := get item "url" in
  if truthy url then Done item
  else
    let? key := get item "key" in
    if negb (truthy key) then Done item
    else
      match item with
      | JObj o =>
          let encoded := encodeURIComponent (toString key) in
          Done (JObj (set "url" (JStr ("/.netlify/functions/media/" +:+ encoded)) o))
      | _ => Done item
      end.

(** [withMediaUrls(media)] *)
Definition withMediaUrls (media : option (list JValue)) : Outcome (list JValue) :=
  mapM withMediaUrl (default [] media).

(** [INSERT INTO items ...]: [id] is the primary key. *)
Definition insertRow (r : Row) : M Store unit :=
  let* taken := selectById (id r) in
  match taken with
  | [] => appendRow r
  | _ :: _ => throw (Error "duplicate key value violates unique constraint")
  end.

Fixpoint insertSeeds (env : Env) (n : nat) (rows : list (string * string * string))
  : M Store unit :=
  match rows with
  | [] => ret tt
  | s :: rest => insertRow (seedRow (seedId env n) s) ;; insertSeeds env (S n) rest
  end.

(** [seedIfEmpty()] *)
Definition seedIfEmpty (env : Env) : M Store unit :=
  let* count := gets (fun st => length (items st)) in
  if (0 <? count)%nat then ret tt else insertSeeds env 0 seed.

(** [storeFiles(store, files, itemId)]; [n] counts the files stored so
    far. *)
Fixpoint storeFiles (env : Env) (n : nat) (files : list Upload) (itemId : string)
  : M Store (list JValue) :=
  match files with
  | [] => ret []
  | file :: rest =>
      let key := storageKey itemId (fileNow env n) (fileUuid env n) file in
      putBlob key file ;;
      let* media := storeFiles env (S n) rest itemId in
      ret (JObj (object [("type", JStr (mediaType (contentType file)));
                         ("key", JStr key);
                         ("contentType", JStr (contentType file))]) :: media)
  end.

(** The row as the SELECT statements name its columns, with [media]
    replaced by [withMediaUrls(item.media)]. *)
Definition rowJson (r : Row) : Outcome JValue :=
  let? media := withMediaUrls (media r) in
  Done (itemJson (id r) (title r) (description r) (whatsapp_message r) media).

Definition getBranch (target : option string) : M Store Response :=
  match target with
  | Some target =>
      let* rows := selectById target in
      match rows with
      | [] => ret (jsonResponse 404 (errorBody "Not found"))
      | item :: _ =>
          let* out := lift (rowJson item) in
          ret (jsonResponse 200 out)
      end
  | None =>
      let* rows := gets (fun st => rev (items st)) in   (* ORDER BY created_at DESC *)
      let* out := lift (mapM rowJson rows) in
      ret (jsonResponse 200 (JArr out))
  end.

Definition postBranch (env : Env) (req : Request) : M Store Response :=
  withBody req (fun fields files =>
    let* rawTitle := lift (get fields "title") in
    let title := normalizeText rawTitle in
    let* rawDesc := lift (get fields "desc") in
    let desc := normalizeText rawDesc in
    let* rawMessage := lift (get fields "whatsappMessage") in
    let whatsappMessage :=
      orElse (normalizeText rawMessage) DEFAULT_WHATS_MESSAGE in
    if String.eqb title "" || String.eqb desc "" then
      ret (jsonResponse 400 (errorBody "Missing required fields."))
    else
      let newId := newId env in
      let* media :=
        match files with
        | _ :: _ => storeFiles env 0 files newId
        | [] =>
            let* given := lift (get fields "media") in
            match given with
            | JArr l => ret l
            | _ => ret []
            end
        end in
      match media with
      | [] => ret (jsonResponse 400 (errorBody "Missing media files."))
      | _ :: _ =>
          insertRow {| id := newId; title := title; description := desc;
                       whatsapp_message := whatsappMessage;
                       media := Some media |} ;;
          let* out := lift (withMediaUrls (Some media)) in
          ret (jsonResponse 201 (itemJson newId title desc whatsappMessage out))
      end).

Definition putBranch (env : Env) (req : Request) (target : option string)
  : M Store Response :=
  match target with
  | None => ret (jsonResponse 400 (errorBody "Missing id."))
  | Some id =>
      withBody req (fun fields files =>
        let* existing := selectById id in
        match existing with
        | [] => ret (jsonResponse 404 (errorBody "Not found"))
        | current :: _ =>
            let* rawTitle := lift (get fields "title") in
            let nextTitle := orElse (normalizeText rawTitle) (title current) in
            let* rawDesc := lift (get fields "desc") in
            let nextDesc := orElse (normalizeText rawDesc) (description current) in
            let* rawMessage := lift (get fields "whatsappMessage") in
            let nextMessage :=
              orElse (normalizeText rawMessage)
                     (orElse (whatsapp_message current) DEFAULT_WHATS_MESSAGE) in
            let* nextMedia :=
              match files with
              | _ :: _ =>
                  let* stored := storeFiles env 0 files id in ret (Some stored)
              | [] =>
                  let* given := lift (get fields "media") in
                  match given with
                  | JArr (x :: l) => ret (Some (x :: l))
                  | _ => ret (media current)
                  end
              end in
            updateRow id (fun r => {| Hosted.id := Hosted.id r;
                                      title := nextTitle;
                                      description := nextDesc;
                                      whatsapp_message := nextMessage;
                                      media := nextMedia |}) ;;
            let* out := lift (withMediaUrls nextMedia) in
            ret (jsonResponse 200 (itemJson id nextTitle nextDesc nextMessage out))
        end)
  end.

Definition deleteBranch (target : option string) : M Store Response :=
  match target with
  | None => ret (jsonResponse 400 (errorBody "Missing id."))
  | Some id =>
      let* existing := selectById id in
      match existing with
      | row :: _ =>
          forEach (fun item =>
                     let* key := lift (get item "key") in
                     if truthy key then removeBlob key else ret tt)
                  (default [] (media row))
      | [] => ret tt
      end ;;
      deleteRow id ;;
      ret (jsonResponse 200 (JObj (object [("ok", JBool true)])))
  end.

(** The branch on [req.method]. *)
Definition dispatch (env : Env) (req : Request) : M Store Response :=
  let id := extractId (pathname req) in
  let method := toUpperCase (method req) in
  if String.eqb method "GET" then getBranch id
  else if String.eqb method "POST" then postBranch env req
  else if String.eqb method "PUT" then putBranch env req id
  else if String.eqb method "DELETE" then deleteBranch id
  else ret (jsonResponse 405 (errorBody "Method not allowed.")).

(** The body of the [try] block.  [ensureSchema] only creates the table
    when it is missing. *)
Definition handle (env : Env) (req : Request) : M Store Response :=
  seedIfEmpty env ;; dispatch env req.

(** The exported handler. *)
Definition handler (env : Env) (req : Request) (st : Store) : Response * Store :=
  catchAll (handle env req st).

End Neon.

(* ===================================================================== *)
(** ** The object-storage function ([src/server/server.js], lines 241-600) *)
(* ===================================================================== *)

Module Supabase.
Import Hosted.

(** What the function reads from its surroundings during one request: the
    two environment variables (empty when unset), the public URL the
    storage client gives a path, the ids the table's default gives the
    rows inserted, and the results of [crypto.randomUUID()] and
    [Date.now()] while files are stored. *)
Record Env : Type := {
  SUPABASE_URL : string;
  SUPABASE_SERVICE_ROLE_KEY : string;
  getPublicUrl : string -> string;
  seedId : nat -> string;
  rowId : string;
  folderId : string;
  fileNow : nat -> Z;
  fileUuid : nat -> string
}.

(** [getSupabase()] *)
Definition getSupabase (env : Env) : M Store unit :=
  match SUPABASE_URL env, SUPABASE_SERVICE_ROLE_KEY env with
  | String _ _, String _ _ => ret tt
  | _, _ => throw (Error "Missing Supabase environment variables.")
  end.

(** [supabase.storage.from(bucket).upload(path, blob, { upsert: false })]
    and the [throw] on its error: a path already taken is refused. *)
Definition upload (path : string) (file : Upload) : M Store unit :=
  let* taken := gets (fun st => blobs st !! path) in
  match taken with
  | Some _ => throw (Error "The resource already exists")
  | None => putBlob path file
  end.

(** [storeFiles(supabase, bucket, files, itemId)]; [n] counts the files
    stored so far. *)
Fixpoint storeFiles (env : Env) (n : nat) (files : list Upload) (itemId : string)
  : M Store (list JValue) :=
  match files with
  | [] => ret []
  | file :: rest =>
      let path := storageKey itemId (fileNow env n) (fileUuid env n) file in
      upload path file ;;
      let* media := storeFiles env (S n) rest itemId in
      ret (JObj (object [("type", JStr (mediaType (contentType file)));
                         ("path", JStr path);
                         ("contentType", JStr (contentType file))]) :: media)
  end.

(** [removeStoredMedia(supabase, bucket, media)] *)
Definition removeStoredMedia (media : option (list JValue)) : M Store unit :=
  let* paths := lift (mapM (fun item => get item "path") (default [] media)) in
  forEach removeBlob (List.filter truthy paths).

(** One turn of the loop of [withPublicUrls]. *)
Definition withPublicUrl (env : Env) (item : JValue) : Outcome JValue :=
  let? url := get item "url" in
  if truthy url then Done item
  else
    let? path := get item "path" in
    if negb (truthy path) then Done item
    else
      match item with
      | JObj o => Done (JObj (set "url" (JStr (getPublicUrl env (toString path))) o))
      | _ => Done item
      end.

(** [withPublicUrls(supabase, bucket, media)] *)
Definition withPublicUrls (env : Env) (media : option (list JValue))
  : Outcome (list JValue) :=
  mapM (withPublicUrl env) (default [] media).

Fixpoint insertSeeds (env : Env) (n : nat) (rows : list (string * string * string))
  : M Store unit :=
  match rows with
  | [] => ret tt
  | s :: rest => appendRow (seedRow (seedId env n) s) ;; insertSeeds env (S n) rest
  end.

(** [ensureSeed(supabase)] *)
Definition ensureSeed (env : Env) : M Store unit :=
  let* count := gets (fun st => length (items st)) in
  if (0 <? count)%nat then ret tt else insertSeeds env 0 seed.

(** The object both GET branches and the POST and PUT answers build. *)
Definition rowJson (env : Env) (r : Row) : Outcome JValue :=
  let? media := withPublicUrls env (media r) in
  Done (itemJson (id r) (title r) (description r) (whatsapp_message r) media).

Definition getBranch (env : Env) (target : option string) : M Store Response :=
  match target with
  | Some target =>
      let* rows := selectById target in
      match rows with
      | [] => ret (jsonResponse 404 (errorBody "Not found"))
      | data :: _ =>
          let* out := lift (rowJson env data) in
          ret (jsonResponse 200 out)
      end
  | None =>
      let* rows := gets (fun st => rev (items st)) in   (* created_at, descending *)
      let* out := lift (mapM (rowJson env) rows) in
      ret (jsonResponse 200 (JArr out))
  end.

Definition postBranch (env : Env) (req : Request) : M Store Response :=
  withBody req (fun fields files =>
    let* rawTitle := lift (get fields "title") in
    let title := normalizeText rawTitle in
    let* rawDesc := lift (get fields "desc") in
    let desc := normalizeText rawDesc in
    let* rawMessage := lift (get fields "whatsappMessage") in
    let whatsappMessage :=
      orElse (normalizeText rawMessage) DEFAULT_WHATS_MESSAGE in
    if String.eqb title "" || String.eqb desc "" then
      ret (jsonResponse 400 (errorBody "Missing required fields."))
    else
      let* media :=
        match files with
        | _ :: _ => storeFiles env 0 files (folderId env)
        | [] =>
            let* given := lift (get fields "media") in
            match given with
            | JArr l => ret l
            | _ => ret []
            end
        end in
      match media with
      | [] => ret (jsonResponse 400 (errorBody "Missing media files."))
      | _ :: _ =>
          let data := {| id := rowId env; title := title; description := desc;
                         whatsapp_message := whatsappMessage;
                         media := Some media |} in
          appendRow data ;;
          let* out := lift (rowJson env data) in
          ret (jsonResponse 201 out)
      end).

Definition putBranch (env : Env) (req : Request) (target : option string)
  : M Store Response :=
  match target with
  | None => ret (jsonResponse 400 (errorBody "Missing id."))
  | Some id =>
      withBody req (fun fields files =>
        let* found := selectById id in
        match found with
        | [] => ret (jsonResponse 404 (errorBody "Not found"))
        | current :: _ =>
            let* rawTitle := lift (get fields "title") in
            let nextTitle := orElse (normalizeText rawTitle) (title current) in
            let* rawDesc := lift (get fields "desc") in
            let nextDesc := orElse (normalizeText rawDesc) (description current) in
            let* rawMessage := lift (get fields "whatsappMessage") in
            let nextMessage :=
              orElse (normalizeText rawMessage)
                     (orElse (whatsapp_message current) DEFAULT_WHATS_MESSAGE) in
            let nextMedia := default [] (media current) in
            let* nextMedia :=
              match files with
              | _ :: _ =>
                  removeStoredMedia (Some nextMedia) ;;
                  storeFiles env 0 files (Hosted.id current)
              | [] =>
                  let* given := lift (get fields "media") in
                  match given with
                  | JArr (x :: l) => ret (x :: l)
                  | _ => ret nextMedia
                  end
              end in
            let data := {| Hosted.id := Hosted.id current;
                           title := nextTitle;
                           description := nextDesc;
                           whatsapp_message := nextMessage;
                           media := Some nextMedia |} in
            updateRow id (fun _ => data) ;;
            let* out := lift (rowJson env data) in
            ret (jsonResponse 200 out)
        end)
  end.

Definition deleteBranch (target : option string) : M Store Response :=
  match target with
  | None => ret (jsonResponse 400 (errorBody "Missing id."))
  | Some id =>
      let* found := selectById id in
      match found with
      | data :: _ =>
          match media data with
          | Some media => removeStoredMedia (Some media)
          | None => ret tt
          end
      | [] => ret tt
      end ;;
      deleteRow id ;;
      ret (jsonResponse 200 (JObj (object [("ok", JBool true)])))
  end.

(** The branch on [req.method]. *)
Definition dispatch (env : Env) (req : Request) : M Store Response :=
  let id := extractId (pathname req) in
  let method := toUpperCase (method req) in
  if String.eqb method "GET" then getBranch env id
  else if String.eqb method "POST" then postBranch env req
  else if String.eqb method "PUT" then putBranch env req id
  else if String.eqb method "DELETE" then deleteBranch id
  else ret (jsonResponse 405 (errorBody "Method not allowed.")).

(** The body of the [try] block. *)
Definition handle (env : Env) (req : Request) : M Store Response :=
  getSupabase env ;; ensureSeed env ;; dispatch env req.

(** The exported handler. *)
Definition handler (env : Env) (req : Request) (st : Store) : Response * Store :=
  catchAll (handle env req st).

End Supabase.

(* ===================================================================== *)
(** ** The media function ([src/unnamed/part_002], and the second half of
       [src/unnamed/part_001])

    It serves the blobs that the blob-store function of [part_000] stores,
    under the URLs that [withMediaUrls] hands out. *)
(* ===================================================================== *)

Module Media.

(** [s.split(sep)] for a separator of one character. *)
Fixpoint split (sep : ascii) (s : string) : list string :=
  match s with
  | EmptyString => [EmptyString]
  | String c s' =>
      if Ascii.eqb c sep then EmptyString :: split sep s'
      else
        match split sep s' with
        | part :: parts => String c part :: parts
        | [] => [String c EmptyString]
        end
  end.

(** [parts.slice(parts.indexOf(name) + 1)], or [None] when [indexOf] gives
    [-1]. *)
Fixpoint sliceAfter (name : string) (parts : list string) : option (list string) :=
  match parts with
  | [] => None
  | part :: rest =>
      if String.eqb part name then Some rest else sliceAfter name rest
  end.

(** The value of a hexadecimal digit. *)
Definition hexValue (c : ascii) : option N :=
  let n := N_of_ascii c in
  if ((48 <=? n) && (n <=? 57))%N then Some (n - 48)%N
  else if ((65 <=? n) && (n <=? 70))%N then Some (n - 55)%N
  else if ((97 <=? n) && (n <=? 102))%N then Some (n - 87)%N
  else None.

(** What [decodeURIComponent] reads: a character that stands for itself,
    or an escape [%XX] with its byte. *)
Inductive Token : Type :=
| Lit (c : ascii)
| Esc (byte : N).

(** The [URIError] of a malformed sequence, kept by its message. *)
Definition URIError : Exn := Error "URI malformed".

(** The escapes of a string; a [%] that two hexadecimal digits do not
    follow is malformed. *)
Fixpoint tokens (s : string) : Outcome (list Token) :=
  match s with
  | EmptyString => Done []
  | String c rest =>
      if Ascii.eqb c "%" then
        match rest with
        | String h (String l rest') =>
            match hexValue h, hexValue l with
            | Some a, Some b =>
                let? ts := tokens rest' in Done (Esc (16 * a + b)%N :: ts)
            | _, _ => Raise URIError
            end
        | _ => Raise URIError
        end
      else let? ts := tokens rest in Done (Lit c :: ts)
  end.

(** A decoded component.  The strings of this development hold code units
    below 256; a component with a larger code unit is [Wide], and is the
    name of no blob of a store of this development. *)
Inductive Component : Type :=
| Narrow (s : string)
| Wide.

Definition push (c : ascii) (tail : Outcome Component) : Outcome Component :=
  let? t := tail in
  match t with
  | Narrow s => Done (Narrow (String c s))
  | Wide => Done Wide
  end.

(** A continuation byte, [10xxxxxx]. *)
Definition continuation (b : N) : bool := ((128 <=? b) && (b <? 192))%N.

(** The code point [cp] of a sequence whose shortest form starts at
    [least]: overlong forms, surrogates and values past U+10FFFF are
    malformed. *)
Definition codePoint (least cp : N) (tail : Outcome Component) : Outcome Component :=
  if ((cp <? least) || ((55296 <=? cp) && (cp <=? 57343)) || (1114111 <? cp))%N
  then Raise URIError
  else if (cp <? 256)%N then push (ascii_of_N cp) tail
  else let? _ := tail in Done Wide.

(** The UTF-8 sequences of the escapes; a byte below 128 and a character
    outside an escape stand for themselves. *)
Fixpoint utf8 (ts : list Token) : Outcome Component :=
  match ts with
  | [] => Done (Narrow EmptyString)
  | Lit c :: rest => push c (utf8 rest)
  | Esc b :: rest =>
      if (b <? 128)%N then push (ascii_of_N b) (utf8 rest)
      else if (b <? 192)%N then Raise URIError
      else if (b <? 224)%N then
        match rest with
        | Esc b1 :: rest' =>
            if continuation b1
            then codePoint 128 ((b - 192) * 64 + (b1 - 128))%N (utf8 rest')
            else Raise URIError
        | _ => Raise URIError
        end
      else if (b <? 240)%N then
        match rest with
        | Esc b1 :: Esc b2 :: rest' =>
            if continuation b1 && continuation b2
            then codePoint 2048 ((b - 224) * 4096 + (b1 - 128) * 64 + (b2 - 128))%N
                           (utf8 rest')
            else Raise URIError
        | _ => Raise URIError
        end
      else if (b <? 248)%N then
        match rest with
        | Esc b1 :: Esc b2 :: Esc b3 :: rest' =>
            if continuation b1 && continuation b2 && continuation b3
            then codePoint 65536
                           ((b - 240) * 262144 + (b1 - 128) * 4096
                            + (b2 - 128) * 64 + (b3 - 128))%N
                           (utf8 rest')
            else Raise URIError
        | _ => Raise URIError
        end
      else Raise URIError
  end.

(** [decodeURIComponent(s)] *)
Definition decodeURIComponent (s : string) : Outcome Component :=
  let? ts := tokens s in utf8 ts.

(** [extractKey(requestUrl)], from the URL's [pathname]; [None] is
    [null]. *)
Definition extractKey (pathname : string) : Outcome (option Component) :=
  let parts := filter (fun s => s ≠ "") (split "/" pathname) in
  match sliceAfter "media" parts with
  | None => Done None
  | Some rest =>
      let raw := String.concat "/" rest in
      if String.eqb raw "" then Done None
      else let? key := decodeURIComponent raw in Done (Some key)
  end.

(** The body of a reply: a text, or the bytes of a blob (by their
    number). *)
Inductive Content : Type :=
| Text (s : string)
| Data (size : N).

(** A reply of the media function: status, the headers the function sets,
    and the body. *)
Record Reply : Type := reply {
  code : Z;
  headers : list (string * string);
  content : Content
}.

(** [store.getWithMetadata(key, ...)]; [None] is [null]. *)
Definition getWithMetadata (key : Component) (blobs : gmap string Hosted.Blob)
  : option Hosted.Blob :=
  match key with
  | Narrow k => blobs !! k
  | Wide => None
  end.

(** [!key] for a decoded key: the empty string is falsy. *)
Definition isEmpty (key : Component) : bool :=
  match key with
  | Narrow EmptyString => true
  | _ => false
  end.

(** What both versions of the function do with a request. *)
Definition serve (pathname : string) (blobs : gmap string Hosted.Blob) : Outcome Reply :=
  let? key := extractKey pathname in
  match key with
  | None => Done (reply 400 [] (Text "Missing key"))
  | Some key =>
      if isEmpty key then Done (reply 400 [] (Text "Missing key"))
      else
        match getWithMetadata key blobs with
        | None => Done (reply 404 [] (Text "Not found"))
        | Some result =>
            let contentType :=
              orElse (Hosted.blobType result) "application/octet-stream" in
            Done (reply 200 [("content-type", contentType);
                             ("cache-control", "public, max-age=31536000")]
                        (Data (Hosted.blobSize result)))
        end
  end.

(** The function of [part_002]: [serve] inside [try], and 500 in the
    [catch].  (The version of [part_001] is [serve] alone.) *)
Definition handler (pathname : string) (blobs : gmap string Hosted.Blob) : Reply :=
  match serve pathname blobs with
  | Done r => r
  | Raise _ => reply 500 [] (Text "Server error")
  end.

End Media.

(* ===================================================================== *)
(** ** The vocabulary of the statements

    Definitions the theorems below use to speak about requests, stores and
    responses; none of them is part of the program. *)
(* ===================================================================== *)

Import Hosted.

(** The MediaRefs [refs] are typed after the content types, one for one and in order *)
Definition TypedAs (contentTypes : list string) (refs : list JValue) : Prop :=
  Forall2 (fun ct ref =>
             exists o, ref = JObj o
                       /\ prop o "type"
                          = JStr (if startsWith ct "video/" then "video" else "image"))
          contentTypes refs.

(** The MediaRef [storeFiles] builds for a file, under some storage key. *)
Definition RefOf (keyField : string) (file : Hosted.Upload) (ref : JValue) : Prop :=
  exists key,
    ref = JObj (object [("type", JStr (mediaType (Hosted.contentType file)));
                        (keyField, JStr key);
                        ("contentType", JStr (Hosted.contentType file))]).

(** The MediaRef the local server builds for a part it stored: typed after the part's
    content type, and naming the file the part was stored as. *)
Definition localRef (p : Local.Part) : JValue :=
  JObj (object [("type", JStr (if startsWith (Local.mimetype p) "video/"
                               then "video" else "image"));
                ("url", JStr ("/uploads/" +:+ Local.diskFilename p));
                ("filename", JStr (Local.diskFilename p))]).

(** The MediaRef a hosted function builds for a file it stored under [key]; [keyField] is
    [key] in the blob-store function and [path] in the object-storage function. *)
Definition storedRef (keyField : string) (file : Hosted.Upload) (key : string) : JValue :=
  JObj (object [("type", JStr (if startsWith (Hosted.contentType file) "video/"
                               then "video" else "image"));
                (keyField, JStr key);
                ("contentType", JStr (Hosted.contentType file))]).

(** The keys under which the blob-store function stores the files of one
    request, the first of them being the [n]-th file it stores. *)
Fixpoint storageKeys (env : Neon.Env) (n : nat) (itemId : string)
  (files : list Hosted.Upload) : list string :=
  match files with
  | [] => []
  | file :: rest =>
      Hosted.storageKey itemId (Neon.fileNow env n) (Neon.fileUuid env n) file
      :: storageKeys env (S n) itemId rest
  end.

(** The paths under which the object-storage function stores the files of one request. *)
Fixpoint storagePaths (env : Supabase.Env) (n : nat) (itemId : string)
  (files : list Hosted.Upload) : list string :=
  match files with
  | [] => []
  | file :: rest =>
      Hosted.storageKey itemId (Supabase.fileNow env n) (Supabase.fileUuid env n) file
      :: storagePaths env (S n) itemId rest
  end.

(** The files a hosted request uploads: the file parts busboy reads from a multipart body. *)
Definition filesOf (req : Hosted.Request) : list Hosted.Upload :=
  match Hosted.payload req with
  | Hosted.Multipart events => (Hosted.busboy events ∅ [] false).1.2
  | _ => []
  end.

(** The fields a hosted request supplies *)
Definition fieldsOf (req : Hosted.Request) : JValue :=
  match Hosted.payload req with
  | Hosted.Multipart events => JObj (Hosted.busboy events ∅ [] false).1.1
  | Hosted.Json v => v
  | Hosted.Unreadable => JUndefined
  end.

(** The media descriptor array a hosted request's body supplies; empty when it supplies none. *)
Definition descriptorsOf (req : Hosted.Request) : list JValue :=
  match get (fieldsOf req) "media" with
  | Done (JArr l) => l
  | _ => []
  end.

(** The text a request supplies for a field, trimmed; empty when it supplies none. *)
Definition supplied (req : Request) (field : string) : string :=
  match get (fieldsOf req) field with
  | Done v => normalizeText v
  | Raise _ => ""
  end.

(** A multipart body has a file part over the hosted ceiling. *)
Definition oversized (req : Hosted.Request) : bool :=
  match Hosted.payload req with
  | Hosted.Multipart events =>
      existsb (fun e => match e with
                        | Hosted.FileEvent _ _ _ size => (Hosted.MAX_FILE_SIZE <? size)%N
                        | Hosted.FieldEvent _ _ => false
                        end) events
  | _ => false
  end.

(** A multipart body has a file part that reaches the hosted ceiling: one
    over it, or one of exactly that size. *)
Definition reachesLimit (req : Hosted.Request) : bool :=
  match Hosted.payload req with
  | Hosted.Multipart events =>
      existsb (fun e => match e with
                        | Hosted.FileEvent _ _ _ size => (Hosted.MAX_FILE_SIZE <=? size)%N
                        | Hosted.FieldEvent _ _ => false
                        end) events
  | _ => false
  end.

(** A list of parts has one over the local ceiling. *)
Definition overLimit (parts : list Local.Part) : bool :=
  existsb (fun p => (Local.fileSizeLimit <? Local.size p)%N) parts.

(** Every part of a list is under the local ceiling. *)
Definition underLimit (parts : list Local.Part) : bool :=
  forallb (fun p => (Local.size p <? Local.fileSizeLimit)%N) parts.

(** POST, or PUT with an id in the path. *)
Definition uploads (req : Hosted.Request) : Prop :=
  Hosted.toUpperCase (Hosted.method req) = "POST"
  \/ (Hosted.toUpperCase (Hosted.method req) = "PUT"
      /\ Hosted.extractId (Hosted.pathname req) ≠ None).

(** The body of a hosted request can be read: a multipart body under a multipart content
    type with no file that reaches the ceiling, or a JSON body under any other content
    type. *)
Definition bodyRead (req : Hosted.Request) : bool :=
  if includes (Hosted.contentTypeHeader req) "multipart/form-data" then
    match Hosted.payload req with
    | Hosted.Multipart _ => negb (reachesLimit req)
    | _ => false
    end
  else
    match Hosted.payload req with
    | Hosted.Json _ => true
    | _ => false
    end.

(** The environment variables of the object-storage function are set. *)
Definition configured (env : Supabase.Env) : Prop :=
  Supabase.SUPABASE_URL env ≠ "" /\ Supabase.SUPABASE_SERVICE_ROLE_KEY env ≠ "".

(** The row of the table with a given id. *)
Definition rowOf (target : string) (st : Store) : option Row :=
  head (filter (fun r => id r = target) (items st)).

(** A value whose properties can be read: anything but [null] and [undefined]. *)
Definition readable (v : JValue) : bool :=
  match v with
  | JUndefined | JNull => false
  | _ => true
  end.

(** A media entry whose file the local server can remove: its [filename] is a string or
    falsy. *)
Definition unlinkable (entry : JValue) : bool :=
  match get entry "filename" with
  | Done (JStr _) => true
  | Done name => negb (truthy name)
  | Raise _ => false
  end.

(** An item record all of whose (normalised) media entries are unlinkable *)
Definition deletable (item : Obj) : bool :=
  match prop (Local.normalizeItem item) "media" with
  | JArr entries => forallb unlinkable entries
  | _ => false
  end.

(** A body field the local server can trim: a string, or a falsy value that gives way to
    the default. *)
Definition textual (v : JValue) : bool := negb (truthy v) || isString v.

Definition okBody : JValue := JObj (object [("ok", JBool true)]).






(** The escaped form [encodeURIComponent] gives one character. *)
Definition encodeChar (c : ascii) : string :=
  let n := nat_of_ascii c in
  if Neon.unreserved c then String c EmptyString
  else if (n <? 128)%nat then Neon.percent n
  else Neon.percent (192 + n / 64) +:+ Neon.percent (128 + n mod 64).

(** [shown] is what [withMediaUrls] shows for the stored entry: the entry itself, or, for
    an object with a key and no URL, the entry with the URL of its key added. *)
Definition WithUrl (stored shown : JValue) : Prop :=
  shown = stored
  \/ exists o, stored = JObj o
               /\ truthy (prop o "url") = false
               /\ truthy (prop o "key") = true
               /\ shown = JObj (set "url"
                                    (JStr ("/.netlify/functions/media/"
                                           +:+ Neon.encodeURIComponent
                                                 (toString (prop o "key"))))
                                    o).

(** The non-empty segments of a path. *)
Definition segments (pathname : string) : list string :=
  filter (fun s => s ≠ "") (Media.split "/" pathname).

(** The reply that serves a blob. *)
Definition served (blob : Hosted.Blob) : Media.Reply :=
  Media.reply 200
    [("content-type", orElse (Hosted.blobType blob) "application/octet-stream");
     ("cache-control", "public, max-age=31536000")]
    (Media.Data (Hosted.blobSize blob)).

(** The blob [storeFiles] stores for a file. *)
Definition blobOf (file : Hosted.Upload) : Hosted.Blob :=
  {| Hosted.blobType := Hosted.contentType file; Hosted.blobSize := Hosted.buffer file |}.

(* ===================================================================== *)
(** ** Sample stores and requests *)
(* ===================================================================== *)

(** A legacy record with a numeric [whatsappMessage] and no [media]. *)
Definition legacyItem : Obj :=
  object [("id", JStr "item-1"); ("title", JStr "Casa");
          ("url", JStr "/uploads/casa.jpg"); ("whatsappMessage", JNum 5)].

Definition samplePhoto : Local.Part :=
  {| Local.originalname := "foto 1.png"; Local.mimetype := "image/png";
     Local.size := 2048; Local.storedAt := 1700000000000; Local.random := 4242 |}.
Definition sampleVideo : Local.Part :=
  {| Local.originalname := "tour.mp4"; Local.mimetype := "video/mp4";
     Local.size := 4096; Local.storedAt := 1700000000001; Local.random := 77 |}.
Definition sampleHuge : Local.Part :=
  {| Local.originalname := "filme.mov"; Local.mimetype := "video/quicktime";
     Local.size := 500 * 1024 * 1024 + 1; Local.storedAt := 1700000000003;
     Local.random := 5 |}.
Definition sampleClock : Local.Clock :=
  {| Local.now := 1700000000002; Local.rnd := 9;
     Local.isoDate := "2023-11-14T22:13:20.002Z" |}.
Definition sampleBody : Obj :=
  object [("title", JStr " Casa "); ("desc", JStr "Bonita")].
Definition emptyDisk : Local.Store :=
  {| Local.dataFile := []; Local.uploadsDir := ∅ |}.
(** The local store after one item was created from two files. *)
Definition sampleDisk : Local.Store :=
  (Local.serve (Local.PostItems sampleClock sampleBody [samplePhoto; sampleVideo])
               emptyDisk).2.
Definition sampleItemId : string := "item-1700000000002-9".
Definition sampleDescriptor : JValue :=
  JObj (object [("type", JStr "image"); ("url", JStr "fachada.jpg")]).

Definition sampleNeonEnv : Neon.Env :=
  {| Neon.seedId := fun n => "seed-" +:+ decimal (Z.of_nat n);
     Neon.newId := "b2";
     Neon.fileNow := fun n => (1700000000100 + Z.of_nat n)%Z;
     Neon.fileUuid := fun n => "uuid" +:+ decimal (Z.of_nat n) |}.
Definition sampleSupabaseEnv : Supabase.Env :=
  {| Supabase.SUPABASE_URL := "https://example.supabase.co";
     Supabase.SUPABASE_SERVICE_ROLE_KEY := "service-role-key";
     Supabase.getPublicUrl :=
       fun path => "https://example.supabase.co/storage/v1/object/public/media/" +:+ path;
     Supabase.seedId := fun n => "seed-" +:+ decimal (Z.of_nat n);
     Supabase.rowId := "b2";
     Supabase.folderId := "f7";
     Supabase.fileNow := fun n => (1700000000100 + Z.of_nat n)%Z;
     Supabase.fileUuid := fun n => "uuid" +:+ decimal (Z.of_nat n) |}.

Definition sampleBlob : Hosted.Blob :=
  {| Hosted.blobType := "image/png"; Hosted.blobSize := 2048 |}.
(** A table with one row that owns one blob, as each hosted function stores it. *)
Definition sampleRow (keyField : string) : Hosted.Row :=
  {| Hosted.id := "a1"; Hosted.title := "Casa"; Hosted.description := "Bonita";
     Hosted.whatsapp_message := DEFAULT_WHATS_MESSAGE;
     Hosted.media :=
       Some [JObj (object [("type", JStr "image");
                           (keyField, JStr "a1/1700000000000-uuid-foto.png");
                           ("contentType", JStr "image/png")])] |}.
Definition sampleTable (keyField : string) : Hosted.Store :=
  {| Hosted.items := [sampleRow keyField];
     Hosted.blobs := {[ "a1/1700000000000-uuid-foto.png" := sampleBlob ]} |}.

Definition multipartType : string := "multipart/form-data; boundary=----x".
Definition postFiles : Hosted.Request :=
  {| Hosted.method := "POST"; Hosted.pathname := ["api"; "items"];
     Hosted.contentTypeHeader := multipartType;
     Hosted.payload :=
       Hosted.Multipart [Hosted.FieldEvent "title" " Sobrado ";
                         Hosted.FieldEvent "desc" "Novo";
                         Hosted.FileEvent "files" "sala 2.png" "image/png" 1000;
                         Hosted.FileEvent "files" "tour.mp4" "video/mp4" 5000] |}.
Definition postHuge : Hosted.Request :=
  {| Hosted.method := "POST"; Hosted.pathname := ["api"; "items"];
     Hosted.contentTypeHeader := multipartType;
     Hosted.payload :=
       Hosted.Multipart [Hosted.FieldEvent "title" "Sobrado";
                         Hosted.FieldEvent "desc" "Novo";
                         Hosted.FileEvent "files" "filme.mov" "video/quicktime"
                                          (40 * 1024 * 1024 + 1)] |}.
Definition putFiles : Hosted.Request :=
  {| Hosted.method := "PUT"; Hosted.pathname := ["api"; "items"; "a1"];
     Hosted.contentTypeHeader := multipartType;
     Hosted.payload :=
       Hosted.Multipart [Hosted.FileEvent "files" "sala 2.png" "image/png" 1000] |}.
Definition putDescriptors : Hosted.Request :=
  {| Hosted.method := "PUT"; Hosted.pathname := ["api"; "items"; "a1"];
     Hosted.contentTypeHeader := "application/json";
     Hosted.payload :=
       Hosted.Json (JObj (object [("title", JStr " Casa nova ");
                                  ("media", JArr [sampleDescriptor; sampleDescriptor])])) |}.
Definition deleteKnown : Hosted.Request :=
  {| Hosted.method := "DELETE"; Hosted.pathname := ["api"; "items"; "a1"];
     Hosted.contentTypeHeader := ""; Hosted.payload := Hosted.Unreadable |}.
Definition deleteUnknown : Hosted.Request :=
  {| Hosted.method := "DELETE"; Hosted.pathname := ["api"; "items"; "zz"];
     Hosted.contentTypeHeader := ""; Hosted.payload := Hosted.Unreadable |}.
Definition getAll : Hosted.Request :=
  {| Hosted.method := "GET"; Hosted.pathname := ["api"; "items"];
     Hosted.contentTypeHeader := ""; Hosted.payload := Hosted.Unreadable |}.

(** A POST with a file and a title of white space only. *)
Definition postUntitled : Hosted.Request :=
  {| Hosted.method := "POST"; Hosted.pathname := ["api"; "items"];
     Hosted.contentTypeHeader := multipartType;
     Hosted.payload :=
       Hosted.Multipart [Hosted.FieldEvent "title" "   ";
                         Hosted.FieldEvent "desc" "Novo";
                         Hosted.FileEvent "files" "sala 2.png" "image/png" 1000] |}.
Definition patchItem : Hosted.Request :=
  {| Hosted.method := "patch"; Hosted.pathname := ["api"; "items"; "a1"];
     Hosted.contentTypeHeader := "application/json";
     Hosted.payload := Hosted.Json (JObj (object [("title", JStr "Casa")])) |}.
(** The environment of the object-storage function without its service key. *)
Definition unsetSupabaseEnv : Supabase.Env :=
  {| Supabase.SUPABASE_URL := "https://example.supabase.co";
     Supabase.SUPABASE_SERVICE_ROLE_KEY := "";
     Supabase.getPublicUrl := Supabase.getPublicUrl sampleSupabaseEnv;
     Supabase.seedId := Supabase.seedId sampleSupabaseEnv;
     Supabase.rowId := "b2";
     Supabase.folderId := "f7";
     Supabase.fileNow := Supabase.fileNow sampleSupabaseEnv;
     Supabase.fileUuid := Supabase.fileUuid sampleSupabaseEnv |}.


(** A table of two rows, each with a blob of its own. *)
Definition otherRow (keyField : string) : Hosted.Row :=
  {| Hosted.id := "z9"; Hosted.title := "Sala"; Hosted.description := "Ampla";
     Hosted.whatsapp_message := DEFAULT_WHATS_MESSAGE;
     Hosted.media :=
       Some [JObj (object [("type", JStr "image");
                           (keyField, JStr "z9/1700000000009-uuid-sala.png");
                           ("contentType", JStr "image/png")])] |}.
Definition twoRows (keyField : string) : Hosted.Store :=
  {| Hosted.items := [sampleRow keyField; otherRow keyField];
     Hosted.blobs := {[ "a1/1700000000000-uuid-foto.png" := sampleBlob;
                        "z9/1700000000009-uuid-sala.png" := sampleBlob ]} |}.


Definition sampleRetitle : Obj := object [("title", JStr " Casa nova ")].


(** The media entry of the sample row of the blob-store function. *)
Definition sampleRef : Obj :=
  object [("type", JStr "image");
          ("key", JStr "a1/1700000000000-uuid-foto.png");
          ("contentType", JStr "image/png")].

(* ===================================================================== *)
(** ** Proof tools *)
(* ===================================================================== *)

Ltac prop_object := unfold object; cbn [foldr fst snd]; autorewrite with js.
Ltac crunch H := cbv beta iota zeta in H.
Ltac bad H :=
  solve [ repeat match type of H with
                 | context [match ?x with _ => _ end] => destruct x; crunch H
                 end;
          inversion H; subst; cbn [status] in *; discriminate ].
Ltac monad_in H := unfold bind, ret, throw, lift, gets, modify in H; crunch H.

(* ===================================================================== *)
(** ** Laws of objects *)
(* ===================================================================== *)

Arguments set : simpl never.
Arguments prop : simpl never.
Arguments object : simpl never.

Section object_laws.
Implicit Types (o : Obj) (k : string) (v : JValue).

Lemma prop_set_eq k v o : prop (set k v o) k = v.
Proof.
  unfold prop, set. destruct v; simpl;
    rewrite ?lookup_delete_eq, ?lookup_insert_eq; reflexivity.
Qed.

Lemma prop_set_ne k k' v o : k ≠ k' -> prop (set k v o) k' = prop o k'.
Proof.
  intros Hne. unfold prop, set. destruct v; simpl;
    rewrite ?lookup_delete_ne, ?lookup_insert_ne by assumption; reflexivity.
Qed.

Lemma set_same k v o : o !! k = Some v -> v ≠ JUndefined -> set k v o = o.
Proof.
  intros Hk Hv. unfold set.
  destruct v; try congruence; apply insert_id; assumption.
Qed.

Lemma prop_lookup o k v : prop o k = v -> v ≠ JUndefined -> o !! k = Some v.
Proof. unfold prop. destruct (o !! k); simpl; congruence. Qed.

Lemma prop_empty k : prop ∅ k = JUndefined.
Proof. unfold prop. rewrite lookup_empty. reflexivity. Qed.
End object_laws.

Create Rewrite HintDb js.
#[local] Hint Rewrite prop_set_eq prop_empty : js.
#[local] Hint Rewrite prop_set_ne using congruence : js.

(* ===================================================================== *)
(** ** The item normaliser *)
(* ===================================================================== *)

(** What [normalizeItem] leaves in [media]: the list it had when that was a
    non-empty array, one synthesised entry for a legacy [url], nothing
    otherwise. *)
Lemma normalizeItem_media (item : Obj) :
  prop (Local.normalizeItem item) "media" =
  match prop item "media" with
  | JArr (x :: l) => JArr (x :: l)
  | _ =>
      if truthy (prop item "url") then
        JArr [JObj (object [("type", or_ (prop item "type") (JStr "image"));
                            ("url", prop item "url");
                            ("filename", prop item "filename")])]
      else JArr []
  end.
Proof.
  unfold Local.normalizeItem.
  destruct (prop item "media") as [| |b|n|s|[|x l]|o] eqn:Hm;
    destruct (truthy (prop item "url"));
    match goal with
    | |- context [if ?c then _ else _] =>
        destruct c; autorewrite with js; try rewrite Hm; reflexivity
    end.
Qed.

(** What it leaves in [whatsappMessage]: a non-empty string is kept,
    anything else gives way to the default. *)
Lemma normalizeItem_message (item : Obj) :
  prop (Local.normalizeItem item) "whatsappMessage" =
  match prop item "whatsappMessage" with
  | JStr (String c s) => JStr (String c s)
  | _ => JStr DEFAULT_WHATS_MESSAGE
  end.
Proof.
  unfold Local.normalizeItem.
  set (item1 := match prop item "media" with JArr (_ :: _) => item | _ => _ end).
  assert (H1 : prop item1 "whatsappMessage" = prop item "whatsappMessage").
  { subst item1. destruct (prop item "media") as [| |b|n|s|[|x l]|o];
      destruct (truthy (prop item "url")); autorewrite with js; reflexivity. }
  rewrite H1.
  destruct (prop item "whatsappMessage") as [| |b|n|[|c s]|l|o] eqn:Hw;
    cbn [truthy isString negb orb]; try destruct b; try destruct (n =? 0)%Z;
    cbn [truthy isString negb orb]; autorewrite with js; try reflexivity; congruence.
Qed.

(** Every other property is left as it was. *)
Lemma normalizeItem_other (item : Obj) (k : string) :
  k ≠ "media" -> k ≠ "whatsappMessage" ->
  prop (Local.normalizeItem item) k = prop item k.
Proof.
  intros Hm Hw. unfold Local.normalizeItem.
  destruct (prop item "media") as [| |b|n|s|[|x l]|o];
    destruct (truthy (prop item "url"));
    match goal with
    | |- context [if ?c then _ else _] =>
        destruct c; autorewrite with js; reflexivity
    end.
Qed.

(** C6. [normalizeItem] is idempotent: for every raw item record,
    normalising the normalised record gives the same item as normalising
    once. *)
Theorem normalizeItem_idempotent (item : Obj) :
  Local.normalizeItem (Local.normalizeItem item) = Local.normalizeItem item.
Proof.
  pose proof (normalizeItem_media item) as Hmedia.
  pose proof (normalizeItem_message item) as Hmsg.
  pose proof (normalizeItem_other item "url") as Hurl.
  set (n := Local.normalizeItem item) in *.
  unfold Local.normalizeItem at 1. fold n.
  assert (Hfirst :
    match prop n "media" with
    | JArr (_ :: _) => n
    | _ =>
        if truthy (prop n "url") then
          set "media"
            (JArr [JObj (object [("type", or_ (prop n "type") (JStr "image"));
                                 ("url", prop n "url");
                                 ("filename", prop n "filename")])]) n
        else set "media" (JArr []) n
    end = n).
  { rewrite Hurl by congruence.
    destruct (prop item "media") as [| |b|m|s|[|x l]|o];
      destruct (truthy (prop item "url")) eqn:Hu; rewrite Hmedia;
      first [ reflexivity
            | apply set_same;
              [apply prop_lookup; [assumption | congruence] | congruence] ]. }
  rewrite Hfirst.
  destruct (prop item "whatsappMessage") as [| |b|m|[|c s]|l|o];
    rewrite Hmsg; reflexivity.
Qed.

(** C10. For every input record, the item [normalizeItem] returns has a
    [media] field that is an array (possibly empty) and a [whatsappMessage]
    field that is a non-empty string; when the input's [whatsappMessage] is
    missing or not a string, it is the fixed default message. *)
Theorem normalizeItem_fields (item : Obj) :
  (exists l, prop (Local.normalizeItem item) "media" = JArr l)
  /\ (exists s, s ≠ ""
        /\ prop (Local.normalizeItem item) "whatsappMessage" = JStr s)
  /\ (isString (prop item "whatsappMessage") = false ->
      prop (Local.normalizeItem item) "whatsappMessage"
      = JStr DEFAULT_WHATS_MESSAGE).
Proof.
  split; [|split].
  - rewrite normalizeItem_media.
    destruct (prop item "media") as [| |b|m|s|[|x l]|o];
      destruct (truthy (prop item "url")); eexists; reflexivity.
  - rewrite normalizeItem_message.
    destruct (prop item "whatsappMessage") as [| |b|m|[|c s]|l|o];
      eexists; (split; [|reflexivity]); discriminate.
  - intros Hs. rewrite normalizeItem_message.
    destruct (prop item "whatsappMessage") as [| |b|m|[|c s]|l|o];
      try reflexivity; discriminate.
Qed.

Lemma normalizeItem_fields_witness :
  isString (prop legacyItem "whatsappMessage") = false
  /\ prop (Local.normalizeItem legacyItem) "whatsappMessage"
     = JStr DEFAULT_WHATS_MESSAGE.
Proof.
  split; [reflexivity|].
  apply (proj2 (proj2 (normalizeItem_fields legacyItem))). reflexivity.
Defined.

(* ===================================================================== *)
(** ** Sanitised file names *)
(* ===================================================================== *)

Lemma safeName_safe (name : string) :
  allChars safeChar (Local.safeName name) = true.
Proof.
  unfold Local.safeName.
  induction name as [|c s IH]; [reflexivity|].
  cbn [mapChars allChars]. rewrite IH, andb_true_r.
  destruct (safeChar c) eqn:Hc; [assumption | reflexivity].
Qed.

Lemma safeName_length (name : string) :
  String.length (Local.safeName name) = String.length name.
Proof.
  unfold Local.safeName.
  induction name as [|c s IH]; cbn [mapChars String.length]; congruence.
Qed.

Lemma safeName_substituted (name : string) :
  Substituted "-" name (Local.safeName name).
Proof.
  unfold Local.safeName.
  induction name as [|c s IH]; cbn [mapChars]; [constructor|].
  destruct (safeChar c) eqn:Hc; constructor; assumption.
Qed.

Lemma replaceRuns_safe (s : string) (inRun : bool) :
  allChars safeChar (replaceRuns inRun s) = true.
Proof.
  revert inRun.
  induction s as [|c s IH]; intros inRun; [reflexivity|].
  cbn [replaceRuns].
  destruct (safeChar c) eqn:Hc.
  - cbn [allChars]. rewrite Hc, IH. reflexivity.
  - destruct inRun; [apply IH|].
    cbn [allChars]. rewrite IH. reflexivity.
Qed.

Lemma replaceRuns_substituted (s : string) :
  Substituted "_" s (replaceRuns false s)
  /\ forall c, safeChar c = false ->
               Substituted "_" (String c s) (String "_" (replaceRuns true s)).
Proof.
  induction s as [|a s [IH1 IH2]].
  - split; [constructor|]. intros c Hc. apply subst_char; [assumption|constructor].
  - cbn [replaceRuns]. destruct (safeChar a) eqn:Ha.
    + split.
      * apply subst_keep; assumption.
      * intros c Hc. apply subst_char; [assumption|].
        apply subst_keep; assumption.
    + split.
      * apply IH2. assumption.
      * intros c Hc. apply subst_run; [assumption..|]. apply IH2. assumption.
Qed.

Lemma replaceRuns_nonempty (c : ascii) (s : string) :
  replaceRuns false (String c s) ≠ "".
Proof.
  cbn [replaceRuns]. destruct (safeChar c); discriminate.
Qed.

Lemma sanitizeFilename_nonempty (c : ascii) (s : string) :
  sanitizeFilename (String c s) = replaceRuns false (String c s).
Proof.
  unfold sanitizeFilename. cbn [orElse].
  pose proof (replaceRuns_nonempty c s) as Hne.
  destruct (replaceRuns false (String c s)); [congruence | reflexivity].
Qed.

Lemma sanitizeFilename_safe (name : string) :
  allChars safeChar (sanitizeFilename name) = true.
Proof.
  unfold sanitizeFilename.
  match goal with
  | |- context [replaceRuns false ?x] =>
      pose proof (replaceRuns_safe x false) as Hs;
      destruct (replaceRuns false x)
  end; [reflexivity | exact Hs].
Qed.

(** C9. For every submitted file name, the sanitised name that goes into
    the storage key has only characters of [[A-Za-z0-9._-]], and it is the
    submitted name with every character outside that set substituted by a
    fixed replacement: ["-"], one for one, in the local server; ["_"], one
    for each run of such characters, in the hosted functions (where an
    empty name becomes ["file"]). *)
Theorem sanitized_names_are_safe (name : string) :
  (allChars safeChar (Local.safeName name) = true
   /\ String.length (Local.safeName name) = String.length name
   /\ Substituted "-" name (Local.safeName name))
  /\ (allChars safeChar (sanitizeFilename name) = true
      /\ (name ≠ "" -> Substituted "_" name (sanitizeFilename name))
      /\ sanitizeFilename "" = "file").
Proof.
  split; [split; [|split]|split; [|split]].
  - apply safeName_safe.
  - apply safeName_length.
  - apply safeName_substituted.
  - apply sanitizeFilename_safe.
  - intros Hne. destruct name as [|c s]; [congruence|].
    rewrite sanitizeFilename_nonempty. apply replaceRuns_substituted.
  - reflexivity.
Qed.

Lemma sanitized_names_are_safe_witness :
  "minha casa (1)!!.png" ≠ ""
  /\ Substituted "_" "minha casa (1)!!.png" "minha_casa_1_.png".
Proof.
  split; [discriminate|].
  apply (proj1 (proj2 (proj2 (sanitized_names_are_safe "minha casa (1)!!.png")))).
  discriminate.
Defined.

(* ===================================================================== *)
(** ** Lists, file parts and the body block *)
(* ===================================================================== *)

Lemma mapM_Forall2 {A B} (f : A -> Outcome B) (xs : list A) (ys : list B) :
  mapM f xs = Done ys -> Forall2 (fun x y => f x = Done y) xs ys.
Proof.
  revert ys. induction xs as [|x xs IH]; intros ys Hm.
  - injection Hm as <-. constructor.
  - cbn [mapM] in Hm. destruct (f x) as [y|] eqn:Hy; [|discriminate].
    destruct (mapM f xs) as [ys0|]; [|discriminate].
    injection Hm as <-. constructor; [exact Hy | apply IH; reflexivity].
Qed.

Lemma mapM_in {A B} (f : A -> Outcome B) (xs : list A) (ys : list B) :
  mapM f xs = Done ys ->
  forall x y, In x xs -> f x = Done y -> In y ys.
Proof.
  revert ys. induction xs as [|x0 xs IH]; intros ys Hm x y Hin Hf; [destruct Hin|].
  cbn [mapM] in Hm. destruct (f x0) as [y0|] eqn:H0; [|discriminate].
  destruct (mapM f xs) as [ys0|] eqn:Hrest; [|discriminate].
  injection Hm as <-. destruct Hin as [->|Hin].
  - left. congruence.
  - right. eapply IH; eauto.
Qed.

Lemma mapM_ok {A B} (f : A -> Outcome B) (xs : list A) :
  (forall x, In x xs -> exists y, f x = Done y) ->
  exists ys, mapM f xs = Done ys.
Proof.
  induction xs as [|x xs IH]; intros Hall; [exists []; reflexivity|].
  destruct (Hall x (or_introl eq_refl)) as [y Hy].
  destruct IH as [ys Hys]; [intros x' Hin; apply Hall; right; exact Hin|].
  exists (y :: ys). cbn [mapM]. rewrite Hy, Hys. reflexivity.
Qed.

Lemma forallb_In {A} (p : A -> bool) (xs : list A) x :
  forallb p xs = true -> In x xs -> p x = true.
Proof. intros Hall Hin. rewrite forallb_forall in Hall. apply Hall. exact Hin. Qed.

Lemma readable_get v k : readable v = true -> exists x, get v k = Done x.
Proof. destruct v; try discriminate; intros _; eexists; reflexivity. Qed.

Lemma eqb_empty s : s ≠ "" -> String.eqb s "" = false.
Proof. destruct s; [congruence | reflexivity]. Qed.

Lemma trim_nonempty s : trim s ≠ "" -> truthy (JStr s) = true.
Proof. destruct s; [intros H; contradiction H; reflexivity | reflexivity]. Qed.

Lemma busboy_tooLarge events :
  forall fields files tooLarge,
    (Hosted.busboy events fields files tooLarge).2
    = tooLarge
      || existsb (fun e => match e with
                           | Hosted.FileEvent _ _ _ size =>
                               (Hosted.MAX_FILE_SIZE <=? size)%N
                           | Hosted.FieldEvent _ _ => false
                           end) events.
Proof.
  induction events as [|[name value|fieldname filename mimeType size] events IH];
    intros fields files tooLarge; cbn [Hosted.busboy existsb].
  - rewrite orb_false_r. reflexivity.
  - rewrite IH. reflexivity.
  - rewrite IH, orb_assoc. reflexivity.
Qed.

Section with_body.
Context {S : Type}.
Implicit Types (req : Hosted.Request) (k : JValue -> list Hosted.Upload -> M S Response).

(** The three ways the body block ends: it goes on with the request's fields and files,
    answers 413, or throws. *)
Lemma withBody_cases req k (st : S) :
  Hosted.withBody req k st = k (fieldsOf req) (filesOf req) st
  \/ Hosted.withBody req k st
     = (Done (jsonResponse 413 (Hosted.errorBody "Arquivo acima de 40 MB.")), st)
  \/ exists e, Hosted.withBody req k st = (Raise e, st).
Proof.
  unfold Hosted.withBody, fieldsOf, filesOf.
  destruct (includes _ _); destruct (Hosted.payload req) as [events|v|];
    try (right; right; eexists; reflexivity);
    try (left; reflexivity).
  unfold Hosted.parseMultipart.
  destruct (Hosted.busboy events ∅ [] false) as [[fields files] tooLarge].
  destruct tooLarge; [|left; reflexivity].
  right; left. reflexivity.
Qed.
End with_body.

Lemma withBody_oversized {S} req (k : JValue -> list Hosted.Upload -> M S Response) st :
  includes (Hosted.contentTypeHeader req) "multipart/form-data" = true ->
  oversized req = true ->
  Hosted.withBody req k st
  = (Done (jsonResponse 413 (Hosted.errorBody "Arquivo acima de 40 MB.")), st).
Proof.
  intros Hct Hbig. unfold Hosted.withBody, oversized in *. rewrite Hct.
  destruct (Hosted.payload req) as [events| |]; try discriminate.
  unfold Hosted.parseMultipart.
  pose proof (busboy_tooLarge events ∅ [] false) as Hb.
  destruct (Hosted.busboy events ∅ [] false) as [[fields files] tooLarge].
  cbn [snd orb] in Hb. rewrite Hb.
  apply existsb_exists in Hbig as ([name value|fieldname filename mimeType size] & Hin & Hover);
    [discriminate|].
  assert (Hreach : existsb (fun e => match e with
                                     | Hosted.FileEvent _ _ _ size =>
                                         (Hosted.MAX_FILE_SIZE <=? size)%N
                                     | Hosted.FieldEvent _ _ => false
                                     end) events = true).
  { apply existsb_exists. eexists. split; [exact Hin|].
    apply N.leb_le, N.lt_le_incl, N.ltb_lt. exact Hover. }
  rewrite Hreach. reflexivity.
Qed.

Lemma withBody_read {S} req (k : JValue -> list Hosted.Upload -> M S Response) st :
  bodyRead req = true ->
  Hosted.withBody req k st = k (fieldsOf req) (filesOf req) st.
Proof.
  unfold bodyRead, Hosted.withBody, fieldsOf, filesOf, reachesLimit.
  destruct (includes _ _); destruct (Hosted.payload req) as [events|v|];
    try discriminate; try reflexivity.
  intros Hsmall. unfold Hosted.parseMultipart.
  pose proof (busboy_tooLarge events ∅ [] false) as Hb.
  destruct (Hosted.busboy events ∅ [] false) as [[fields files] tooLarge].
  cbn [snd orb] in Hb. rewrite Hb. apply negb_true_iff in Hsmall. rewrite Hsmall.
  reflexivity.
Qed.

Lemma catchAll_ok run resp st' :
  Hosted.catchAll run = (resp, st') -> status resp ≠ 500%Z -> run = (Done resp, st').
Proof.
  destruct run as [[res|e] st1]; cbn [Hosted.catchAll]; intros [= <- <-] Hne;
    [reflexivity | contradiction Hne; reflexivity].
Qed.

(* ===================================================================== *)
(** ** The table, the media stores and the uploads directory *)
(* ===================================================================== *)

Lemma filter_updated (target : string) (change : Row -> Row) (l : list Row) :
  (forall r, id r = target -> id (change r) = target) ->
  filter (fun r => id r = target)
         (map (fun r => if decide (id r = target) then change r else r) l)
  = map change (filter (fun r => id r = target) l).
Proof.
  intros Hid. induction l as [|r l IH]; [reflexivity|].
  cbn [map]. rewrite !filter_cons.
  destruct (decide (id r = target)) as [Heq|Hne].
  - rewrite decide_True by (apply Hid; exact Heq). cbn [map]. f_equal. exact IH.
  - rewrite decide_False by exact Hne. exact IH.
Qed.

Lemma rowOf_updated (target : string) (change : Row -> Row) (st : Store) :
  (forall r, id r = target -> id (change r) = target) ->
  rowOf target {| items := map (fun r => if decide (id r = target) then change r else r)
                               (items st);
                  blobs := blobs st |}
  = change <$> rowOf target st.
Proof.
  intros Hid. unfold rowOf. cbn [items]. rewrite filter_updated by exact Hid.
  destruct (filter _ (items st)); reflexivity.
Qed.

Lemma rowOf_in target st r : rowOf target st = Some r -> In r (items st) /\ id r = target.
Proof.
  unfold rowOf. intros Hr.
  destruct (filter _ (items st)) as [|x l] eqn:Hf; [discriminate|].
  injection Hr as ->.
  assert (Hin : r ∈ filter (fun r => id r = target) (items st)) by (rewrite Hf; left).
  apply list_elem_of_filter in Hin as [Hid Hin]. split; [|exact Hid].
  apply list_elem_of_In. exact Hin.
Qed.

Lemma rowOf_none target l :
  head (filter (fun r => Hosted.id r = target) l) = None ->
  filter (fun r => Hosted.id r ≠ target) l = l.
Proof.
  induction l as [|r l IH]; [reflexivity|].
  rewrite !filter_cons. destruct (decide (Hosted.id r = target)) as [Heq|Hne].
  - discriminate.
  - intros Hn. rewrite decide_True by exact Hne. f_equal. apply IH. exact Hn.
Qed.

Lemma rowOf_deleted target st blobs' :
  rowOf target {| Hosted.items := filter (fun r => Hosted.id r ≠ target) (Hosted.items st);
                  Hosted.blobs := blobs' |} = None.
Proof.
  unfold rowOf. cbn [Hosted.items].
  induction (Hosted.items st) as [|r l IH]; [reflexivity|].
  rewrite filter_cons. destruct (decide (Hosted.id r ≠ target)) as [Hne|Heq]; [|exact IH].
  rewrite filter_cons. rewrite decide_False by exact Hne. exact IH.
Qed.


Lemma removeBlob_run key st :
  exists st', removeBlob key st = (Done tt, st')
              /\ items st' = items st
              /\ (forall k, blobs st !! k = None -> blobs st' !! k = None)
              /\ (forall k, key = JStr k -> blobs st' !! k = None).
Proof.
  destruct key; cbn [removeBlob]; unfold ret, modify;
    eexists; (split; [reflexivity|]); cbn [items blobs];
    (split; [reflexivity|]); split; try (intros; discriminate); try (intros; assumption).
  - intros k Hk. destruct (decide (s = k)) as [->|Hne];
      [apply lookup_delete_eq | rewrite lookup_delete_ne by exact Hne; exact Hk].
  - intros k [= ->]. apply lookup_delete_eq.
Qed.

Lemma forEach_removeBlob_run keys :
  forall st, exists st',
    forEach removeBlob keys st = (Done tt, st')
    /\ items st' = items st
    /\ (forall k, blobs st !! k = None -> blobs st' !! k = None)
    /\ (forall k, In (JStr k) keys -> blobs st' !! k = None).
Proof.
  induction keys as [|key keys IH]; intros st.
  - exists st. repeat split; try reflexivity; [auto | intros k []].
  - cbn [forEach]. unfold bind.
    destruct (removeBlob_run key st) as (st1 & H1 & Hi1 & Hm1 & Hk1). rewrite H1.
    destruct (IH st1) as (st2 & H2 & Hi2 & Hm2 & Hk2). rewrite H2.
    exists st2. split; [reflexivity|]. split; [congruence|]. split; [auto|].
    intros k [->|Hin]; [apply Hm2, Hk1; reflexivity | apply Hk2; exact Hin].
Qed.

(** [removeStoredMedia] touches only the bucket, and when it ends normally
    every path an entry names holds nothing. *)
Lemma removeStoredMedia_run old st r st' :
  Supabase.removeStoredMedia old st = (r, st') ->
  items st' = items st
  /\ (forall k, blobs st !! k = None -> blobs st' !! k = None)
  /\ (r = Done tt ->
      forall entry p, In entry (default [] old) ->
                      get entry "path" = Done (JStr p) -> p ≠ "" ->
                      blobs st' !! p = None).
Proof.
  unfold Supabase.removeStoredMedia, bind, lift. intros Hrun.
  destruct (mapM _ (default [] old)) as [paths|e] eqn:Hpaths.
  - destruct (forEach_removeBlob_run (List.filter truthy paths) st)
      as (st1 & H1 & Hi & Hm & Hk).
    rewrite H1 in Hrun. inversion Hrun; subst. split; [exact Hi|]. split; [exact Hm|].
    intros _ entry p Hin Hget Hne. apply Hk. apply List.filter_In. split.
    + eapply mapM_in; [exact Hpaths | exact Hin | exact Hget].
    + destruct p; [congruence | reflexivity].
  - inversion Hrun; subst. split; [reflexivity|]. split; [auto|]. discriminate.
Qed.

Lemma removeStoredMedia_ok old st :
  forallb readable (default [] old) = true ->
  exists st', Supabase.removeStoredMedia old st = (Done tt, st')
              /\ Hosted.items st' = Hosted.items st.
Proof.
  intros Hall. unfold Supabase.removeStoredMedia, bind, lift.
  destruct (mapM_ok (fun item => get item "path") (default [] old)) as [paths Hp].
  { intros x Hin. apply readable_get. eapply forallb_In; eassumption. }
  rewrite Hp.
  destruct (forEach_removeBlob_run (List.filter truthy paths) st) as (st1 & H1 & Hi & _).
  exists st1. split; assumption.
Qed.

Lemma neon_insertRow_run r st :
  (Neon.insertRow r st
   = (Done tt, {| Hosted.items := Hosted.items st ++ [r]; Hosted.blobs := Hosted.blobs st |})
   /\ filter (fun x => Hosted.id x = Hosted.id r) (Hosted.items st) = [])
  \/ exists e, Neon.insertRow r st = (Raise e, st).
Proof.
  unfold Neon.insertRow, Hosted.selectById, Hosted.appendRow, bind, gets, modify, throw.
  cbv beta iota zeta.
  destruct (filter _ (Hosted.items st)); [left; split; reflexivity|].
  right. eexists. reflexivity.
Qed.

(** MediaRefs built from files are typed after the files' content types. *)
Lemma refs_typed keyField files refs :
  keyField ≠ "type" ->
  Forall2 (RefOf keyField) files refs ->
  TypedAs (map Hosted.contentType files) refs.
Proof.
  intros Hk. induction 1 as [|file ref files refs [key ->] _ IH]; [constructor|].
  cbn [map]. constructor; [|exact IH].
  eexists. split; [reflexivity|]. prop_object. reflexivity.
Qed.

(** [storeFiles] of the blob-store function never fails, leaves the table
    alone and builds one MediaRef for each file, in order. *)
Lemma neon_storeFiles_run env files itemId :
  forall n st, exists refs st',
    Neon.storeFiles env n files itemId st = (Done refs, st')
    /\ Hosted.items st' = Hosted.items st
    /\ Forall2 (RefOf "key") files refs.
Proof.
  induction files as [|file files IH]; intros n st.
  - exists [], st. repeat split. constructor.
  - cbn [Neon.storeFiles]. unfold bind, Hosted.putBlob, modify, ret.
    cbv beta iota zeta.
    match goal with
    | |- context [Neon.storeFiles env (S n) files itemId ?s] =>
        destruct (IH (S n) s) as (refs & st' & Hrun & Hitems & Hrefs)
    end.
    rewrite Hrun. cbv beta iota zeta.
    eexists _, st'. split; [reflexivity|]. split; [exact Hitems|].
    constructor; [|exact Hrefs]. eexists. reflexivity.
Qed.

(** [storeFiles] of the object-storage function leaves the table alone; when
    it returns, it has built one MediaRef for each file, in order, and a
    path that was free before is free afterwards or is the path of one of
    the new MediaRefs. *)
Lemma supabase_storeFiles_run env files itemId :
  forall n st r st',
    Supabase.storeFiles env n files itemId st = (r, st') ->
    Hosted.items st' = Hosted.items st
    /\ forall refs, r = Done refs ->
         Forall2 (RefOf "path") files refs
         /\ forall p, Hosted.blobs st !! p = None ->
              Hosted.blobs st' !! p = None
              \/ exists o, In (JObj o) refs /\ prop o "path" = JStr p.
Proof.
  induction files as [|file files IH]; intros n st r st' Hrun.
  - inversion Hrun; subst. split; [reflexivity|].
    intros refs [= <-]. split; [constructor|]. intros p Hp. left. exact Hp.
  - cbn [Supabase.storeFiles] in Hrun.
    unfold Supabase.upload, Hosted.putBlob in Hrun. monad_in Hrun.
    set (path := Hosted.storageKey itemId (Supabase.fileNow env n)
                                   (Supabase.fileUuid env n) file) in *.
    destruct (Hosted.blobs st !! path) eqn:Htaken; crunch Hrun.
    { inversion Hrun; subst. split; [reflexivity|]. intros refs; discriminate. }
    match type of Hrun with
    | context [Supabase.storeFiles env (S n) files itemId ?s] =>
        destruct (Supabase.storeFiles env (S n) files itemId s) as [r1 st2] eqn:Hrest;
        apply IH in Hrest as [Hitems Hrefs]
    end.
    cbn [Hosted.items Hosted.blobs] in *.
    destruct r1 as [media|e]; crunch Hrun; inversion Hrun; subst;
      (split; [exact Hitems|]); intros refs Heq; [|discriminate].
    injection Heq as <-.
    destruct (Hrefs media eq_refl) as [Hall Hblobs].
    split.
    + constructor; [eexists; reflexivity | exact Hall].
    + intros p Hp. destruct (decide (path = p)) as [<-|Hne].
      * right. eexists. split; [left; reflexivity|]. prop_object. reflexivity.
      * destruct (Hblobs p) as [Hnone | (o & Hin & Ho)].
        -- rewrite lookup_insert_ne by assumption. exact Hp.
        -- left. exact Hnone.
        -- right. exists o. split; [right; exact Hin | exact Ho].
Qed.

Lemma unlinkMedia_run entry st r st' :
  Local.unlinkMedia entry st = (r, st') ->
  Local.dataFile st' = Local.dataFile st
  /\ Local.uploadsDir st' ⊆ Local.uploadsDir st
  /\ (r = Done tt ->
      forall f, get entry "filename" = Done (JStr f) -> f ≠ "" ->
                f ∉ Local.uploadsDir st').
Proof.
  unfold Local.unlinkMedia, Local.unlink. intros Hrun. monad_in Hrun.
  destruct (get entry "filename") as [name|e]; crunch Hrun.
  - destruct name as [| |b|n|[|c s]|l|o]; cbn [truthy negb] in Hrun;
      try destruct b; try destruct (n =? 0)%Z; cbn [negb] in Hrun;
      inversion Hrun; subst; cbn [Local.dataFile Local.uploadsDir];
      (split; [reflexivity|]); (split; [set_solver|]);
      intros Hr f Hf Hne; try discriminate; try congruence.
    injection Hf as <-. set_solver.
  - inversion Hrun; subst. split; [reflexivity|]. split; [set_solver|]. discriminate.
Qed.

(** The loop that removes an item's files touches only the uploads
    directory, and when it ends normally every file an entry names is gone. *)
Lemma forEach_unlinkMedia_run entries :
  forall st r st',
    forEach Local.unlinkMedia entries st = (r, st') ->
    Local.dataFile st' = Local.dataFile st
    /\ Local.uploadsDir st' ⊆ Local.uploadsDir st
    /\ (r = Done tt ->
        forall entry f, In entry entries ->
                        get entry "filename" = Done (JStr f) -> f ≠ "" ->
                        f ∉ Local.uploadsDir st').
Proof.
  induction entries as [|entry entries IH]; intros st r st' Hrun.
  - inversion Hrun; subst. split; [reflexivity|]. split; [set_solver|].
    intros _ entry f [].
  - cbn [forEach] in Hrun. unfold bind in Hrun.
    destruct (Local.unlinkMedia entry st) as [r1 st1] eqn:H1.
    apply unlinkMedia_run in H1 as (Hd1 & Hu1 & Hf1).
    destruct r1 as [[]|e].
    + apply IH in Hrun as (Hd & Hu & Hf).
      split; [congruence|]. split; [set_solver|].
      intros Hr entry' f [<-|Hin] Hget Hne.
      * specialize (Hf1 eq_refl f Hget Hne). set_solver.
      * eapply Hf; eassumption.
    + inversion Hrun; subst. split; [assumption|]. split; [assumption|]. discriminate.
Qed.

Lemma forEach_unlinkMedia_ok entries :
  forallb unlinkable entries = true ->
  forall st, exists st', forEach Local.unlinkMedia entries st = (Done tt, st').
Proof.
  induction entries as [|entry entries IH]; intros Hall st.
  - exists st. reflexivity.
  - cbn [forallb] in Hall. apply andb_true_iff in Hall as [He Hrest].
    cbn [forEach]. unfold bind.
    assert (H1 : exists st1, Local.unlinkMedia entry st = (Done tt, st1)).
    { unfold Local.unlinkMedia, Local.unlink, bind, lift, ret, modify, throw, unlinkable in *.
      destruct (get entry "filename") as [name|]; [|discriminate].
      destruct name as [| |b|n|[|c s]|l|o]; cbn [truthy negb] in *;
        try discriminate; try (eexists; reflexivity);
        match goal with
        | |- context [if ?c then _ else _] => destruct c; try discriminate; eexists; reflexivity
        end. }
    destruct H1 as [st1 H1]. rewrite H1. apply IH. exact Hrest.
Qed.

Lemma neon_delete_loop entries :
  forallb readable entries = true ->
  forall st, exists st',
    forEach (fun item => let* key := lift (get item "key") in
                         if truthy key then Hosted.removeBlob key else ret tt)
            entries st = (Done tt, st')
    /\ Hosted.items st' = Hosted.items st.
Proof.
  induction entries as [|entry entries IH]; intros Hall st.
  - exists st. split; reflexivity.
  - cbn [forallb] in Hall. apply andb_true_iff in Hall as [He Hrest].
    cbn [forEach]. unfold bind at 1. unfold bind at 1. unfold lift.
    destruct (readable_get entry "key" He) as [key Hkey]. rewrite Hkey.
    destruct (truthy key).
    + destruct (removeBlob_run key st) as (st1 & H1 & Hi1 & _). rewrite H1.
      destruct (IH Hrest st1) as (st2 & H2 & Hi2). exists st2. split; [exact H2 | congruence].
    + unfold ret. apply IH. exact Hrest.
Qed.

(* ===================================================================== *)
(** ** Seeding and the branch on the method *)
(* ===================================================================== *)

(** An answer other than 500 comes from the branch on the method, run after
    a seeding step that succeeded. *)
Lemma neon_handler_ok env req st resp st' :
  Neon.handler env req st = (resp, st') ->
  status resp ≠ 500%Z ->
  exists st0, Neon.seedIfEmpty env st = (Done tt, st0)
              /\ Neon.dispatch env req st0 = (Done resp, st').
Proof.
  intros Hrun Hne. apply catchAll_ok in Hrun; [|exact Hne].
  unfold Neon.handle, bind in Hrun.
  destruct (Neon.seedIfEmpty env st) as [[[]|e] st0]; [|discriminate].
  exists st0. split; [reflexivity | exact Hrun].
Qed.

Lemma neon_seeded env st st0 :
  Neon.seedIfEmpty env st = (Done tt, st0) ->
  Hosted.items st ≠ [] -> st0 = st.
Proof.
  unfold Neon.seedIfEmpty, bind, gets, ret.
  destruct (Hosted.items st) as [|r l]; [congruence|].
  cbn. intros [= <-] _. reflexivity.
Qed.


Lemma neon_handler_seeded env req st st0 :
  Neon.seedIfEmpty env st = (Done tt, st0) ->
  Neon.handler env req st = Hosted.catchAll (Neon.dispatch env req st0).
Proof. intros Hs. unfold Neon.handler, Neon.handle, bind. rewrite Hs. reflexivity. Qed.

(** An answer other than 500 comes from the branch on the method, run with
    the environment set and after a seeding step that succeeded. *)
Lemma supabase_handler_ok env req st resp st' :
  Supabase.handler env req st = (resp, st') ->
  status resp ≠ 500%Z ->
  configured env
  /\ exists st0, Supabase.ensureSeed env st = (Done tt, st0)
                 /\ Supabase.dispatch env req st0 = (Done resp, st').
Proof.
  intros Hrun Hne. apply catchAll_ok in Hrun; [|exact Hne].
  unfold Supabase.handle, Supabase.getSupabase, configured, bind, ret, throw in Hrun |- *.
  destruct (Supabase.SUPABASE_URL env); [discriminate|].
  destruct (Supabase.SUPABASE_SERVICE_ROLE_KEY env); [discriminate|].
  split; [split; discriminate|].
  destruct (Supabase.ensureSeed env st) as [[[]|e] st0]; [|discriminate].
  exists st0. split; [reflexivity | exact Hrun].
Qed.

Lemma supabase_seed_present env st :
  Hosted.items st ≠ [] -> Supabase.ensureSeed env st = (Done tt, st).
Proof.
  unfold Supabase.ensureSeed, bind, gets, ret.
  destruct (Hosted.items st) as [|r l]; [congruence|]. reflexivity.
Qed.

Lemma supabase_handler_seeded env req st st0 :
  configured env ->
  Supabase.ensureSeed env st = (Done tt, st0) ->
  Supabase.handler env req st = Hosted.catchAll (Supabase.dispatch env req st0).
Proof.
  intros [Hu Hk] Hs.
  unfold Supabase.handler, Supabase.handle, Supabase.getSupabase, bind, ret.
  destruct (Supabase.SUPABASE_URL env); [congruence|].
  destruct (Supabase.SUPABASE_SERVICE_ROLE_KEY env); [congruence|].
  rewrite Hs. reflexivity.
Qed.

Lemma neon_dispatch_get env req :
  Hosted.toUpperCase (Hosted.method req) = "GET" ->
  Neon.dispatch env req = Neon.getBranch (Hosted.extractId (Hosted.pathname req)).
Proof. intros Hm. unfold Neon.dispatch. rewrite Hm. reflexivity. Qed.

Lemma neon_dispatch_post env req :
  Hosted.toUpperCase (Hosted.method req) = "POST" ->
  Neon.dispatch env req = Neon.postBranch env req.
Proof. intros Hm. unfold Neon.dispatch. rewrite Hm. reflexivity. Qed.

Lemma neon_dispatch_put env req :
  Hosted.toUpperCase (Hosted.method req) = "PUT" ->
  Neon.dispatch env req = Neon.putBranch env req (Hosted.extractId (Hosted.pathname req)).
Proof. intros Hm. unfold Neon.dispatch. rewrite Hm. reflexivity. Qed.

Lemma neon_dispatch_delete env req :
  Hosted.toUpperCase (Hosted.method req) = "DELETE" ->
  Neon.dispatch env req = Neon.deleteBranch (Hosted.extractId (Hosted.pathname req)).
Proof. intros Hm. unfold Neon.dispatch. rewrite Hm. reflexivity. Qed.

Lemma supabase_dispatch_get env req :
  Hosted.toUpperCase (Hosted.method req) = "GET" ->
  Supabase.dispatch env req
  = Supabase.getBranch env (Hosted.extractId (Hosted.pathname req)).
Proof. intros Hm. unfold Supabase.dispatch. rewrite Hm. reflexivity. Qed.

Lemma supabase_dispatch_post env req :
  Hosted.toUpperCase (Hosted.method req) = "POST" ->
  Supabase.dispatch env req = Supabase.postBranch env req.
Proof. intros Hm. unfold Supabase.dispatch. rewrite Hm. reflexivity. Qed.

Lemma supabase_dispatch_put env req :
  Hosted.toUpperCase (Hosted.method req) = "PUT" ->
  Supabase.dispatch env req
  = Supabase.putBranch env req (Hosted.extractId (Hosted.pathname req)).
Proof. intros Hm. unfold Supabase.dispatch. rewrite Hm. reflexivity. Qed.

Lemma supabase_dispatch_delete env req :
  Hosted.toUpperCase (Hosted.method req) = "DELETE" ->
  Supabase.dispatch env req
  = Supabase.deleteBranch (Hosted.extractId (Hosted.pathname req)).
Proof. intros Hm. unfold Supabase.dispatch. rewrite Hm. reflexivity. Qed.

(* ===================================================================== *)
(** ** Creating an item from files *)
(* ===================================================================== *)

Lemma local_refs_typed (parts : list Local.Part) :
  TypedAs (map Local.mimetype parts)
          (map Local.mediaOfFile (map Local.storedFile parts)).
Proof.
  induction parts as [|p parts IH]; [constructor|].
  cbn [map]. constructor; [|exact IH].
  eexists. split; [reflexivity|]. prop_object. reflexivity.
Qed.

(** What a 200 of the local POST route means. *)
Lemma local_post_created clock body parts st resp st' :
  Local.serve (Local.PostItems clock body parts) st = (resp, st') ->
  status resp = 200%Z ->
  exists newItem,
    Local.dataFile st' = Local.dataFile st ++ [newItem]
    /\ prop newItem "media"
       = JArr (map Local.mediaOfFile (map Local.storedFile parts)).
Proof.
  intros Hrun Hok.
  unfold Local.serve, Local.route, bind, Local.uploadArray in Hrun. crunch Hrun.
  destruct (existsb _ parts); crunch Hrun; [bad Hrun|].
  unfold Local.postItem, Local.readItems, Local.writeItems in Hrun. monad_in Hrun.
  destruct (trimOf (or_ (prop body "title") _)) as [title|]; crunch Hrun; [|bad Hrun].
  destruct (trimOf (or_ (prop body "desc") _)) as [desc|]; crunch Hrun; [|bad Hrun].
  destruct (trimOf (or_ (prop body "whatsappMessage") _)) as [message|];
    crunch Hrun; [|bad Hrun].
  destruct (map Local.storedFile parts) as [|file files] eqn:Hfiles;
    crunch Hrun; [bad Hrun|].
  cbn [Local.dataFile Local.uploadsDir] in Hrun.
  match type of Hrun with
  | context [Local.toItemResponse ?item] =>
      destruct (Local.toItemResponse item); crunch Hrun; [|bad Hrun];
      exists item
  end.
  inversion Hrun; subst. cbn [Local.dataFile].
  split; [reflexivity|]. prop_object. reflexivity.
Qed.



(* ===================================================================== *)
(** ** Updating an item *)
(* ===================================================================== *)

(** What a 200 of the local PUT route means. *)
Lemma local_put_updated targetId body parts st resp st' :
  Local.serve (Local.PutItem targetId body parts) st = (resp, st') ->
  status resp = 200%Z ->
  exists index item item' title desc message,
    Local.findIndex targetId (Local.dataFile st) = Some (index, item)
    /\ Local.dataFile st' = <[index := item']> (Local.dataFile st)
    /\ trimOf (or_ (prop body "title") (prop (Local.normalizeItem item) "title"))
       = Done title
    /\ trimOf (or_ (prop body "desc") (prop (Local.normalizeItem item) "desc"))
       = Done desc
    /\ trimOf (or_ (or_ (prop body "whatsappMessage")
                        (prop (Local.normalizeItem item) "whatsappMessage"))
                   (JStr DEFAULT_WHATS_MESSAGE))
       = Done message
    /\ prop item' "title" = JStr title
    /\ prop item' "desc" = JStr desc
    /\ prop item' "whatsappMessage" = JStr message
    /\ match parts with
       | [] => prop item' "media" = prop (Local.normalizeItem item) "media"
               /\ Local.uploadsDir st' = Local.uploadsDir st
       | _ :: _ =>
           prop item' "media"
           = JArr (map Local.mediaOfFile (map Local.storedFile parts))
           /\ forall old entry f,
                prop (Local.normalizeItem item) "media" = JArr old ->
                In entry old ->
                get entry "filename" = Done (JStr f) -> f ≠ "" ->
                f ∉ Local.uploadsDir st'
       end.
Proof.
  intros Hrun Hok.
  unfold Local.serve, Local.route, bind, Local.uploadArray in Hrun. crunch Hrun.
  destruct (existsb _ parts); crunch Hrun; [bad Hrun|].
  unfold Local.putItem, Local.readItems, Local.writeItems in Hrun. monad_in Hrun.
  cbn [Local.dataFile Local.uploadsDir] in Hrun.
  destruct (Local.findIndex targetId (Local.dataFile st)) as [[index item]|] eqn:Hfind;
    crunch Hrun; [|bad Hrun].
  set (n := Local.normalizeItem item) in *.
  destruct (trimOf (or_ (prop body "title") _)) as [title|] eqn:Ht;
    crunch Hrun; [|bad Hrun].
  destruct (trimOf (or_ (prop body "desc") _)) as [desc|] eqn:Hd;
    crunch Hrun; [|bad Hrun].
  destruct (trimOf (or_ (or_ (prop body "whatsappMessage") _) _)) as [message|] eqn:Hw;
    crunch Hrun; [|bad Hrun].
  destruct parts as [|part parts]; cbn [map] in Hrun; crunch Hrun.
  - match type of Hrun with
    | context [Local.toItemResponse ?it] =>
        destruct (Local.toItemResponse it); crunch Hrun; [|bad Hrun];
        exists index, item, it, title, desc, message
    end.
    inversion Hrun; subst. cbn [Local.dataFile Local.uploadsDir].
    repeat split; try assumption; try reflexivity.
    1-3: autorewrite with js; reflexivity.
    + autorewrite with js. reflexivity.
    + set_solver.
  - unfold Local.mediaList in Hrun.
    destruct (prop _ "media") as [| | | | |old|] eqn:Hold in Hrun;
      crunch Hrun; try bad Hrun.
    autorewrite with js in Hold. fold n in Hold.
    match type of Hrun with
    | context [forEach Local.unlinkMedia old ?s] =>
        destruct (forEach Local.unlinkMedia old s) as [r1 st1] eqn:Hun;
        apply forEach_unlinkMedia_run in Hun as (Hd1 & Hu1 & Hf1)
    end.
    destruct r1 as [[]|e]; crunch Hrun; [|bad Hrun].
    match type of Hrun with
    | context [Local.toItemResponse ?it] =>
        destruct (Local.toItemResponse it); crunch Hrun; [|bad Hrun];
        exists index, item, it, title, desc, message
    end.
    inversion Hrun; subst. cbn [Local.dataFile Local.uploadsDir].
    repeat split; try assumption; try reflexivity.
    1-4: autorewrite with js; reflexivity.
    intros old' entry f Hold' Hin Hget Hne.
    unfold n in Hold. rewrite Hold in Hold'. injection Hold' as <-.
    eapply Hf1; eauto.
Qed.

(** What a 200 of the blob-store function's PUT branch means. *)
Lemma neon_put_updated env req target st resp st' :
  Neon.putBranch env req (Some target) st = (Done resp, st') ->
  status resp = 200%Z ->
  exists current updated,
    rowOf target st = Some current
    /\ rowOf target st' = Some updated
    /\ title updated = orElse (supplied req "title") (title current)
    /\ description updated = orElse (supplied req "desc") (description current)
    /\ whatsapp_message updated
       = orElse (supplied req "whatsappMessage")
                (orElse (whatsapp_message current) DEFAULT_WHATS_MESSAGE)
    /\ match filesOf req with
       | [] =>
           match get (fieldsOf req) "media" with
           | Done (JArr (x :: l)) => media updated = Some (x :: l)
           | _ => media updated = media current
           end
       | files => exists refs, media updated = Some refs
                               /\ Forall2 (RefOf "key") files refs
       end
    /\ Done (body resp) = Neon.rowJson updated.
Proof.
  intros Hrun Hok. unfold Neon.putBranch in Hrun.
  destruct (withBody_cases req
              ltac:(match type of Hrun with withBody _ ?k _ = _ => exact k end) st)
    as [Hgo | [H413 | [e He]]];
    rewrite ?Hgo, ?H413, ?He in Hrun; [|bad Hrun|bad Hrun].
  clear Hgo. unfold selectById, updateRow in Hrun. monad_in Hrun.
  unfold supplied.
  destruct (filter _ (items st)) as [|current rest] eqn:Hsel; crunch Hrun; [bad Hrun|].
  destruct (get (fieldsOf req) "title") as [rawTitle|]; crunch Hrun; [|bad Hrun].
  destruct (get (fieldsOf req) "desc") as [rawDesc|]; crunch Hrun; [|bad Hrun].
  destruct (get (fieldsOf req) "whatsappMessage") as [rawMessage|]; crunch Hrun; [|bad Hrun].
  assert (Hcur : rowOf target st = Some current) by (unfold rowOf; rewrite Hsel; reflexivity).
  exists current.
  destruct (filesOf req) as [|file files] eqn:Hfiles.
  - destruct (get (fieldsOf req) "media") as [given|] eqn:Hgiven;
      crunch Hrun; [|bad Hrun].
    destruct given as [| | | | |[|x l]|]; crunch Hrun;
      match type of Hrun with
      | context [Neon.withMediaUrls ?m] =>
          destruct (Neon.withMediaUrls m) as [out|] eqn:Hout; crunch Hrun; [|bad Hrun]
      end;
      inversion Hrun; subst resp st'; clear Hrun;
      (rewrite rowOf_updated by (intros r Hr; exact Hr)); rewrite Hcur;
      cbn [fmap option_fmap option_map];
      (eexists; split; [reflexivity|]; split; [reflexivity|]);
      cbn [title description whatsapp_message media body];
      repeat split; try reflexivity;
      unfold Neon.rowJson; cbn [media id title description whatsapp_message];
      rewrite Hout; cbn [andThen]; apply rowOf_in in Hcur as [_ ->]; reflexivity.
  - destruct (neon_storeFiles_run env (file :: files) target 0 st)
      as (refs & st1 & Hst & Hitems & Hrefs).
    rewrite Hst in Hrun. crunch Hrun.
    destruct (Neon.withMediaUrls (Some refs)) as [out|] eqn:Hout; crunch Hrun; [|bad Hrun].
    inversion Hrun; subst resp st'. clear Hrun.
    assert (Hcur1 : rowOf target st1 = Some current)
      by (unfold rowOf; rewrite Hitems, Hsel; reflexivity).
    rewrite rowOf_updated by (intros r Hr; exact Hr). rewrite Hcur1.
    cbn [fmap option_fmap option_map].
    eexists. split; [exact Hcur|]. split; [reflexivity|].
    cbn [title description whatsapp_message media body].
    repeat split; try reflexivity.
    + exists refs. split; [reflexivity | exact Hrefs].
    + unfold Neon.rowJson. cbn [media id title description whatsapp_message].
      rewrite Hout. cbn [andThen]. apply rowOf_in in Hcur as [_ ->]. reflexivity.
Qed.

(** What a 200 of the object-storage function's PUT branch means. *)
Lemma supabase_put_updated env req target st resp st' :
  Supabase.putBranch env req (Some target) st = (Done resp, st') ->
  status resp = 200%Z ->
  exists current updated,
    rowOf target st = Some current
    /\ rowOf target st' = Some updated
    /\ title updated = orElse (supplied req "title") (title current)
    /\ description updated = orElse (supplied req "desc") (description current)
    /\ whatsapp_message updated
       = orElse (supplied req "whatsappMessage")
                (orElse (whatsapp_message current) DEFAULT_WHATS_MESSAGE)
    /\ match filesOf req with
       | [] =>
           match get (fieldsOf req) "media" with
           | Done (JArr (x :: l)) => media updated = Some (x :: l)
           | _ => media updated = Some (default [] (media current))
           end
       | files =>
           exists refs,
             media updated = Some refs
             /\ Forall2 (RefOf "path") files refs
             /\ forall entry p,
                  In entry (default [] (media current)) ->
                  get entry "path" = Done (JStr p) -> p ≠ "" ->
                  blobs st' !! p = None
                  \/ exists o, In (JObj o) refs /\ prop o "path" = JStr p
       end
    /\ Done (body resp) = Supabase.rowJson env updated.
Proof.
  intros Hrun Hok. unfold Supabase.putBranch in Hrun.
  destruct (withBody_cases req
              ltac:(match type of Hrun with withBody _ ?k _ = _ => exact k end) st)
    as [Hgo | [H413 | [e He]]];
    rewrite ?Hgo, ?H413, ?He in Hrun; [|bad Hrun|bad Hrun].
  clear Hgo. unfold selectById, updateRow in Hrun. monad_in Hrun.
  unfold supplied.
  destruct (filter _ (items st)) as [|current rest] eqn:Hsel; crunch Hrun; [bad Hrun|].
  destruct (get (fieldsOf req) "title") as [rawTitle|]; crunch Hrun; [|bad Hrun].
  destruct (get (fieldsOf req) "desc") as [rawDesc|]; crunch Hrun; [|bad Hrun].
  destruct (get (fieldsOf req) "whatsappMessage") as [rawMessage|]; crunch Hrun; [|bad Hrun].
  assert (Hcur : rowOf target st = Some current) by (unfold rowOf; rewrite Hsel; reflexivity).
  assert (Hid : id current = target) by (apply rowOf_in in Hcur as [_ H]; exact H).
  exists current.
  destruct (filesOf req) as [|file files] eqn:Hfiles.
  - destruct (get (fieldsOf req) "media") as [given|] eqn:Hgiven;
      crunch Hrun; [|bad Hrun].
    destruct given as [| | | | |[|x l]|]; crunch Hrun;
      match type of Hrun with
      | context [Supabase.rowJson env ?r] =>
          destruct (Supabase.rowJson env r) as [out|] eqn:Hout; crunch Hrun; [|bad Hrun]
      end;
      inversion Hrun; subst resp st'; clear Hrun;
      (rewrite rowOf_updated by (intros r Hr; exact Hid)); rewrite Hcur;
      cbn [fmap option_fmap option_map];
      (eexists; split; [reflexivity|]; split; [reflexivity|]);
      cbn [title description whatsapp_message media body];
      repeat split; first [reflexivity | symmetry; exact Hout].
  - destruct (Supabase.removeStoredMedia (Some (default [] (media current))) st)
      as [r0 st0] eqn:Hrm.
    apply removeStoredMedia_run in Hrm as (Hi0 & Hm0 & Hk0).
    destruct r0 as [[]|]; crunch Hrun; [|bad Hrun].
    destruct (Supabase.storeFiles env 0 (file :: files) (id current) st0)
      as [r1 st1] eqn:Hst.
    apply supabase_storeFiles_run in Hst as [Hi1 Hrefs].
    destruct r1 as [refs|]; crunch Hrun; [|bad Hrun].
    destruct (Hrefs refs eq_refl) as [Hall Hblobs].
    match type of Hrun with
    | context [Supabase.rowJson env ?r] =>
        destruct (Supabase.rowJson env r) as [out|] eqn:Hout; crunch Hrun; [|bad Hrun]
    end.
    inversion Hrun; subst resp st'; clear Hrun.
    assert (Hcur1 : rowOf target st1 = Some current)
      by (unfold rowOf; rewrite Hi1, Hi0, Hsel; reflexivity).
    rewrite rowOf_updated by (intros r Hr; exact Hid). rewrite Hcur1.
    cbn [fmap option_fmap option_map].
    eexists. split; [exact Hcur|]. split; [reflexivity|].
    cbn [title description whatsapp_message media body blobs].
    repeat split; try reflexivity; [|symmetry; exact Hout].
    exists refs. split; [reflexivity|]. split; [exact Hall|].
    intros entry p Hin Hget Hne. apply Hblobs.
    eapply (Hk0 eq_refl); eauto.
Qed.

(** C1 (amended). A PUT on an existing item that is answered 200 leaves the
    item's media list as follows.  With no new files the list is the one the
    item had (the normalised list in the local server; the stored list in
    the blob-store function; the stored list, or the empty list for a null
    column, in the object-storage function), unless a hosted request
    supplies a non-empty media descriptor array, which then replaces the
    list.  With new files the list is exactly the MediaRefs built from the
    files, one for each file and in order; the local server has then removed
    from the uploads directory every file an old entry names, and the
    object-storage function has removed from the bucket every blob an old
    entry's path names (a path that a new upload took again holds the new
    blob). *)
Theorem put_media_frame :
  (forall targetId body parts st resp st',
      Local.serve (Local.PutItem targetId body parts) st = (resp, st') ->
      status resp = 200%Z ->
      exists index item item',
        Local.findIndex targetId (Local.dataFile st) = Some (index, item)
        /\ Local.dataFile st' = <[index := item']> (Local.dataFile st)
        /\ (parts = [] ->
            prop item' "media" = prop (Local.normalizeItem item) "media")
        /\ (parts ≠ [] ->
            prop item' "media"
            = JArr (map Local.mediaOfFile (map Local.storedFile parts))
            /\ forall old entry f,
                 prop (Local.normalizeItem item) "media" = JArr old ->
                 In entry old ->
                 get entry "filename" = Done (JStr f) -> f ≠ "" ->
                 f ∉ Local.uploadsDir st'))
  /\ (forall env req target st resp st',
        Hosted.toUpperCase (Hosted.method req) = "PUT" ->
        Hosted.extractId (Hosted.pathname req) = Some target ->
        Neon.handler env req st = (resp, st') ->
        status resp = 200%Z ->
        exists st0 current updated,
          Neon.seedIfEmpty env st = (Done tt, st0)
          /\ rowOf target st0 = Some current
          /\ rowOf target st' = Some updated
          /\ (filesOf req = [] -> descriptorsOf req = [] ->
              Hosted.media updated = Hosted.media current)
          /\ (filesOf req = [] -> descriptorsOf req ≠ [] ->
              Hosted.media updated = Some (descriptorsOf req))
          /\ (filesOf req ≠ [] ->
              exists refs, Hosted.media updated = Some refs
                           /\ Forall2 (RefOf "key") (filesOf req) refs))
  /\ (forall env req target st resp st',
        Hosted.toUpperCase (Hosted.method req) = "PUT" ->
        Hosted.extractId (Hosted.pathname req) = Some target ->
        Supabase.handler env req st = (resp, st') ->
        status resp = 200%Z ->
        exists st0 current updated,
          Supabase.ensureSeed env st = (Done tt, st0)
          /\ rowOf target st0 = Some current
          /\ rowOf target st' = Some updated
          /\ (filesOf req = [] -> descriptorsOf req = [] ->
              Hosted.media updated = Some (default [] (Hosted.media current)))
          /\ (filesOf req = [] -> descriptorsOf req ≠ [] ->
              Hosted.media updated = Some (descriptorsOf req))
          /\ (filesOf req ≠ [] ->
              exists refs,
                Hosted.media updated = Some refs
                /\ Forall2 (RefOf "path") (filesOf req) refs
                /\ forall entry p,
                     In entry (default [] (Hosted.media current)) ->
                     get entry "path" = Done (JStr p) -> p ≠ "" ->
                     Hosted.blobs st' !! p = None
                     \/ exists o, In (JObj o) refs /\ prop o "path" = JStr p)).
Proof.
  split; [|split].
  - intros targetId body parts st resp st' Hrun Hok.
    destruct (local_put_updated _ _ _ _ _ _ Hrun Hok)
      as (index & item & item' & t & d & m & Hfind & Hfile & _ & _ & _ & _ & _ & _ & Hmedia).
    exists index, item, item'. split; [exact Hfind|]. split; [exact Hfile|].
    destruct parts as [|part parts].
    + split; [intros _; apply Hmedia | intros Hne; congruence].
    + split; [intros He; discriminate | intros _; exact Hmedia].
  - intros env req target st resp st' Hm Hid Hrun Hok.
    apply neon_handler_ok in Hrun as (st0 & Hseed & Hrun); [|rewrite Hok; discriminate].
    rewrite (neon_dispatch_put _ _ Hm), Hid in Hrun.
    destruct (neon_put_updated _ _ _ _ _ _ Hrun Hok)
      as (current & updated & Hcur & Hupd & _ & _ & _ & Hmedia & _).
    exists st0, current, updated. do 3 (split; [assumption|]).
    unfold descriptorsOf.
    destruct (filesOf req) as [|file files].
    + destruct (get (fieldsOf req) "media") as [[| | | | |[|x l]|]|];
        (split; [|split]); intros; congruence.
    + split; [|split]; [intros; discriminate..|]. intros _. exact Hmedia.
  - intros env req target st resp st' Hm Hid Hrun Hok.
    apply supabase_handler_ok in Hrun as (_ & st0 & Hseed & Hrun);
      [|rewrite Hok; discriminate].
    rewrite (supabase_dispatch_put _ _ Hm), Hid in Hrun.
    destruct (supabase_put_updated _ _ _ _ _ _ Hrun Hok)
      as (current & updated & Hcur & Hupd & _ & _ & _ & Hmedia & _).
    exists st0, current, updated. do 3 (split; [assumption|]).
    unfold descriptorsOf.
    destruct (filesOf req) as [|file files].
    + destruct (get (fieldsOf req) "media") as [[| | | | |[|x l]|]|];
        (split; [|split]); intros; congruence.
    + split; [|split]; [intros; discriminate..|]. intros _. exact Hmedia.
Qed.

(** C1 as stated fails: a PUT with no files whose JSON body carries two media
    descriptors replaces the one-entry media list of the row. *)
Lemma put_descriptors_replace_media :
  filesOf putDescriptors = []
  /\ exists before after,
       rowOf "a1" (sampleTable "key") = Some before
       /\ rowOf "a1" (Neon.handler sampleNeonEnv putDescriptors (sampleTable "key")).2
          = Some after
       /\ Hosted.media after ≠ Hosted.media before.
Proof.
  split; [reflexivity|].
  eexists _, _. split; [reflexivity|]. split; [vm_compute; reflexivity|].
  vm_compute. discriminate.
Qed.

(** The object-storage function replaces the media of row ["a1"] by one
    uploaded file. *)
Lemma put_media_frame_witness :
  Hosted.toUpperCase (Hosted.method putFiles) = "PUT"
  /\ Hosted.extractId (Hosted.pathname putFiles) = Some "a1"
  /\ status (Supabase.handler sampleSupabaseEnv putFiles (sampleTable "path")).1 = 200%Z
  /\ filesOf putFiles ≠ []
  /\ exists updated refs,
       rowOf "a1" (Supabase.handler sampleSupabaseEnv putFiles (sampleTable "path")).2
       = Some updated
       /\ Hosted.media updated = Some refs
       /\ Forall2 (RefOf "path") (filesOf putFiles) refs.
Proof.
  assert (Hfiles : filesOf putFiles ≠ []) by (vm_compute; discriminate).
  split; [reflexivity|]. split; [reflexivity|]. split; [vm_compute; reflexivity|].
  split; [exact Hfiles|].
  destruct (proj2 (proj2 put_media_frame) sampleSupabaseEnv putFiles "a1"
              (sampleTable "path")
              (Supabase.handler sampleSupabaseEnv putFiles (sampleTable "path")).1
              (Supabase.handler sampleSupabaseEnv putFiles (sampleTable "path")).2
              eq_refl eq_refl (surjective_pairing _) ltac:(vm_compute; reflexivity))
    as (st0 & current & updated & _ & _ & Hupd & _ & _ & Hnew).
  destruct (Hnew Hfiles) as (refs & Hmedia & Hrefs & _).
  exists updated, refs. split; [exact Hupd|]. split; [exact Hmedia | exact Hrefs].
Defined.

Lemma local_field_text body previous text field :
  trimOf (or_ (prop body field) previous) = Done text ->
  (forall s, prop body field = JStr s -> trim s ≠ "" -> text = trim s)
  /\ (truthy (prop body field) = false ->
      forall p, previous = JStr p -> text = trim p).
Proof.
  intros Ht. split.
  - intros s Hs Hne. unfold or_ in Ht. rewrite Hs, (trim_nonempty s Hne) in Ht.
    cbn [trimOf] in Ht. congruence.
  - intros Hf p Hp. unfold or_ in Ht. rewrite Hf, Hp in Ht.
    cbn [trimOf] in Ht. congruence.
Qed.

(** C8 (amended). A PUT on an existing item that is answered 200 stores, for
    each of title, desc and whatsappMessage: in the hosted functions, the
    text of the supplied value, trimmed, when that is not empty, and the
    previous value otherwise (the default message when the previous message
    is empty too); in the local server, the trimmed supplied string when
    that is not empty, and the trimmed previous (normalised) value when the
    body supplies no value or an empty one. *)
Theorem put_field_values :
  (forall targetId body parts st resp st',
      Local.serve (Local.PutItem targetId body parts) st = (resp, st') ->
      status resp = 200%Z ->
      exists index item item',
        Local.findIndex targetId (Local.dataFile st) = Some (index, item)
        /\ Local.dataFile st' = <[index := item']> (Local.dataFile st)
        /\ forall field, In field ["title"; "desc"; "whatsappMessage"] ->
             (forall s, prop body field = JStr s -> trim s ≠ "" ->
                        prop item' field = JStr (trim s))
             /\ (truthy (prop body field) = false ->
                 forall p, prop (Local.normalizeItem item) field = JStr p ->
                           prop item' field = JStr (trim p)))
  /\ (forall env req target st resp st',
        Hosted.toUpperCase (Hosted.method req) = "PUT" ->
        Hosted.extractId (Hosted.pathname req) = Some target ->
        Neon.handler env req st = (resp, st') ->
        status resp = 200%Z ->
        exists st0 current updated,
          Neon.seedIfEmpty env st = (Done tt, st0)
          /\ rowOf target st0 = Some current
          /\ rowOf target st' = Some updated
          /\ Hosted.title updated
             = orElse (supplied req "title") (Hosted.title current)
          /\ Hosted.description updated
             = orElse (supplied req "desc") (Hosted.description current)
          /\ Hosted.whatsapp_message updated
             = orElse (supplied req "whatsappMessage")
                      (orElse (Hosted.whatsapp_message current) DEFAULT_WHATS_MESSAGE))
  /\ (forall env req target st resp st',
        Hosted.toUpperCase (Hosted.method req) = "PUT" ->
        Hosted.extractId (Hosted.pathname req) = Some target ->
        Supabase.handler env req st = (resp, st') ->
        status resp = 200%Z ->
        exists st0 current updated,
          Supabase.ensureSeed env st = (Done tt, st0)
          /\ rowOf target st0 = Some current
          /\ rowOf target st' = Some updated
          /\ Hosted.title updated
             = orElse (supplied req "title") (Hosted.title current)
          /\ Hosted.description updated
             = orElse (supplied req "desc") (Hosted.description current)
          /\ Hosted.whatsapp_message updated
             = orElse (supplied req "whatsappMessage")
                      (orElse (Hosted.whatsapp_message current) DEFAULT_WHATS_MESSAGE)).
Proof.
  split; [|split].
  - intros targetId body parts st resp st' Hrun Hok.
    destruct (local_put_updated _ _ _ _ _ _ Hrun Hok)
      as (index & item & item' & t & d & m & Hfind & Hfile & Ht & Hd & Hm
          & Hpt & Hpd & Hpm & _).
    exists index, item, item'. split; [exact Hfind|]. split; [exact Hfile|].
    intros field [<-|[<-|[<-|[]]]].
    + rewrite Hpt. destruct (local_field_text _ _ _ _ Ht) as [H1 H2].
      split; [intros s Hs Hne; f_equal; eauto | intros Hf p Hp; f_equal; eauto].
    + rewrite Hpd. destruct (local_field_text _ _ _ _ Hd) as [H1 H2].
      split; [intros s Hs Hne; f_equal; eauto | intros Hf p Hp; f_equal; eauto].
    + rewrite Hpm. split.
      * intros s Hs Hne. f_equal. unfold or_ in Hm.
        rewrite Hs, (trim_nonempty s Hne) in Hm. crunch Hm.
        rewrite (trim_nonempty s Hne) in Hm.
        cbn [trimOf] in Hm. congruence.
      * intros Hf p Hp. f_equal.
        pose proof (normalizeItem_message item) as Hnorm. rewrite Hp in Hnorm.
        assert (Htrue : truthy (JStr p) = true).
        { destruct (prop item "whatsappMessage") as [| |b|n|[|c s]|l|o];
            injection Hnorm as ->; reflexivity. }
        unfold or_ in Hm. rewrite Hf, Hp in Hm. crunch Hm. rewrite Htrue in Hm.
        cbn [trimOf] in Hm. congruence.
  - intros env req target st resp st' Hm Hid Hrun Hok.
    apply neon_handler_ok in Hrun as (st0 & Hseed & Hrun); [|rewrite Hok; discriminate].
    rewrite (neon_dispatch_put _ _ Hm), Hid in Hrun.
    destruct (neon_put_updated _ _ _ _ _ _ Hrun Hok)
      as (current & updated & Hcur & Hupd & Ht & Hd & Hw & _).
    exists st0, current, updated. repeat split; assumption.
  - intros env req target st resp st' Hm Hid Hrun Hok.
    apply supabase_handler_ok in Hrun as (_ & st0 & Hseed & Hrun);
      [|rewrite Hok; discriminate].
    rewrite (supabase_dispatch_put _ _ Hm), Hid in Hrun.
    destruct (supabase_put_updated _ _ _ _ _ _ Hrun Hok)
      as (current & updated & Hcur & Hupd & Ht & Hd & Hw & _).
    exists st0, current, updated. repeat split; assumption.
Qed.

(** C8 as stated fails: a supplied title with spaces around it is not empty
    after trimming, and what is stored is the trimmed text, not the supplied
    value. *)
Lemma put_stores_trimmed_text :
  get (fieldsOf putDescriptors) "title" = Done (JStr " Casa nova ")
  /\ trim " Casa nova " ≠ ""
  /\ Hosted.title
       <$> rowOf "a1" (Neon.handler sampleNeonEnv putDescriptors (sampleTable "key")).2
     = Some "Casa nova"
  /\ "Casa nova" ≠ " Casa nova ".
Proof.
  split; [vm_compute; reflexivity|]. split; [vm_compute; discriminate|].
  split; [vm_compute; reflexivity | discriminate].
Qed.

(** The blob-store function takes a new title and keeps the description. *)
Lemma put_field_values_witness :
  status (Neon.handler sampleNeonEnv putDescriptors (sampleTable "key")).1 = 200%Z
  /\ supplied putDescriptors "title" = "Casa nova"
  /\ supplied putDescriptors "desc" = ""
  /\ exists current updated,
       rowOf "a1" (sampleTable "key") = Some current
       /\ rowOf "a1" (Neon.handler sampleNeonEnv putDescriptors (sampleTable "key")).2
          = Some updated
       /\ Hosted.title updated = "Casa nova"
       /\ Hosted.description updated = Hosted.description current.
Proof.
  split; [vm_compute; reflexivity|]. split; [vm_compute; reflexivity|].
  split; [vm_compute; reflexivity|].
  destruct (proj1 (proj2 put_field_values) sampleNeonEnv putDescriptors "a1"
              (sampleTable "key")
              (Neon.handler sampleNeonEnv putDescriptors (sampleTable "key")).1
              (Neon.handler sampleNeonEnv putDescriptors (sampleTable "key")).2
              eq_refl eq_refl (surjective_pairing _) ltac:(vm_compute; reflexivity))
    as (st0 & current & updated & Hseed & Hcur & Hupd & Ht & Hd & _).
  assert (Hst0 : st0 = sampleTable "key").
  { vm_compute in Hseed. injection Hseed as <-. vm_compute. reflexivity. }
  subst st0. exists current, updated.
  split; [exact Hcur|]. split; [exact Hupd|]. split; [exact Ht | exact Hd].
Defined.

(* ===================================================================== *)
(** ** Uploads over the size ceiling *)
(* ===================================================================== *)

(** C2 (amended). A POST, or a PUT, whose upload has a file over the ceiling
    is refused, and nothing is persisted.  The local server (500 MiB)
    answers 400 with multer's message and leaves the data file and the
    uploads directory as they were.  The hosted functions (40 MiB; a PUT
    needs the id in its path) answer 413 and leave the table and the media
    store as the seeding step left them, which is as they were whenever the
    table was not empty. *)
Theorem oversized_upload_rejected :
  (forall clock targetId body parts st,
      overLimit parts = true ->
      Local.serve (Local.PostItems clock body parts) st
      = (jsonResponse 400 (Local.errorBody "File too large"), st)
      /\ Local.serve (Local.PutItem targetId body parts) st
         = (jsonResponse 400 (Local.errorBody "File too large"), st))
  /\ (forall env req st st0,
        uploads req ->
        includes (Hosted.contentTypeHeader req) "multipart/form-data" = true ->
        oversized req = true ->
        Neon.seedIfEmpty env st = (Done tt, st0) ->
        Neon.handler env req st
        = (jsonResponse 413 (Hosted.errorBody "Arquivo acima de 40 MB."), st0)
        /\ (Hosted.items st ≠ [] -> st0 = st))
  /\ (forall env req st st0,
        configured env ->
        uploads req ->
        includes (Hosted.contentTypeHeader req) "multipart/form-data" = true ->
        oversized req = true ->
        Supabase.ensureSeed env st = (Done tt, st0) ->
        Supabase.handler env req st
        = (jsonResponse 413 (Hosted.errorBody "Arquivo acima de 40 MB."), st0)
        /\ (Hosted.items st ≠ [] -> st0 = st)).
Proof.
  split; [|split].
  - intros clock targetId body parts st Hbig. unfold overLimit in Hbig.
    unfold Local.serve, Local.route, bind, Local.uploadArray.
    rewrite Hbig. split; reflexivity.
  - intros env req st st0 Hup Hct Hbig Hseed. split.
    + rewrite (neon_handler_seeded _ _ _ _ Hseed).
      destruct Hup as [Hm | [Hm Hid]].
      * rewrite (neon_dispatch_post _ _ Hm). unfold Neon.postBranch.
        rewrite withBody_oversized by assumption. reflexivity.
      * rewrite (neon_dispatch_put _ _ Hm). unfold Neon.putBranch.
        destruct (Hosted.extractId (Hosted.pathname req)); [|congruence].
        rewrite withBody_oversized by assumption. reflexivity.
    + intros Hne. eapply neon_seeded; eassumption.
  - intros env req st st0 Hcfg Hup Hct Hbig Hseed. split.
    + rewrite (supabase_handler_seeded _ _ _ _ Hcfg Hseed).
      destruct Hup as [Hm | [Hm Hid]].
      * rewrite (supabase_dispatch_post _ _ Hm). unfold Supabase.postBranch.
        rewrite withBody_oversized by assumption. reflexivity.
      * rewrite (supabase_dispatch_put _ _ Hm). unfold Supabase.putBranch.
        destruct (Hosted.extractId (Hosted.pathname req)); [|congruence].
        rewrite withBody_oversized by assumption. reflexivity.
    + intros Hne. rewrite (supabase_seed_present env st Hne) in Hseed. congruence.
Qed.

(** C2 as stated fails: the local server answers a file of 500 MiB and one
    byte with 400, not 413. *)
Lemma local_oversized_answers_400 :
  overLimit [sampleHuge] = true
  /\ status (Local.serve (Local.PostItems sampleClock sampleBody [sampleHuge]) emptyDisk).1
     = 400%Z.
Proof. split; vm_compute; reflexivity. Qed.

(** The blob-store function refuses a file of 40 MiB and one byte. *)
Lemma oversized_upload_rejected_witness :
  uploads postHuge
  /\ includes (Hosted.contentTypeHeader postHuge) "multipart/form-data" = true
  /\ oversized postHuge = true
  /\ Neon.handler sampleNeonEnv postHuge (sampleTable "key")
     = (jsonResponse 413 (Hosted.errorBody "Arquivo acima de 40 MB."), sampleTable "key").
Proof.
  assert (Hup : uploads postHuge) by (left; reflexivity).
  assert (Hct : includes (Hosted.contentTypeHeader postHuge) "multipart/form-data" = true)
    by (vm_compute; reflexivity).
  assert (Hbig : oversized postHuge = true) by (vm_compute; reflexivity).
  split; [exact Hup|]. split; [exact Hct|]. split; [exact Hbig|].
  apply (proj1 (proj2 oversized_upload_rejected) sampleNeonEnv postHuge
               (sampleTable "key") (sampleTable "key") Hup Hct Hbig).
  vm_compute. reflexivity.
Defined.

(* ===================================================================== *)
(** ** Deleting an item *)
(* ===================================================================== *)

(** The DELETE branch of the blob-store function, for a path with an id. *)
Lemma neon_delete_run target st :
  match rowOf target st with
  | None =>
      Neon.deleteBranch (Some target) st = (Done (jsonResponse 200 okBody), st)
  | Some row =>
      forallb readable (default [] (Hosted.media row)) = true ->
      exists st', Neon.deleteBranch (Some target) st = (Done (jsonResponse 200 okBody), st')
                  /\ rowOf target st' = None
  end.
Proof.
  unfold rowOf, Neon.deleteBranch, Hosted.selectById, Hosted.deleteRow.
  unfold bind at 1. unfold gets. cbv beta iota zeta.
  destruct (filter _ (Hosted.items st)) as [|row rest] eqn:Hsel; cbn [head].
  - unfold bind, ret, modify. cbv beta iota zeta.
    destruct st as [rows store]. cbn [Hosted.items Hosted.blobs] in *.
    rewrite Hsel. cbn [Hosted.items Hosted.blobs].
    do 2 f_equal. apply rowOf_none. rewrite Hsel. reflexivity.
  - intros Hall. unfold bind at 1.
    destruct (neon_delete_loop _ Hall st) as (st1 & H1 & Hi1). rewrite H1.
    unfold bind, ret, modify. cbv beta iota zeta. eexists. split; [reflexivity|].
    rewrite Hi1. apply rowOf_deleted.
Qed.

(** The DELETE branch of the object-storage function, for a path with an
    id. *)
Lemma supabase_delete_run target st :
  match rowOf target st with
  | None =>
      Supabase.deleteBranch (Some target) st = (Done (jsonResponse 200 okBody), st)
  | Some row =>
      forallb readable (default [] (Hosted.media row)) = true ->
      exists st', Supabase.deleteBranch (Some target) st
                  = (Done (jsonResponse 200 okBody), st')
                  /\ rowOf target st' = None
  end.
Proof.
  unfold rowOf, Supabase.deleteBranch, Hosted.selectById, Hosted.deleteRow.
  unfold bind at 1. unfold gets. cbv beta iota zeta.
  destruct (filter _ (Hosted.items st)) as [|row rest] eqn:Hsel; cbn [head].
  - unfold bind, ret, modify. cbv beta iota zeta.
    destruct st as [rows store]. cbn [Hosted.items Hosted.blobs] in *.
    rewrite Hsel. cbn [Hosted.items Hosted.blobs].
    do 2 f_equal. apply rowOf_none. rewrite Hsel. reflexivity.
  - intros Hall. unfold bind at 1. destruct (Hosted.media row) as [entries|] eqn:Hmedia.
    + destruct (removeStoredMedia_ok (Some entries) st Hall) as (st1 & H1 & Hi1).
      rewrite H1. unfold bind, ret, modify. cbv beta iota zeta.
      eexists. split; [reflexivity|]. rewrite Hi1. apply rowOf_deleted.
    + unfold bind, ret, modify. cbv beta iota zeta.
      eexists. split; [reflexivity|]. apply rowOf_deleted.
Qed.

(** C3 (amended). DELETE.  Local server (its route always has an id): an
    id that names no item is answered 404 and nothing changes; an id that
    names an item each of whose media entries, after normalisation, has a
    [filename] that is a string or falsy (so that no entry is [null] or
    [undefined]) is answered 200 [{ok:true}] and the record is removed.
    Hosted functions, once the seeding step has succeeded (and, for the
    object-storage function, with its environment variables set): a path
    with no id is answered 400; a path with an id that names no row is
    answered 200 [{ok:true}] and the store stays as seeding left it; a path with an id that
    names a row none of whose stored media entries is [null] or [undefined]
    is answered 200 [{ok:true}], and the id names no row afterwards. *)
Theorem delete_responses :
  (forall targetId st,
      match Local.findIndex targetId (Local.dataFile st) with
      | None =>
          Local.serve (Local.DeleteItem targetId) st
          = (jsonResponse 404 (Local.errorBody "Not found"), st)
      | Some (index, item) =>
          deletable item = true ->
          exists st',
            Local.serve (Local.DeleteItem targetId) st = (jsonResponse 200 okBody, st')
            /\ Local.dataFile st' = delete index (Local.dataFile st)
      end)
  /\ (forall env req st st0,
        Hosted.toUpperCase (Hosted.method req) = "DELETE" ->
        Neon.seedIfEmpty env st = (Done tt, st0) ->
        match Hosted.extractId (Hosted.pathname req) with
        | None =>
            Neon.handler env req st
            = (jsonResponse 400 (Hosted.errorBody "Missing id."), st0)
        | Some target =>
            match rowOf target st0 with
            | None => Neon.handler env req st = (jsonResponse 200 okBody, st0)
            | Some row =>
                forallb readable (default [] (Hosted.media row)) = true ->
                exists st', Neon.handler env req st = (jsonResponse 200 okBody, st')
                            /\ rowOf target st' = None
            end
        end)
  /\ (forall env req st st0,
        configured env ->
        Hosted.toUpperCase (Hosted.method req) = "DELETE" ->
        Supabase.ensureSeed env st = (Done tt, st0) ->
        match Hosted.extractId (Hosted.pathname req) with
        | None =>
            Supabase.handler env req st
            = (jsonResponse 400 (Hosted.errorBody "Missing id."), st0)
        | Some target =>
            match rowOf target st0 with
            | None => Supabase.handler env req st = (jsonResponse 200 okBody, st0)
            | Some row =>
                forallb readable (default [] (Hosted.media row)) = true ->
                exists st', Supabase.handler env req st = (jsonResponse 200 okBody, st')
                            /\ rowOf target st' = None
            end
        end).
Proof.
  split; [|split].
  - intros targetId st.
    unfold Local.serve, Local.route, Local.deleteItem, Local.readItems, Local.writeItems,
      Local.mediaList, deletable.
    unfold bind, gets, lift, ret, modify. cbv beta iota zeta.
    destruct (Local.findIndex targetId (Local.dataFile st)) as [[index item]|];
      [|reflexivity].
    intros Hdel.
    destruct (prop (Local.normalizeItem item) "media") as [| | | | |entries|];
      try discriminate.
    destruct (forEach_unlinkMedia_ok entries Hdel st) as [st1 H1].
    rewrite H1. eexists. split; reflexivity.
  - intros env req st st0 Hm Hseed.
    rewrite (neon_handler_seeded _ _ _ _ Hseed), (neon_dispatch_delete _ _ Hm).
    destruct (Hosted.extractId (Hosted.pathname req)) as [target|]; [|reflexivity].
    pose proof (neon_delete_run target st0) as Hrun.
    destruct (rowOf target st0) as [row|].
    + intros Hall. destruct (Hrun Hall) as (st' & H1 & H2).
      exists st'. rewrite H1. split; [reflexivity | exact H2].
    + rewrite Hrun. reflexivity.
  - intros env req st st0 Hcfg Hm Hseed.
    rewrite (supabase_handler_seeded _ _ _ _ Hcfg Hseed), (supabase_dispatch_delete _ _ Hm).
    destruct (Hosted.extractId (Hosted.pathname req)) as [target|]; [|reflexivity].
    pose proof (supabase_delete_run target st0) as Hrun.
    destruct (rowOf target st0) as [row|].
    + intros Hall. destruct (Hrun Hall) as (st' & H1 & H2).
      exists st'. rewrite H1. split; [reflexivity | exact H2].
    + rewrite Hrun. reflexivity.
Qed.

(** C3 as stated fails: both hosted functions answer the DELETE of an id that
    names no row with 200 [{ok:true}], not 404, and change nothing. *)
Lemma hosted_delete_unknown_answers_200 :
  rowOf "zz" (sampleTable "key") = None
  /\ Neon.handler sampleNeonEnv deleteUnknown (sampleTable "key")
     = (jsonResponse 200 okBody, sampleTable "key")
  /\ Supabase.handler sampleSupabaseEnv deleteUnknown (sampleTable "path")
     = (jsonResponse 200 okBody, sampleTable "path").
Proof. repeat split; vm_compute; reflexivity. Qed.

(** Each of the three servers deletes a stored item: the local server the
    item made from two files, the hosted functions row ["a1"]. *)
Lemma delete_responses_witness :
  (exists st', Local.serve (Local.DeleteItem sampleItemId) sampleDisk
               = (jsonResponse 200 okBody, st')
               /\ Local.dataFile st' = delete 0 (Local.dataFile sampleDisk))
  /\ (Hosted.toUpperCase (Hosted.method deleteKnown) = "DELETE"
      /\ rowOf "a1" (sampleTable "key") = Some (sampleRow "key")
      /\ exists st', Neon.handler sampleNeonEnv deleteKnown (sampleTable "key")
                     = (jsonResponse 200 okBody, st')
                     /\ rowOf "a1" st' = None)
  /\ (rowOf "a1" (sampleTable "path") = Some (sampleRow "path")
      /\ exists st', Supabase.handler sampleSupabaseEnv deleteKnown (sampleTable "path")
                     = (jsonResponse 200 okBody, st')
                     /\ rowOf "a1" st' = None).
Proof.
  destruct delete_responses as (Hlocal & Hneon & Hsupabase).
  split; [|split].
  - exact (Hlocal sampleItemId sampleDisk eq_refl).
  - split; [reflexivity|]. split; [reflexivity|].
    apply (Hneon sampleNeonEnv deleteKnown (sampleTable "key") (sampleTable "key") eq_refl).
    + vm_compute. reflexivity.
    + vm_compute. reflexivity.
  - split; [reflexivity|].
    apply (Hsupabase sampleSupabaseEnv deleteKnown (sampleTable "path") (sampleTable "path")).
    + split; vm_compute; discriminate.
    + reflexivity.
    + vm_compute. reflexivity.
    + vm_compute. reflexivity.
Defined.

(* ===================================================================== *)
(** ** Creating an item without files *)
(* ===================================================================== *)

Lemma withMediaUrl_ok item : readable item = true -> exists v, Neon.withMediaUrl item = Done v.
Proof.
  intros Hr. unfold Neon.withMediaUrl.
  destruct item; try discriminate; cbn [get andThen truthy negb];
    try (eexists; reflexivity).
  destruct (truthy (prop o "url")); [eexists; reflexivity|].
  destruct (truthy (prop o "key")); eexists; reflexivity.
Qed.

Lemma withPublicUrl_ok env item :
  readable item = true -> exists v, Supabase.withPublicUrl env item = Done v.
Proof.
  intros Hr. unfold Supabase.withPublicUrl.
  destruct item; try discriminate; cbn [get andThen truthy negb];
    try (eexists; reflexivity).
  destruct (truthy (prop o "url")); [eexists; reflexivity|].
  destruct (truthy (prop o "path")); eexists; reflexivity.
Qed.

Lemma withMediaUrls_ok entries :
  forallb readable entries = true -> exists out, Neon.withMediaUrls (Some entries) = Done out.
Proof.
  intros Hall. apply mapM_ok. intros x Hin. apply withMediaUrl_ok.
  eapply forallb_In; eassumption.
Qed.

Lemma withPublicUrls_ok env entries :
  forallb readable entries = true ->
  exists out, Supabase.withPublicUrls env (Some entries) = Done out.
Proof.
  intros Hall. apply mapM_ok. intros x Hin. apply withPublicUrl_ok.
  eapply forallb_In; eassumption.
Qed.



Lemma trimOf_textual v fallback :
  textual v = true -> exists text, trimOf (or_ v (JStr fallback)) = Done text.
Proof.
  unfold textual, or_. destruct (truthy v) eqn:Ht; cbn [negb orb].
  - destruct v; try discriminate. intros _. eexists. reflexivity.
  - intros _. eexists. reflexivity.
Qed.




(* ===================================================================== *)
(** ** The media list of an item created from files *)
(* ===================================================================== *)

Lemma local_refs_of_parts (parts : list Local.Part) :
  map Local.mediaOfFile (map Local.storedFile parts) = map localRef parts.
Proof. rewrite map_map. reflexivity. Qed.

(** [storeFiles] of the blob-store function builds, for each file and in
    order, the MediaRef of the file under its storage key. *)
Lemma neon_storeFiles_refs env files itemId :
  forall n st,
    (Neon.storeFiles env n files itemId st).1
    = Done (zip_with (storedRef "key") files (storageKeys env n itemId files)).
Proof.
  induction files as [|file files IH]; intros n st; [reflexivity|].
  cbn [Neon.storeFiles storageKeys zip_with]. unfold bind, Hosted.putBlob, modify, ret.
  cbv beta iota zeta.
  match goal with
  | |- context [Neon.storeFiles env (S n) files itemId ?s] =>
      specialize (IH (S n) s);
      destruct (Neon.storeFiles env (S n) files itemId s) as [r st'] eqn:Hrun
  end.
  cbn [fst] in IH. subst r. reflexivity.
Qed.

(** When [storeFiles] of the object-storage function returns, it has built,
    for each file and in order, the MediaRef of the file under its path. *)
Lemma supabase_storeFiles_refs env files itemId :
  forall n st refs st',
    Supabase.storeFiles env n files itemId st = (Done refs, st') ->
    refs = zip_with (storedRef "path") files (storagePaths env n itemId files).
Proof.
  induction files as [|file files IH]; intros n st refs st' Hrun.
  - injection Hrun as <- _. reflexivity.
  - cbn [Supabase.storeFiles] in Hrun.
    unfold Supabase.upload, Hosted.putBlob in Hrun. monad_in Hrun.
    destruct (Hosted.blobs st !! _); crunch Hrun; [discriminate|].
    match type of Hrun with
    | context [Supabase.storeFiles env (S n) files itemId ?s] =>
        destruct (Supabase.storeFiles env (S n) files itemId s) as [[media|e] st2] eqn:Hrest;
        crunch Hrun; [|discriminate]
    end.
    apply IH in Hrest. injection Hrun as <- _. subst media. reflexivity.
Qed.

(** [storeFiles] of the object-storage function goes through when the paths
    it draws are distinct and free. *)
Lemma supabase_storeFiles_ok env files itemId :
  forall n st,
    NoDup (storagePaths env n itemId files) ->
    Forall (fun p => Hosted.blobs st !! p = None) (storagePaths env n itemId files) ->
    exists st', Supabase.storeFiles env n files itemId st
                = (Done (zip_with (storedRef "path") files (storagePaths env n itemId files)),
                   st')
                /\ Hosted.items st' = Hosted.items st.
Proof.
  induction files as [|file files IH]; intros n st Hnd Hfree.
  - exists st. split; reflexivity.
  - cbn [storagePaths] in Hnd, Hfree. apply NoDup_cons in Hnd as [Hnotin Hnd].
    apply Forall_cons in Hfree as [Hfree1 Hfree].
    cbn [Supabase.storeFiles storagePaths zip_with].
    unfold Supabase.upload, Hosted.putBlob, bind, gets, modify, ret, throw.
    cbv beta iota zeta. rewrite Hfree1. cbv beta iota zeta.
    match goal with
    | |- context [Supabase.storeFiles env (S n) files itemId ?s] =>
        destruct (IH (S n) s Hnd) as (st' & Hrun & Hitems)
    end.
    { cbn [Hosted.blobs]. apply Forall_forall. intros p Hin.
      rewrite lookup_insert_ne by (intros Heq; apply Hnotin; rewrite Heq; exact Hin).
      rewrite Forall_forall in Hfree. apply Hfree. exact Hin. }
    rewrite Hrun. exists st'. split; [reflexivity | exact Hitems].
Qed.

Lemma storedRefs_related keyField files keys :
  length keys = length files ->
  Forall2 (RefOf keyField) files (zip_with (storedRef keyField) files keys).
Proof.
  revert keys. induction files as [|file files IH]; intros [|key keys] Hlen;
    try discriminate; cbn [zip_with]; constructor.
  - exists key. reflexivity.
  - apply IH. cbn [length] in Hlen. congruence.
Qed.

Lemma storageKeys_length env n itemId files :
  length (storageKeys env n itemId files) = length files.
Proof.
  revert n. induction files as [|file files IH]; intros n; [reflexivity|].
  cbn [storageKeys length]. rewrite IH. reflexivity.
Qed.

Lemma storagePaths_length env n itemId files :
  length (storagePaths env n itemId files) = length files.
Proof.
  revert n. induction files as [|file files IH]; intros n; [reflexivity|].
  cbn [storagePaths length]. rewrite IH. reflexivity.
Qed.

Lemma storedRefs_readable keyField files keys :
  forallb readable (zip_with (storedRef keyField) files keys) = true.
Proof.
  revert keys. induction files as [|file files IH]; intros [|key keys]; try reflexivity.
  cbn [zip_with forallb]. rewrite IH. reflexivity.
Qed.

(** A 201 of the blob-store function's POST branch for a request with
    files: the new row's media list is the MediaRefs of the files. *)
Lemma neon_post_stored env req st resp st' :
  Neon.postBranch env req st = (Done resp, st') ->
  status resp = 201%Z ->
  filesOf req ≠ [] ->
  exists row,
    Hosted.items st' = Hosted.items st ++ [row]
    /\ Hosted.media row
       = Some (zip_with (storedRef "key") (filesOf req)
                        (storageKeys env 0 (Neon.newId env) (filesOf req))).
Proof.
  intros Hrun Hok Hfiles. unfold Neon.postBranch in Hrun.
  destruct (withBody_cases req
              ltac:(match type of Hrun with Hosted.withBody _ ?k _ = _ => exact k end) st)
    as [Hgo | [H413 | [e He]]];
    rewrite ?Hgo, ?H413, ?He in Hrun; [|bad Hrun|bad Hrun].
  clear Hgo. monad_in Hrun.
  destruct (get (fieldsOf req) "title") as [rawTitle|]; crunch Hrun; [|bad Hrun].
  destruct (get (fieldsOf req) "desc") as [rawDesc|]; crunch Hrun; [|bad Hrun].
  destruct (get (fieldsOf req) "whatsappMessage") as [rawMessage|]; crunch Hrun; [|bad Hrun].
  destruct (_ || _); crunch Hrun; [bad Hrun|].
  destruct (filesOf req) as [|file files]; [congruence|].
  destruct (neon_storeFiles_run env (file :: files) (Neon.newId env) 0 st)
    as (refs & st1 & Hst & Hitems & _).
  pose proof (neon_storeFiles_refs env (file :: files) (Neon.newId env) 0 st) as Hpin.
  rewrite Hst in Hpin. cbn [fst] in Hpin. injection Hpin as Hpin.
  rewrite Hst in Hrun. crunch Hrun.
  destruct refs as [|ref refs]; crunch Hrun; [bad Hrun|].
  match type of Hrun with
  | context [Neon.insertRow ?r st1] =>
      destruct (neon_insertRow_run r st1) as [[Hins _] | [e Hins]];
        rewrite Hins in Hrun; crunch Hrun; [|bad Hrun];
      exists r
  end.
  destruct (Neon.withMediaUrls (Some (ref :: refs))) as [out|];
    crunch Hrun; [|bad Hrun].
  inversion Hrun; subst resp st'. cbn [Hosted.items Hosted.media].
  rewrite Hitems, Hpin. split; reflexivity.
Qed.

(** The same for the object-storage function. *)
Lemma supabase_post_stored env req st resp st' :
  Supabase.postBranch env req st = (Done resp, st') ->
  status resp = 201%Z ->
  filesOf req ≠ [] ->
  exists row,
    Hosted.items st' = Hosted.items st ++ [row]
    /\ Hosted.media row
       = Some (zip_with (storedRef "path") (filesOf req)
                        (storagePaths env 0 (Supabase.folderId env) (filesOf req))).
Proof.
  intros Hrun Hok Hfiles. unfold Supabase.postBranch in Hrun.
  destruct (withBody_cases req
              ltac:(match type of Hrun with Hosted.withBody _ ?k _ = _ => exact k end) st)
    as [Hgo | [H413 | [e He]]];
    rewrite ?Hgo, ?H413, ?He in Hrun; [|bad Hrun|bad Hrun].
  clear Hgo. unfold Hosted.appendRow in Hrun. monad_in Hrun.
  destruct (get (fieldsOf req) "title") as [rawTitle|]; crunch Hrun; [|bad Hrun].
  destruct (get (fieldsOf req) "desc") as [rawDesc|]; crunch Hrun; [|bad Hrun].
  destruct (get (fieldsOf req) "whatsappMessage") as [rawMessage|]; crunch Hrun; [|bad Hrun].
  destruct (_ || _); crunch Hrun; [bad Hrun|].
  destruct (filesOf req) as [|file files]; [congruence|].
  destruct (Supabase.storeFiles env 0 (file :: files) (Supabase.folderId env) st)
    as [r st1] eqn:Hst.
  destruct (supabase_storeFiles_run _ _ _ _ _ _ _ Hst) as [Hitems _].
  destruct r as [refs|]; [|bad Hrun].
  apply supabase_storeFiles_refs in Hst as Hpin.
  destruct refs as [|ref refs]; crunch Hrun; [bad Hrun|].
  match type of Hrun with
  | context [Supabase.rowJson env ?r] =>
      destruct (Supabase.rowJson env r) as [out|];
        crunch Hrun; [|bad Hrun];
      exists r
  end.
  inversion Hrun; subst resp st'. cbn [Hosted.items Hosted.media].
  rewrite Hitems, Hpin. split; reflexivity.
Qed.

Lemma files_fields req : filesOf req ≠ [] -> readable (fieldsOf req) = true.
Proof.
  unfold filesOf, fieldsOf. destruct (Hosted.payload req); [reflexivity | congruence..].
Qed.

(** The POST branch of the blob-store function creates the item when the
    body can be read and brings files, a title and a description, and the
    id drawn for the item is free. *)
Lemma neon_post_files_ok env req st :
  bodyRead req = true ->
  filesOf req ≠ [] ->
  supplied req "title" ≠ "" ->
  supplied req "desc" ≠ "" ->
  rowOf (Neon.newId env) st = None ->
  exists resp st', Neon.postBranch env req st = (Done resp, st') /\ status resp = 201%Z.
Proof.
  intros Hread Hfiles Htitle Hdesc Hfresh.
  pose proof (files_fields req Hfiles) as Hfields.
  unfold Neon.postBranch. rewrite (withBody_read _ _ _ Hread).
  unfold supplied in Htitle, Hdesc.
  destruct (readable_get _ "title" Hfields) as [rawTitle Ht].
  destruct (readable_get _ "desc" Hfields) as [rawDesc Hd].
  destruct (readable_get _ "whatsappMessage" Hfields) as [rawMessage Hw].
  rewrite Ht in Htitle. rewrite Hd in Hdesc.
  destruct (filesOf req) as [|file files]; [congruence|].
  destruct (neon_storeFiles_run env (file :: files) (Neon.newId env) 0 st)
    as (refs & st1 & Hst & Hitems & _).
  pose proof (neon_storeFiles_refs env (file :: files) (Neon.newId env) 0 st) as Hpin.
  rewrite Hst in Hpin. cbn [fst] in Hpin. injection Hpin as Hpin.
  unfold Neon.insertRow, Hosted.selectById, Hosted.appendRow.
  unfold bind, lift, ret, gets, modify, throw. rewrite Ht, Hd, Hw. cbv beta iota zeta.
  rewrite (eqb_empty _ Htitle), (eqb_empty _ Hdesc). cbn [orb]. cbv beta iota zeta.
  rewrite Hst. cbv beta iota zeta.
  destruct refs as [|ref refs]; [discriminate|].
  unfold rowOf in Hfresh. rewrite <- Hitems in Hfresh.
  cbn [Hosted.id].
  destruct (filter _ (Hosted.items st1)) as [|taken rest]; [|discriminate].
  destruct (withMediaUrls_ok (ref :: refs)) as [out Hout].
  { rewrite Hpin. apply storedRefs_readable. }
  rewrite Hout. eexists _, _. split; reflexivity.
Qed.

(** The POST branch of the object-storage function creates the item when
    the body can be read and brings files, a title and a description, and
    the paths drawn for the files are distinct and free. *)
Lemma supabase_post_files_ok env req st :
  bodyRead req = true ->
  filesOf req ≠ [] ->
  supplied req "title" ≠ "" ->
  supplied req "desc" ≠ "" ->
  NoDup (storagePaths env 0 (Supabase.folderId env) (filesOf req)) ->
  Forall (fun p => Hosted.blobs st !! p = None)
         (storagePaths env 0 (Supabase.folderId env) (filesOf req)) ->
  exists resp st', Supabase.postBranch env req st = (Done resp, st') /\ status resp = 201%Z.
Proof.
  intros Hread Hfiles Htitle Hdesc Hnd Hfree.
  pose proof (files_fields req Hfiles) as Hfields.
  unfold Supabase.postBranch. rewrite (withBody_read _ _ _ Hread).
  unfold supplied in Htitle, Hdesc.
  destruct (readable_get _ "title" Hfields) as [rawTitle Ht].
  destruct (readable_get _ "desc" Hfields) as [rawDesc Hd].
  destruct (readable_get _ "whatsappMessage" Hfields) as [rawMessage Hw].
  rewrite Ht in Htitle. rewrite Hd in Hdesc.
  destruct (supabase_storeFiles_ok env _ _ 0 st Hnd Hfree) as (st1 & Hst & Hitems).
  destruct (filesOf req) as [|file files]; [congruence|].
  unfold Supabase.rowJson, Hosted.appendRow.
  unfold bind, lift, ret, gets, modify, throw. rewrite Ht, Hd, Hw. cbv beta iota zeta.
  rewrite (eqb_empty _ Htitle), (eqb_empty _ Hdesc). cbn [orb]. cbv beta iota zeta.
  rewrite Hst. cbv beta iota zeta. cbn [storagePaths zip_with]. cbv beta iota zeta.
  cbn [Hosted.media].
  match goal with
  | |- context [Supabase.withPublicUrls env (Some ?m)] =>
      destruct (withPublicUrls_ok env m) as [out Hout];
        [exact (storedRefs_readable "path" (file :: files)
                  (storagePaths env 0 (Supabase.folderId env) (file :: files)))|]
  end.
  rewrite Hout. cbn [andThen]. eexists _, _. split; reflexivity.
Qed.

Lemma toItemResponse_ok item x l :
  prop item "media" = JArr (x :: l) ->
  forallb readable (x :: l) = true ->
  exists v, Local.toItemResponse item = Done v.
Proof.
  intros Hmedia Hall. unfold Local.toItemResponse, Local.mediaList.
  rewrite normalizeItem_media, Hmedia. cbn [andThen].
  match goal with
  | |- context [mapM ?f (x :: l)] => destruct (mapM_ok f (x :: l)) as [out Hout]
  end.
  { intros entry Hin. pose proof (forallb_In _ _ _ Hall Hin) as Hr.
    destruct (readable_get entry "type" Hr) as [t Ht].
    destruct (readable_get entry "url" Hr) as [u Hu].
    rewrite Ht, Hu. cbn [andThen]. eexists. reflexivity. }
  rewrite Hout. cbn [andThen]. eexists. reflexivity.
Qed.

Lemma underLimit_overLimit parts : underLimit parts = true -> overLimit parts = false.
Proof.
  unfold underLimit, overLimit. induction parts as [|p parts IH]; [reflexivity|].
  cbn [forallb existsb]. intros Hall. apply andb_true_iff in Hall as [Hp Hrest].
  rewrite (IH Hrest), orb_false_r. apply N.ltb_ge, N.lt_le_incl, N.ltb_lt. exact Hp.
Qed.

(** The local POST route creates the item when the request brings files,
    each under the limit, and text fields that can be trimmed. *)
Lemma local_post_files_ok clock body parts st :
  parts ≠ [] ->
  underLimit parts = true ->
  textual (prop body "title") = true ->
  textual (prop body "desc") = true ->
  textual (prop body "whatsappMessage") = true ->
  status (Local.serve (Local.PostItems clock body parts) st).1 = 200%Z.
Proof.
  intros Hparts Hsmall Ht Hd Hm. apply underLimit_overLimit in Hsmall.
  unfold Local.serve, Local.route, Local.uploadArray, Local.postItem, Local.readItems,
    Local.writeItems.
  unfold overLimit in Hsmall. unfold bind, gets, lift, ret, modify. rewrite Hsmall.
  cbv beta iota zeta.
  destruct (trimOf_textual _ "Novo imovel" Ht) as [t ->].
  destruct (trimOf_textual _ "Mais detalhes no WhatsApp." Hd) as [d ->].
  destruct (trimOf_textual _ DEFAULT_WHATS_MESSAGE Hm) as [m ->].
  destruct parts as [|p parts]; [congruence|]. cbn [map]. cbv beta iota zeta.
  match goal with
  | |- context [Local.toItemResponse ?item] =>
      destruct (toItemResponse_ok item (Local.mediaOfFile (Local.storedFile p))
                  (map Local.mediaOfFile (map Local.storedFile parts)))
        as [v Hv]
  end.
  - prop_object. reflexivity.
  - cbn [forallb]. clear. induction parts as [|q parts IH]; [reflexivity|].
    cbn [map forallb] in *. exact IH.
  - rewrite Hv. reflexivity.
Qed.

(** C5. For every POST request that creates an item from N uploaded files
    (N >= 1), the created record's media list has exactly N MediaRefs, in
    the order of the files: the MediaRef at each position is the one built
    for the file at that position (it names that file as the server stored
    it: by its stored name in the local server, by its storage key or path
    in the hosted functions), and its type is ["video"] when the file's
    content type starts with ["video/"] and ["image"] otherwise.  (The local
    server answers a creation with 200, the hosted functions with 201; an
    answer of that status with files in the request is a creation.)

    Such requests do create the item.  The local server answers 200 when
    the request brings files, each under the limit, and text fields that are
    strings or falsy.  A hosted function answers 201 when the body can be
    read and brings files, a title and a description that are not blank;
    the blob-store function needs the id it draws to be free, and the
    object-storage function the paths it draws to be distinct and free. *)
Theorem created_item_media :
  (forall clock body parts st resp st',
      Local.serve (Local.PostItems clock body parts) st = (resp, st') ->
      status resp = 200%Z ->
      exists newItem refs,
        Local.dataFile st' = Local.dataFile st ++ [newItem]
        /\ prop newItem "media" = JArr refs
        /\ length refs = length parts
        /\ TypedAs (map Local.mimetype parts) refs
        /\ refs = map localRef parts)
  /\ (forall env req st resp st',
        Hosted.toUpperCase (Hosted.method req) = "POST" ->
        filesOf req ≠ [] ->
        Neon.handler env req st = (resp, st') ->
        status resp = 201%Z ->
        exists st0 row refs,
          Neon.seedIfEmpty env st = (Done tt, st0)
          /\ Hosted.items st' = Hosted.items st0 ++ [row]
          /\ Hosted.media row = Some refs
          /\ length refs = length (filesOf req)
          /\ TypedAs (map Hosted.contentType (filesOf req)) refs
          /\ refs = zip_with (storedRef "key") (filesOf req)
                             (storageKeys env 0 (Neon.newId env) (filesOf req)))
  /\ (forall env req st resp st',
        Hosted.toUpperCase (Hosted.method req) = "POST" ->
        filesOf req ≠ [] ->
        Supabase.handler env req st = (resp, st') ->
        status resp = 201%Z ->
        exists st0 row refs,
          Supabase.ensureSeed env st = (Done tt, st0)
          /\ Hosted.items st' = Hosted.items st0 ++ [row]
          /\ Hosted.media row = Some refs
          /\ length refs = length (filesOf req)
          /\ TypedAs (map Hosted.contentType (filesOf req)) refs
          /\ refs = zip_with (storedRef "path") (filesOf req)
                             (storagePaths env 0 (Supabase.folderId env) (filesOf req)))
  /\ (forall clock body parts st,
        parts ≠ [] ->
        underLimit parts = true ->
        textual (prop body "title") = true ->
        textual (prop body "desc") = true ->
        textual (prop body "whatsappMessage") = true ->
        status (Local.serve (Local.PostItems clock body parts) st).1 = 200%Z)
  /\ (forall env req st st0,
        Hosted.toUpperCase (Hosted.method req) = "POST" ->
        bodyRead req = true ->
        filesOf req ≠ [] ->
        supplied req "title" ≠ "" ->
        supplied req "desc" ≠ "" ->
        Neon.seedIfEmpty env st = (Done tt, st0) ->
        rowOf (Neon.newId env) st0 = None ->
        status (Neon.handler env req st).1 = 201%Z)
  /\ (forall env req st st0,
        configured env ->
        Hosted.toUpperCase (Hosted.method req) = "POST" ->
        bodyRead req = true ->
        filesOf req ≠ [] ->
        supplied req "title" ≠ "" ->
        supplied req "desc" ≠ "" ->
        Supabase.ensureSeed env st = (Done tt, st0) ->
        NoDup (storagePaths env 0 (Supabase.folderId env) (filesOf req)) ->
        Forall (fun p => Hosted.blobs st0 !! p = None)
               (storagePaths env 0 (Supabase.folderId env) (filesOf req)) ->
        status (Supabase.handler env req st).1 = 201%Z).
Proof.
  split; [|split; [|split; [|split; [|split]]]].
  - intros clock body parts st resp st' Hrun Hok.
    destruct (local_post_created _ _ _ _ _ _ Hrun Hok) as (newItem & Hfile & Hmedia).
    exists newItem, (map Local.mediaOfFile (map Local.storedFile parts)).
    repeat split; try assumption.
    + rewrite !length_map. reflexivity.
    + apply local_refs_typed.
    + apply local_refs_of_parts.
  - intros env req st resp st' Hm Hfiles Hrun Hok.
    apply neon_handler_ok in Hrun as (st0 & Hseed & Hrun); [|rewrite Hok; discriminate].
    rewrite (neon_dispatch_post _ _ Hm) in Hrun.
    destruct (neon_post_stored _ _ _ _ _ Hrun Hok Hfiles) as (row & Hitems & Hmedia).
    exists st0, row. eexists. split; [exact Hseed|]. split; [exact Hitems|].
    split; [exact Hmedia|].
    pose proof (storedRefs_related "key" (filesOf req)
                  (storageKeys env 0 (Neon.newId env) (filesOf req))
                  (storageKeys_length _ _ _ _)) as Hrefs.
    split; [symmetry; eapply Forall2_length; exact Hrefs|].
    split; [eapply refs_typed; [|exact Hrefs]; discriminate | reflexivity].
  - intros env req st resp st' Hm Hfiles Hrun Hok.
    apply supabase_handler_ok in Hrun as (_ & st0 & Hseed & Hrun);
      [|rewrite Hok; discriminate].
    rewrite (supabase_dispatch_post _ _ Hm) in Hrun.
    destruct (supabase_post_stored _ _ _ _ _ Hrun Hok Hfiles) as (row & Hitems & Hmedia).
    exists st0, row. eexists. split; [exact Hseed|]. split; [exact Hitems|].
    split; [exact Hmedia|].
    pose proof (storedRefs_related "path" (filesOf req)
                  (storagePaths env 0 (Supabase.folderId env) (filesOf req))
                  (storagePaths_length _ _ _ _)) as Hrefs.
    split; [symmetry; eapply Forall2_length; exact Hrefs|].
    split; [eapply refs_typed; [|exact Hrefs]; discriminate | reflexivity].
  - apply local_post_files_ok.
  - intros env req st st0 Hm Hread Hfiles Ht Hd Hseed Hfresh.
    rewrite (neon_handler_seeded _ _ _ _ Hseed), (neon_dispatch_post _ _ Hm).
    destruct (neon_post_files_ok env req st0 Hread Hfiles Ht Hd Hfresh)
      as (resp & st' & -> & Hok).
    exact Hok.
  - intros env req st st0 Hcfg Hm Hread Hfiles Ht Hd Hseed Hnd Hfree.
    rewrite (supabase_handler_seeded _ _ _ _ Hcfg Hseed), (supabase_dispatch_post _ _ Hm).
    destruct (supabase_post_files_ok env req st0 Hread Hfiles Ht Hd Hnd Hfree)
      as (resp & st' & -> & Hok).
    exact Hok.
Qed.

(** Each of the three servers creates an item from a photo and a video. *)
Lemma created_item_media_witness :
  (exists newItem refs,
      Local.dataFile sampleDisk = Local.dataFile emptyDisk ++ [newItem]
      /\ prop newItem "media" = JArr refs
      /\ length refs = 2
      /\ TypedAs ["image/png"; "video/mp4"] refs
      /\ refs = map localRef [samplePhoto; sampleVideo])
  /\ (exists st0 row refs,
        Neon.seedIfEmpty sampleNeonEnv (sampleTable "key") = (Done tt, st0)
        /\ Hosted.items (Neon.handler sampleNeonEnv postFiles (sampleTable "key")).2
           = Hosted.items st0 ++ [row]
        /\ Hosted.media row = Some refs
        /\ length refs = length (filesOf postFiles)
        /\ TypedAs (map Hosted.contentType (filesOf postFiles)) refs
        /\ refs = zip_with (storedRef "key") (filesOf postFiles)
                           (storageKeys sampleNeonEnv 0 "b2" (filesOf postFiles)))
  /\ (exists st0 row refs,
        Supabase.ensureSeed sampleSupabaseEnv (sampleTable "path") = (Done tt, st0)
        /\ Hosted.items (Supabase.handler sampleSupabaseEnv postFiles (sampleTable "path")).2
           = Hosted.items st0 ++ [row]
        /\ Hosted.media row = Some refs
        /\ length refs = length (filesOf postFiles)
        /\ TypedAs (map Hosted.contentType (filesOf postFiles)) refs
        /\ refs = zip_with (storedRef "path") (filesOf postFiles)
                           (storagePaths sampleSupabaseEnv 0 "f7" (filesOf postFiles))).
Proof.
  destruct created_item_media as (Hlocal & Hneon & Hsupabase & Hlocal_ok & Hneon_ok & Hsupabase_ok).
  split; [|split].
  - apply (Hlocal sampleClock sampleBody [samplePhoto; sampleVideo] emptyDisk
             (Local.serve (Local.PostItems sampleClock sampleBody
                                           [samplePhoto; sampleVideo]) emptyDisk).1
             sampleDisk).
    + apply surjective_pairing.
    + apply Hlocal_ok; first [discriminate | vm_compute; reflexivity].
  - apply (Hneon sampleNeonEnv postFiles (sampleTable "key")
             (Neon.handler sampleNeonEnv postFiles (sampleTable "key")).1).
    + reflexivity.
    + vm_compute. discriminate.
    + apply surjective_pairing.
    + apply (Hneon_ok sampleNeonEnv postFiles (sampleTable "key") (sampleTable "key"));
        first [reflexivity | vm_compute; reflexivity | vm_compute; discriminate].
  - apply (Hsupabase sampleSupabaseEnv postFiles (sampleTable "path")
             (Supabase.handler sampleSupabaseEnv postFiles (sampleTable "path")).1).
    + reflexivity.
    + vm_compute. discriminate.
    + apply surjective_pairing.
    + apply (Hsupabase_ok sampleSupabaseEnv postFiles (sampleTable "path") (sampleTable "path")).
      * split; vm_compute; discriminate.
      * reflexivity.
      * vm_compute. reflexivity.
      * vm_compute. discriminate.
      * vm_compute. discriminate.
      * vm_compute. discriminate.
      * vm_compute. reflexivity.
      * vm_compute. repeat constructor; set_solver.
      * vm_compute. repeat constructor.
Defined.

(* ===================================================================== *)
(** ** What a response shows of the media *)
(* ===================================================================== *)












(* ===================================================================== *)
(** ** Requests the hosted functions refuse *)
(* ===================================================================== *)

(** Closes a case of a run by the answer it gives: no answer at all, the
    success status that the hypotheses exclude, or a refusal that left the
    store alone. *)
Ltac settle H :=
  solve [ repeat match type of H with
                 | context [match ?x with _ => _ end] => destruct x; crunch H
                 end;
          inversion H; subst; cbn [status] in *;
          first [ congruence | split; [reflexivity | tauto] ] ].

Lemma neon_get_run target st r st' : Neon.getBranch target st = (r, st') -> st' = st.
Proof.
  unfold Neon.getBranch, Hosted.selectById. destruct target as [target|]; intros Hrun;
    monad_in Hrun.
  - destruct (filter _ (Hosted.items st)) as [|item rest]; crunch Hrun;
      [|destruct (Neon.rowJson item); crunch Hrun]; congruence.
  - destruct (mapM Neon.rowJson (rev (Hosted.items st))); crunch Hrun; congruence.
Qed.

Lemma supabase_get_run env target st r st' :
  Supabase.getBranch env target st = (r, st') -> st' = st.
Proof.
  unfold Supabase.getBranch, Hosted.selectById. destruct target as [target|]; intros Hrun;
    monad_in Hrun.
  - destruct (filter _ (Hosted.items st)) as [|item rest]; crunch Hrun;
      [|destruct (Supabase.rowJson env item); crunch Hrun]; congruence.
  - destruct (mapM (Supabase.rowJson env) (rev (Hosted.items st))); crunch Hrun; congruence.
Qed.

(** A POST of the blob-store function that does not answer 201 answers 400
    or 413 and has changed nothing. *)
Lemma neon_post_refused env req st resp st' :
  Neon.postBranch env req st = (Done resp, st') ->
  status resp ≠ 201%Z ->
  st' = st /\ (status resp = 400%Z \/ status resp = 413%Z).
Proof.
  intros Hrun Hne. unfold Neon.postBranch in Hrun.
  destruct (withBody_cases req
              ltac:(match type of Hrun with Hosted.withBody _ ?k _ = _ => exact k end) st)
    as [Hgo | [H413 | [e He]]];
    rewrite ?Hgo, ?H413, ?He in Hrun; [|settle Hrun|settle Hrun].
  clear Hgo. monad_in Hrun.
  destruct (get (fieldsOf req) "title") as [rawTitle|]; crunch Hrun; [|settle Hrun].
  destruct (get (fieldsOf req) "desc") as [rawDesc|]; crunch Hrun; [|settle Hrun].
  destruct (get (fieldsOf req) "whatsappMessage") as [rawMessage|]; crunch Hrun;
    [|settle Hrun].
  destruct (_ || _); crunch Hrun; [settle Hrun|].
  destruct (filesOf req) as [|file files] eqn:Hfiles.
  - destruct (get (fieldsOf req) "media") as [[| | | | |[|ref refs]|]|];
      crunch Hrun; settle Hrun.
  - destruct (neon_storeFiles_run env (file :: files) (Neon.newId env) 0 st)
      as (refs & st1 & Hst & Hitems & Hrefs).
    rewrite Hst in Hrun. crunch Hrun.
    destruct refs as [|ref refs]; [inversion Hrefs|]. crunch Hrun.
    match type of Hrun with
    | context [Neon.insertRow ?r st1] =>
        destruct (neon_insertRow_run r st1) as [[Hins _] | [e Hins]];
          rewrite Hins in Hrun; crunch Hrun; [|settle Hrun]
    end.
    settle Hrun.
Qed.

(** A POST of the object-storage function that does not answer 201 answers
    400 or 413 and has changed nothing. *)
Lemma supabase_post_refused env req st resp st' :
  Supabase.postBranch env req st = (Done resp, st') ->
  status resp ≠ 201%Z ->
  st' = st /\ (status resp = 400%Z \/ status resp = 413%Z).
Proof.
  intros Hrun Hne. unfold Supabase.postBranch in Hrun.
  destruct (withBody_cases req
              ltac:(match type of Hrun with Hosted.withBody _ ?k _ = _ => exact k end) st)
    as [Hgo | [H413 | [e He]]];
    rewrite ?Hgo, ?H413, ?He in Hrun; [|settle Hrun|settle Hrun].
  clear Hgo. unfold Hosted.appendRow in Hrun. monad_in Hrun.
  destruct (get (fieldsOf req) "title") as [rawTitle|]; crunch Hrun; [|settle Hrun].
  destruct (get (fieldsOf req) "desc") as [rawDesc|]; crunch Hrun; [|settle Hrun].
  destruct (get (fieldsOf req) "whatsappMessage") as [rawMessage|]; crunch Hrun;
    [|settle Hrun].
  destruct (_ || _); crunch Hrun; [settle Hrun|].
  destruct (filesOf req) as [|file files] eqn:Hfiles.
  - destruct (get (fieldsOf req) "media") as [[| | | | |[|ref refs]|]|];
      crunch Hrun; settle Hrun.
  - destruct (Supabase.storeFiles env 0 (file :: files) (Supabase.folderId env) st)
      as [r st1] eqn:Hst.
    apply supabase_storeFiles_run in Hst as [Hitems Hrefs].
    destruct r as [[|ref refs]|]; crunch Hrun; [|settle Hrun|settle Hrun].
    destruct (Hrefs [] eq_refl) as [Hno _]. inversion Hno.
Qed.

(** A PUT of the blob-store function that does not answer 200 answers 400,
    404 or 413 and has changed nothing. *)
Lemma neon_put_refused env req target st resp st' :
  Neon.putBranch env req target st = (Done resp, st') ->
  status resp ≠ 200%Z ->
  st' = st /\ (status resp = 400%Z \/ status resp = 404%Z \/ status resp = 413%Z).
Proof.
  intros Hrun Hne. unfold Neon.putBranch in Hrun.
  destruct target as [target|]; [|settle Hrun].
  destruct (withBody_cases req
              ltac:(match type of Hrun with Hosted.withBody _ ?k _ = _ => exact k end) st)
    as [Hgo | [H413 | [e He]]];
    rewrite ?Hgo, ?H413, ?He in Hrun; [|settle Hrun|settle Hrun].
  clear Hgo. unfold Hosted.selectById, Hosted.updateRow in Hrun. monad_in Hrun.
  destruct (filter _ (Hosted.items st)) as [|current rest] eqn:Hsel; crunch Hrun;
    [settle Hrun|].
  destruct (get (fieldsOf req) "title") as [rawTitle|]; crunch Hrun; [|settle Hrun].
  destruct (get (fieldsOf req) "desc") as [rawDesc|]; crunch Hrun; [|settle Hrun].
  destruct (get (fieldsOf req) "whatsappMessage") as [rawMessage|]; crunch Hrun;
    [|settle Hrun].
  destruct (filesOf req) as [|file files] eqn:Hfiles.
  - destruct (get (fieldsOf req) "media") as [given|]; crunch Hrun; [|settle Hrun].
    destruct given as [| | | | |[|x l]|]; crunch Hrun; settle Hrun.
  - destruct (neon_storeFiles_run env (file :: files) target 0 st)
      as (refs & st1 & Hst & Hitems & Hrefs).
    rewrite Hst in Hrun. crunch Hrun. settle Hrun.
Qed.

(** A PUT of the object-storage function that does not answer 200 answers
    400, 404 or 413 and has changed nothing. *)
Lemma supabase_put_refused env req target st resp st' :
  Supabase.putBranch env req target st = (Done resp, st') ->
  status resp ≠ 200%Z ->
  st' = st /\ (status resp = 400%Z \/ status resp = 404%Z \/ status resp = 413%Z).
Proof.
  intros Hrun Hne. unfold Supabase.putBranch in Hrun.
  destruct target as [target|]; [|settle Hrun].
  destruct (withBody_cases req
              ltac:(match type of Hrun with Hosted.withBody _ ?k _ = _ => exact k end) st)
    as [Hgo | [H413 | [e He]]];
    rewrite ?Hgo, ?H413, ?He in Hrun; [|settle Hrun|settle Hrun].
  clear Hgo. unfold Hosted.selectById, Hosted.updateRow in Hrun. monad_in Hrun.
  destruct (filter _ (Hosted.items st)) as [|current rest] eqn:Hsel; crunch Hrun;
    [settle Hrun|].
  destruct (get (fieldsOf req) "title") as [rawTitle|]; crunch Hrun; [|settle Hrun].
  destruct (get (fieldsOf req) "desc") as [rawDesc|]; crunch Hrun; [|settle Hrun].
  destruct (get (fieldsOf req) "whatsappMessage") as [rawMessage|]; crunch Hrun;
    [|settle Hrun].
  destruct (filesOf req) as [|file files] eqn:Hfiles.
  - destruct (get (fieldsOf req) "media") as [given|]; crunch Hrun; [|settle Hrun].
    destruct given as [| | | | |[|x l]|]; crunch Hrun; settle Hrun.
  - destruct (Supabase.removeStoredMedia _ st) as [[[]|e] st1]; crunch Hrun; [|settle Hrun].
    destruct (Supabase.storeFiles env 0 (file :: files) (Hosted.id current) st1)
      as [[refs|e] st2]; crunch Hrun; settle Hrun.
Qed.

(** A DELETE that does not answer 200 answers 400 and has changed nothing. *)
Lemma neon_delete_refused target st resp st' :
  Neon.deleteBranch target st = (Done resp, st') ->
  status resp ≠ 200%Z ->
  st' = st /\ status resp = 400%Z /\ target = None.
Proof.
  intros Hrun Hne. unfold Neon.deleteBranch in Hrun.
  destruct target as [target|].
  - unfold Hosted.selectById, Hosted.deleteRow in Hrun. monad_in Hrun.
    match type of Hrun with
    | context [match ?m ?s with _ => _ end] => destruct (m s) as [[[]|e] st1]
    end; crunch Hrun; inversion Hrun; subst; cbn [status] in *; congruence.
  - inversion Hrun; subst. repeat split.
Qed.

Lemma supabase_delete_refused target st resp st' :
  Supabase.deleteBranch target st = (Done resp, st') ->
  status resp ≠ 200%Z ->
  st' = st /\ status resp = 400%Z /\ target = None.
Proof.
  intros Hrun Hne. unfold Supabase.deleteBranch in Hrun.
  destruct target as [target|].
  - unfold Hosted.selectById, Hosted.deleteRow in Hrun. monad_in Hrun.
    match type of Hrun with
    | context [match ?m ?s with _ => _ end] => destruct (m s) as [[[]|e] st1]
    end; crunch Hrun; inversion Hrun; subst; cbn [status] in *; congruence.
  - inversion Hrun; subst. repeat split.
Qed.

(** An answer in the 400s of the branch on the method has changed nothing. *)
Lemma neon_dispatch_refused env req st resp st' :
  Neon.dispatch env req st = (Done resp, st') ->
  (400 <= status resp < 500)%Z ->
  st' = st.
Proof.
  unfold Neon.dispatch. intros Hrun Hst.
  destruct (String.eqb _ "GET"); [eapply neon_get_run; exact Hrun|].
  destruct (String.eqb _ "POST"); [eapply neon_post_refused; [exact Hrun | lia]|].
  destruct (String.eqb _ "PUT"); [eapply neon_put_refused; [exact Hrun | lia]|].
  destruct (String.eqb _ "DELETE"); [eapply neon_delete_refused; [exact Hrun | lia]|].
  inversion Hrun. reflexivity.
Qed.

Lemma supabase_dispatch_refused env req st resp st' :
  Supabase.dispatch env req st = (Done resp, st') ->
  (400 <= status resp < 500)%Z ->
  st' = st.
Proof.
  unfold Supabase.dispatch. intros Hrun Hst.
  destruct (String.eqb _ "GET"); [eapply supabase_get_run; exact Hrun|].
  destruct (String.eqb _ "POST"); [eapply supabase_post_refused; [exact Hrun | lia]|].
  destruct (String.eqb _ "PUT"); [eapply supabase_put_refused; [exact Hrun | lia]|].
  destruct (String.eqb _ "DELETE"); [eapply supabase_delete_refused; [exact Hrun | lia]|].
  inversion Hrun. reflexivity.
Qed.

(* ===================================================================== *)
(** ** Rows the hosted functions create *)
(* ===================================================================== *)



Lemma allChars_app p s t : allChars p (s +:+ t) = allChars p s && allChars p t.
Proof.
  induction s as [|c s IH]; [reflexivity|].
  simpl. rewrite IH, andb_assoc. reflexivity.
Qed.

Lemma orElse_nonempty a b : b ≠ "" -> orElse a b ≠ "".
Proof. destruct a; [intros H; exact H | discriminate]. Qed.

Lemma orb_eqb_empty a b :
  String.eqb a "" || String.eqb b "" = false -> a ≠ "" /\ b ≠ "".
Proof.
  intros [Ha Hb]%orb_false_iff.
  split; intros ->; [rewrite String.eqb_refl in Ha | rewrite String.eqb_refl in Hb];
    discriminate.
Qed.

(** The row behind a 201 of the blob-store function's POST branch. *)
Lemma neon_post_row env req st resp st' :
  Neon.postBranch env req st = (Done resp, st') ->
  status resp = 201%Z ->
  exists refs out,
    let row := {| Hosted.id := Neon.newId env;
                  Hosted.title := supplied req "title";
                  Hosted.description := supplied req "desc";
                  Hosted.whatsapp_message :=
                    orElse (supplied req "whatsappMessage") DEFAULT_WHATS_MESSAGE;
                  Hosted.media := Some refs |} in
    rowOf (Neon.newId env) st = None
    /\ supplied req "title" ≠ "" /\ supplied req "desc" ≠ ""
    /\ Hosted.items st' = Hosted.items st ++ [row]
    /\ Neon.rowJson row = Done (body resp)
    /\ Neon.withMediaUrls (Some refs) = Done out
    /\ (filesOf req = [] -> st' = {| Hosted.items := Hosted.items st ++ [row];
                                     Hosted.blobs := Hosted.blobs st |}).
Proof.
  intros Hrun Hok. unfold Neon.postBranch in Hrun.
  destruct (withBody_cases req
              ltac:(match type of Hrun with Hosted.withBody _ ?k _ = _ => exact k end) st)
    as [Hgo | [H413 | [e He]]];
    rewrite ?Hgo, ?H413, ?He in Hrun; [|bad Hrun|bad Hrun].
  clear Hgo. monad_in Hrun. unfold supplied.
  destruct (get (fieldsOf req) "title") as [rawTitle|]; crunch Hrun; [|bad Hrun].
  destruct (get (fieldsOf req) "desc") as [rawDesc|]; crunch Hrun; [|bad Hrun].
  destruct (get (fieldsOf req) "whatsappMessage") as [rawMessage|]; crunch Hrun; [|bad Hrun].
  destruct (_ || _) eqn:Hblank; crunch Hrun; [bad Hrun|].
  apply orb_eqb_empty in Hblank as [Ht Hd].
  destruct (filesOf req) as [|file files] eqn:Hfiles.
  - destruct (get (fieldsOf req) "media") as [[| | | | |[|ref refs]|]|];
      crunch Hrun; try bad Hrun.
    match type of Hrun with
    | context [Neon.insertRow ?r st] =>
        destruct (neon_insertRow_run r st) as [[Hins Hfresh] | [e Hins]];
          rewrite Hins in Hrun; crunch Hrun; [|bad Hrun]
    end.
    destruct (Neon.withMediaUrls (Some (ref :: refs))) as [out|] eqn:Hout;
      crunch Hrun; [|bad Hrun].
    exists (ref :: refs), out. inversion Hrun; subst. cbn [Hosted.id] in Hfresh.
    unfold rowOf, Neon.rowJson. cbn [Hosted.media Hosted.items body]. rewrite Hfresh, Hout.
    repeat split; first [reflexivity | assumption].
  - destruct (neon_storeFiles_run env (file :: files) (Neon.newId env) 0 st)
      as (refs & st1 & Hst & Hitems & Hrefs).
    rewrite Hst in Hrun. crunch Hrun.
    destruct refs as [|ref refs]; crunch Hrun; [bad Hrun|].
    match type of Hrun with
    | context [Neon.insertRow ?r st1] =>
        destruct (neon_insertRow_run r st1) as [[Hins Hfresh] | [e Hins]];
          rewrite Hins in Hrun; crunch Hrun; [|bad Hrun]
    end.
    destruct (Neon.withMediaUrls (Some (ref :: refs))) as [out|] eqn:Hout;
      crunch Hrun; [|bad Hrun].
    exists (ref :: refs), out. inversion Hrun; subst. cbn [Hosted.id] in Hfresh.
    unfold rowOf, Neon.rowJson. cbn [Hosted.media Hosted.items body].
    rewrite <- Hitems, Hfresh, Hout.
    repeat split; first [reflexivity | assumption | discriminate].
Qed.

(** The row behind a 201 of the object-storage function's POST branch. *)
Lemma supabase_post_row env req st resp st' :
  Supabase.postBranch env req st = (Done resp, st') ->
  status resp = 201%Z ->
  exists refs,
    let row := {| Hosted.id := Supabase.rowId env;
                  Hosted.title := supplied req "title";
                  Hosted.description := supplied req "desc";
                  Hosted.whatsapp_message :=
                    orElse (supplied req "whatsappMessage") DEFAULT_WHATS_MESSAGE;
                  Hosted.media := Some refs |} in
    supplied req "title" ≠ "" /\ supplied req "desc" ≠ ""
    /\ Hosted.items st' = Hosted.items st ++ [row]
    /\ Supabase.rowJson env row = Done (body resp)
    /\ (filesOf req = [] -> st' = {| Hosted.items := Hosted.items st ++ [row];
                                     Hosted.blobs := Hosted.blobs st |}).
Proof.
  intros Hrun Hok. unfold Supabase.postBranch in Hrun.
  destruct (withBody_cases req
              ltac:(match type of Hrun with Hosted.withBody _ ?k _ = _ => exact k end) st)
    as [Hgo | [H413 | [e He]]];
    rewrite ?Hgo, ?H413, ?He in Hrun; [|bad Hrun|bad Hrun].
  clear Hgo. unfold Hosted.appendRow in Hrun. monad_in Hrun. unfold supplied.
  destruct (get (fieldsOf req) "title") as [rawTitle|]; crunch Hrun; [|bad Hrun].
  destruct (get (fieldsOf req) "desc") as [rawDesc|]; crunch Hrun; [|bad Hrun].
  destruct (get (fieldsOf req) "whatsappMessage") as [rawMessage|]; crunch Hrun; [|bad Hrun].
  destruct (_ || _) eqn:Hblank; crunch Hrun; [bad Hrun|].
  apply orb_eqb_empty in Hblank as [Ht Hd].
  destruct (filesOf req) as [|file files] eqn:Hfiles.
  - destruct (get (fieldsOf req) "media") as [[| | | | |[|ref refs]|]|];
      crunch Hrun; try bad Hrun.
    match type of Hrun with
    | context [Supabase.rowJson env ?r] =>
        destruct (Supabase.rowJson env r) as [out|] eqn:Hout; crunch Hrun; [|bad Hrun]
    end.
    exists (ref :: refs). inversion Hrun; subst. cbn [Hosted.items body].
    repeat split; first [reflexivity | assumption].
  - destruct (Supabase.storeFiles env 0 (file :: files) (Supabase.folderId env) st)
      as [r st1] eqn:Hst.
    apply supabase_storeFiles_run in Hst as [Hitems Hrefs].
    destruct r as [[|ref refs]|]; crunch Hrun; [bad Hrun| |bad Hrun].
    match type of Hrun with
    | context [Supabase.rowJson env ?r] =>
        destruct (Supabase.rowJson env r) as [out|] eqn:Hout; crunch Hrun; [|bad Hrun]
    end.
    exists (ref :: refs). inversion Hrun; subst. cbn [Hosted.items body]. rewrite Hitems.
    repeat split; first [reflexivity | assumption | discriminate].
Qed.

(* ===================================================================== *)
(** ** What a DELETE removes *)
(* ===================================================================== *)

Lemma removeBlob_frame key st k :
  key ≠ JStr k ->
  Hosted.blobs (Hosted.removeBlob key st).2 !! k = Hosted.blobs st !! k.
Proof.
  intros Hne. destruct key; try reflexivity.
  cbn [Hosted.removeBlob]. unfold modify. cbn [snd Hosted.blobs].
  apply lookup_delete_ne. congruence.
Qed.

Lemma forEach_removeBlob_frame keys :
  forall st k, ~ In (JStr k) keys ->
    Hosted.blobs (forEach Hosted.removeBlob keys st).2 !! k = Hosted.blobs st !! k.
Proof.
  induction keys as [|key keys IH]; intros st k Hno; [reflexivity|].
  cbn [forEach]. unfold bind.
  destruct (removeBlob_run key st) as (st1 & H1 & _).
  pose proof (removeBlob_frame key st k) as Hf. rewrite H1 in Hf |- *. cbn [snd] in Hf.
  rewrite IH by (intros Hin; apply Hno; right; exact Hin).
  apply Hf. intros ->. apply Hno. left. reflexivity.
Qed.

(** The loop of the blob-store function's DELETE branch: it touches only
    the blob store, leaves alone every key that no entry names, and when it
    ends normally no key that an entry names holds a blob. *)
Lemma neon_delete_loop_run entries :
  forall st r st',
    forEach (fun item => let* key := lift (get item "key") in
                         if truthy key then Hosted.removeBlob key else ret tt)
            entries st = (r, st') ->
    Hosted.items st' = Hosted.items st
    /\ (forall k, Hosted.blobs st !! k = None -> Hosted.blobs st' !! k = None)
    /\ (forall k, (forall entry, In entry entries -> get entry "key" ≠ Done (JStr k)) ->
                  Hosted.blobs st' !! k = Hosted.blobs st !! k)
    /\ (r = Done tt ->
        forall entry k, In entry entries -> get entry "key" = Done (JStr k) -> k ≠ "" ->
                        Hosted.blobs st' !! k = None).
Proof.
  induction entries as [|entry entries IH]; intros st r st'.
  - cbn [forEach]. unfold ret. intros [= <- <-].
    repeat split; try reflexivity; [auto | intros _ entry k []].
  - cbn [forEach]. unfold bind at 1. unfold bind at 1. unfold lift.
    destruct (get entry "key") as [key|e] eqn:Hkey.
    + destruct (truthy key) eqn:Htruthy.
      * destruct (removeBlob_run key st) as (st1 & H1 & Hi1 & Hm1 & Hk1).
        pose proof (removeBlob_frame key st) as Hf1. rewrite H1 in Hf1 |- *.
        cbn [snd] in Hf1. intros Hrest.
        destruct (IH _ _ _ Hrest) as (Hi & Hm & Hf & Hk).
        split; [congruence|]. split; [auto|]. split.
        -- intros k Hno. rewrite Hf by (intros x Hx; apply Hno; right; exact Hx).
           apply Hf1. intros ->. apply (Hno entry); [left; reflexivity | exact Hkey].
        -- intros Hr x k [<-|Hin] Hx Hne; [|eapply Hk; eauto].
           apply Hm, Hk1. congruence.
      * unfold ret. intros Hrest. destruct (IH _ _ _ Hrest) as (Hi & Hm & Hf & Hk).
        split; [exact Hi|]. split; [exact Hm|]. split.
        -- intros k Hno. apply Hf. intros x Hx. apply Hno. right. exact Hx.
        -- intros Hr x k [<-|Hin] Hx Hne; [|eapply Hk; eauto].
           rewrite Hkey in Hx. injection Hx as ->. destruct k; [congruence | discriminate].
    + intros [= <- <-]. repeat split; try reflexivity; [auto | discriminate].
Qed.

(** [removeStoredMedia] leaves alone every path that no entry names. *)
Lemma removeStoredMedia_frame old st r st' k :
  Supabase.removeStoredMedia old st = (r, st') ->
  (forall entry, In entry (default [] old) -> get entry "path" ≠ Done (JStr k)) ->
  Hosted.blobs st' !! k = Hosted.blobs st !! k.
Proof.
  unfold Supabase.removeStoredMedia, bind, lift. intros Hrun Hno.
  destruct (mapM _ (default [] old)) as [paths|e] eqn:Hpaths.
  - pose proof (forEach_removeBlob_frame (List.filter truthy paths) st k) as Hf.
    rewrite Hrun in Hf. apply Hf. intros [Hin _]%List.filter_In.
    apply mapM_Forall2 in Hpaths.
    assert (Hex : exists entry, In entry (default [] old) /\ get entry "path" = Done (JStr k)).
    { clear -Hpaths Hin. induction Hpaths as [|x y xs ys Hxy _ IH]; [destruct Hin|].
      destruct Hin as [->|Hin].
      - exists x. split; [left; reflexivity | exact Hxy].
      - destruct (IH Hin) as (entry & He & Hg). exists entry. split; [right|]; assumption. }
    destruct Hex as (entry & He & Hg). exact (Hno entry He Hg).
  - injection Hrun as _ <-. reflexivity.
Qed.

(** The DELETE branch of the blob-store function, for the id of a row. *)
Lemma neon_delete_effects target st row :
  rowOf target st = Some row ->
  forallb readable (default [] (Hosted.media row)) = true ->
  exists st',
    Neon.deleteBranch (Some target) st = (Done (jsonResponse 200 okBody), st')
    /\ Hosted.items st' = filter (fun r => Hosted.id r ≠ target) (Hosted.items st)
    /\ (forall entry k, In entry (default [] (Hosted.media row)) ->
                        get entry "key" = Done (JStr k) -> k ≠ "" ->
                        Hosted.blobs st' !! k = None)
    /\ (forall k, (forall entry, In entry (default [] (Hosted.media row)) ->
                                 get entry "key" ≠ Done (JStr k)) ->
                  Hosted.blobs st' !! k = Hosted.blobs st !! k).
Proof.
  unfold rowOf, Neon.deleteBranch, Hosted.selectById, Hosted.deleteRow.
  unfold bind at 1. unfold gets. cbv beta iota zeta.
  destruct (filter _ (Hosted.items st)) as [|row0 rest] eqn:Hsel; cbn [head]; [discriminate|].
  intros [= ->] Hall. unfold bind at 1.
  destruct (neon_delete_loop _ Hall st) as (st1 & H1 & _). rewrite H1.
  destruct (neon_delete_loop_run _ _ _ _ H1) as (Hi & _ & Hf & Hk).
  unfold bind, ret, modify. cbv beta iota zeta. eexists. split; [reflexivity|].
  cbn [Hosted.items Hosted.blobs]. rewrite Hi.
  split; [reflexivity|]. split; [apply Hk; reflexivity | exact Hf].
Qed.

(** The DELETE branch of the object-storage function, for the id of a
    row. *)
Lemma supabase_delete_effects target st row :
  rowOf target st = Some row ->
  forallb readable (default [] (Hosted.media row)) = true ->
  exists st',
    Supabase.deleteBranch (Some target) st = (Done (jsonResponse 200 okBody), st')
    /\ Hosted.items st' = filter (fun r => Hosted.id r ≠ target) (Hosted.items st)
    /\ (forall entry p, In entry (default [] (Hosted.media row)) ->
                        get entry "path" = Done (JStr p) -> p ≠ "" ->
                        Hosted.blobs st' !! p = None)
    /\ (forall p, (forall entry, In entry (default [] (Hosted.media row)) ->
                                 get entry "path" ≠ Done (JStr p)) ->
                  Hosted.blobs st' !! p = Hosted.blobs st !! p).
Proof.
  unfold rowOf, Supabase.deleteBranch, Hosted.selectById, Hosted.deleteRow.
  unfold bind at 1. unfold gets. cbv beta iota zeta.
  destruct (filter _ (Hosted.items st)) as [|row0 rest] eqn:Hsel; cbn [head]; [discriminate|].
  intros [= ->] Hall. unfold bind at 1. destruct (Hosted.media row) as [entries|] eqn:Hmedia.
  - destruct (removeStoredMedia_ok (Some entries) st Hall) as (st1 & H1 & Hi1).
    rewrite H1. destruct (removeStoredMedia_run _ _ _ _ H1) as (_ & _ & Hk).
    unfold bind, ret, modify. cbv beta iota zeta. eexists. split; [reflexivity|].
    cbn [Hosted.items Hosted.blobs]. rewrite Hi1. split; [reflexivity|].
    split; [apply Hk; reflexivity|].
    intros p Hno. eapply removeStoredMedia_frame; [exact H1 | exact Hno].
  - unfold bind, ret, modify. cbv beta iota zeta. eexists. split; [reflexivity|].
    cbn [Hosted.items Hosted.blobs]. split; [reflexivity|]. split; [intros entry p []|].
    reflexivity.
Qed.

(* ===================================================================== *)
(** ** What a PUT leaves alone *)
(* ===================================================================== *)

(** The rows of [after] are those of [before], one for one, with the same
    ids, and the same rows wherever the id is not [target]. *)
Lemma updated_rows target (change : Hosted.Row -> Hosted.Row) (l : list Hosted.Row) :
  (forall r, Hosted.id r = target -> Hosted.id (change r) = target) ->
  Forall2 (fun r r' => Hosted.id r' = Hosted.id r /\ (Hosted.id r ≠ target -> r' = r))
          l (map (fun r => if decide (Hosted.id r = target) then change r else r) l).
Proof.
  intros Hid. induction l as [|r l IH]; cbn [map]; constructor; [|exact IH].
  destruct (decide (Hosted.id r = target)) as [Heq|Hne].
  - split; [rewrite Hid by exact Heq; symmetry; exact Heq | congruence].
  - split; reflexivity.
Qed.

Lemma neon_put_rows env req target st resp st' :
  Neon.putBranch env req (Some target) st = (Done resp, st') ->
  status resp = 200%Z ->
  Forall2 (fun r r' => Hosted.id r' = Hosted.id r /\ (Hosted.id r ≠ target -> r' = r))
          (Hosted.items st) (Hosted.items st')
  /\ (filesOf req = [] -> Hosted.blobs st' = Hosted.blobs st).
Proof.
  intros Hrun Hok. unfold Neon.putBranch in Hrun.
  destruct (withBody_cases req
              ltac:(match type of Hrun with Hosted.withBody _ ?k _ = _ => exact k end) st)
    as [Hgo | [H413 | [e He]]];
    rewrite ?Hgo, ?H413, ?He in Hrun; [|bad Hrun|bad Hrun].
  clear Hgo. unfold Hosted.selectById, Hosted.updateRow in Hrun. monad_in Hrun.
  destruct (filter _ (Hosted.items st)) as [|current rest] eqn:Hsel; crunch Hrun; [bad Hrun|].
  destruct (get (fieldsOf req) "title") as [rawTitle|]; crunch Hrun; [|bad Hrun].
  destruct (get (fieldsOf req) "desc") as [rawDesc|]; crunch Hrun; [|bad Hrun].
  destruct (get (fieldsOf req) "whatsappMessage") as [rawMessage|]; crunch Hrun; [|bad Hrun].
  destruct (filesOf req) as [|file files] eqn:Hfiles.
  - destruct (get (fieldsOf req) "media") as [given|]; crunch Hrun; [|bad Hrun].
    destruct given as [| | | | |[|x l]|]; crunch Hrun;
      match type of Hrun with
      | context [Neon.withMediaUrls ?m] =>
          destruct (Neon.withMediaUrls m) as [out|]; crunch Hrun; [|bad Hrun]
      end;
      inversion Hrun; subst resp st'; cbn [Hosted.items Hosted.blobs];
      (split; [apply updated_rows; intros r Hr; exact Hr | reflexivity]).
  - destruct (neon_storeFiles_run env (file :: files) target 0 st)
      as (refs & st1 & Hst & Hitems & Hrefs).
    rewrite Hst in Hrun. crunch Hrun.
    destruct (Neon.withMediaUrls (Some refs)) as [out|]; crunch Hrun; [|bad Hrun].
    inversion Hrun; subst resp st'. cbn [Hosted.items Hosted.blobs]. rewrite Hitems.
    split; [apply updated_rows; intros r Hr; exact Hr | discriminate].
Qed.

Lemma supabase_put_rows env req target st resp st' :
  Supabase.putBranch env req (Some target) st = (Done resp, st') ->
  status resp = 200%Z ->
  Forall2 (fun r r' => Hosted.id r' = Hosted.id r /\ (Hosted.id r ≠ target -> r' = r))
          (Hosted.items st) (Hosted.items st')
  /\ (filesOf req = [] -> Hosted.blobs st' = Hosted.blobs st).
Proof.
  intros Hrun Hok. unfold Supabase.putBranch in Hrun.
  destruct (withBody_cases req
              ltac:(match type of Hrun with Hosted.withBody _ ?k _ = _ => exact k end) st)
    as [Hgo | [H413 | [e He]]];
    rewrite ?Hgo, ?H413, ?He in Hrun; [|bad Hrun|bad Hrun].
  clear Hgo. unfold Hosted.selectById, Hosted.updateRow in Hrun. monad_in Hrun.
  destruct (filter _ (Hosted.items st)) as [|current rest] eqn:Hsel; crunch Hrun; [bad Hrun|].
  assert (Hcur : Hosted.id current = target).
  { apply (rowOf_in target st current). unfold rowOf. rewrite Hsel. reflexivity. }
  destruct (get (fieldsOf req) "title") as [rawTitle|]; crunch Hrun; [|bad Hrun].
  destruct (get (fieldsOf req) "desc") as [rawDesc|]; crunch Hrun; [|bad Hrun].
  destruct (get (fieldsOf req) "whatsappMessage") as [rawMessage|]; crunch Hrun; [|bad Hrun].
  destruct (filesOf req) as [|file files] eqn:Hfiles.
  - destruct (get (fieldsOf req) "media") as [given|]; crunch Hrun; [|bad Hrun].
    destruct given as [| | | | |[|x l]|]; crunch Hrun;
      match type of Hrun with
      | context [Supabase.rowJson env ?r] =>
          destruct (Supabase.rowJson env r) as [out|]; crunch Hrun; [|bad Hrun]
      end;
      inversion Hrun; subst resp st'; cbn [Hosted.items Hosted.blobs];
      (split; [apply updated_rows; intros r Hr; exact Hcur | reflexivity]).
  - destruct (Supabase.removeStoredMedia _ st) as [[[]|e] st1] eqn:Hrm; crunch Hrun;
      [|bad Hrun].
    apply removeStoredMedia_run in Hrm as (Hi1 & _).
    destruct (Supabase.storeFiles env 0 (file :: files) (Hosted.id current) st1)
      as [r st2] eqn:Hst.
    apply supabase_storeFiles_run in Hst as [Hi2 _].
    destruct r as [refs|]; crunch Hrun; [|bad Hrun].
    match type of Hrun with
    | context [Supabase.rowJson env ?r] =>
        destruct (Supabase.rowJson env r) as [out|]; crunch Hrun; [|bad Hrun]
    end.
    inversion Hrun; subst resp st'. cbn [Hosted.items Hosted.blobs]. rewrite Hi2, Hi1.
    split; [apply updated_rows; intros r Hr; exact Hcur | discriminate].
Qed.

(* ===================================================================== *)
(** ** The local server: what a request leaves behind *)
(* ===================================================================== *)

(** Splits on the innermost scrutinee of a term. *)
Ltac destruct_inner t :=
  lazymatch t with
  | context [match ?y with _ => _ end] => destruct_inner y
  | _ => destruct t
  end.

Lemma get_raise v k e : get v k = Raise e -> e = TypeError.
Proof. destruct v; cbn [get]; congruence. Qed.

Lemma trimOf_raise v e : trimOf v = Raise e -> e = TypeError.
Proof. destruct v; cbn [trimOf]; congruence. Qed.

Lemma mapM_raise {A B} (f : A -> Outcome B) (xs : list A) e :
  mapM f xs = Raise e -> exists x, In x xs /\ f x = Raise e.
Proof.
  induction xs as [|x xs IH]; [discriminate|]. cbn [mapM].
  destruct (f x) as [y|e0] eqn:Hx.
  - destruct (mapM f xs) as [ys|e1]; [discriminate|].
    intros [= ->]. destruct (IH eq_refl) as (x0 & Hin & Hx0).
    exists x0. split; [right; exact Hin | exact Hx0].
  - intros [= ->]. exists x. split; [left; reflexivity | exact Hx].
Qed.

Lemma toItemResponse_raise item e : Local.toItemResponse item = Raise e -> e = TypeError.
Proof.
  unfold Local.toItemResponse, Local.mediaList, andThen.
  destruct (prop (Local.normalizeItem item) "media"); try congruence.
  destruct (mapM _ l) as [media|e0] eqn:Hm; [discriminate|].
  intros [= ->]. apply mapM_raise in Hm as (x & _ & Hx).
  destruct (get x "type") eqn:Ht; [|apply get_raise in Ht; congruence].
  destruct (get x "url") eqn:Hu; [discriminate|apply get_raise in Hu; congruence].
Qed.

Lemma unlinkMedia_raise entry st e st' :
  Local.unlinkMedia entry st = (Raise e, st') -> e = TypeError.
Proof.
  unfold Local.unlinkMedia, Local.unlink, bind, lift, ret, throw, modify.
  destruct (get entry "filename") as [name|e0] eqn:Hname.
  - destruct (negb (truthy name)); [discriminate|]. destruct name; congruence.
  - apply get_raise in Hname. congruence.
Qed.

Lemma forEach_unlinkMedia_raise entries :
  forall st e st', forEach Local.unlinkMedia entries st = (Raise e, st') -> e = TypeError.
Proof.
  induction entries as [|entry entries IH]; intros st e st'; [discriminate|].
  cbn [forEach]. unfold bind.
  destruct (Local.unlinkMedia entry st) as [[[]|e0] st1] eqn:H1.
  - apply IH.
  - intros [= -> _]. eapply unlinkMedia_raise. exact H1.
Qed.

(** The routes pass no error of the upload library on but the one of
    [upload.array], which has stored nothing. *)
Lemma local_route_raise req st e st' :
  Local.route req st = (Raise e, st') ->
  e = TypeError \/ (e = MulterError "File too large" /\ st' = st).
Proof.
  intros Hrun. unfold Local.route in Hrun.
  destruct req as [|clock body parts|targetId body parts|targetId];
    unfold Local.getItems, Local.postItem, Local.putItem, Local.deleteItem,
           Local.uploadArray, Local.readItems, Local.writeItems in Hrun;
    monad_in Hrun.
  - destruct (mapM _ _) as [out|e0] eqn:Hm; crunch Hrun; [discriminate|].
    injection Hrun as -> _. apply mapM_raise in Hm as (x & _ & Hx).
    left. eapply toItemResponse_raise. exact Hx.
  - destruct (existsb _ parts); crunch Hrun; [injection Hrun as <- <-; right; split; reflexivity|].
    left.
    repeat match type of Hrun with
           | context [trimOf ?v] =>
               let H := fresh in
               destruct (trimOf v) eqn:H; crunch Hrun;
               [|apply trimOf_raise in H; congruence]
           end.
    destruct (map Local.storedFile parts) as [|f l]; crunch Hrun; [discriminate|].
    destruct (Local.toItemResponse _) eqn:Hr; crunch Hrun; [discriminate|].
    apply toItemResponse_raise in Hr. congruence.
  - destruct (existsb _ parts); crunch Hrun; [injection Hrun as <- <-; right; split; reflexivity|].
    left.
    destruct (Local.findIndex _ _) as [[index item]|]; crunch Hrun; [|discriminate].
    repeat match type of Hrun with
           | context [trimOf ?v] =>
               let H := fresh in
               destruct (trimOf v) eqn:H; crunch Hrun;
               [|apply trimOf_raise in H; congruence]
           end.
    destruct (map Local.storedFile parts) as [|f l]; crunch Hrun.
    + destruct (Local.toItemResponse _) eqn:Hr; crunch Hrun; [discriminate|].
      apply toItemResponse_raise in Hr. congruence.
    + unfold Local.mediaList in Hrun.
      destruct (prop _ "media") as [| | | | |old|]; crunch Hrun; try congruence.
      destruct (forEach Local.unlinkMedia old _) as [[[]|e0] st1] eqn:Hloop; crunch Hrun.
      * destruct (Local.toItemResponse _) eqn:Hr; crunch Hrun; [discriminate|].
        apply toItemResponse_raise in Hr. congruence.
      * apply forEach_unlinkMedia_raise in Hloop. congruence.
  - left.
    destruct (Local.findIndex _ _) as [[index item]|]; crunch Hrun; [|discriminate].
    unfold Local.mediaList in Hrun.
    destruct (prop _ "media") as [| | | | |old|]; crunch Hrun; try congruence.
    destruct (forEach Local.unlinkMedia old _) as [[[]|e0] st1] eqn:Hloop; crunch Hrun;
      [discriminate|].
    apply forEach_unlinkMedia_raise in Hloop. congruence.
Qed.

(** A route that ends without the success status has left the data file as
    it was. *)
Lemma local_route_refused req st resp st' :
  Local.route req st = (Done resp, st') ->
  status resp ≠ 200%Z ->
  Local.dataFile st' = Local.dataFile st
  /\ (status resp = 400%Z \/ status resp = 404%Z).
Proof.
  intros Hrun Hst. unfold Local.route in Hrun.
  destruct req as [|clock body parts|targetId body parts|targetId];
    unfold Local.getItems, Local.postItem, Local.putItem, Local.deleteItem,
           Local.uploadArray, Local.readItems, Local.writeItems in Hrun;
    monad_in Hrun;
    repeat match type of Hrun with
           | context [match ?x with _ => _ end] => destruct_inner x; crunch Hrun
           end;
    inversion Hrun; subst; cbn [status Local.dataFile] in *;
    first [congruence | split; [reflexivity | tauto]].
Qed.

(** An answer in the 400s of the local server has left the data file as it
    was. *)
Lemma local_refused req st resp st' :
  Local.serve req st = (resp, st') ->
  (400 <= status resp < 500)%Z ->
  Local.dataFile st' = Local.dataFile st.
Proof.
  intros Hrun Hst. unfold Local.serve in Hrun.
  destruct (Local.route req st) as [[res|e] st1] eqn:Hroute.
  - injection Hrun as <- <-. eapply local_route_refused; [exact Hroute | lia].
  - apply local_route_raise in Hroute as [->|[-> ->]]; injection Hrun as <- <-;
      [cbn [status] in Hst; lia | reflexivity].
Qed.

(* ===================================================================== *)
(** ** The local server: the records it writes *)
(* ===================================================================== *)

(** The record behind a 200 of the local server's POST route. *)
Lemma local_post_item clock form parts st resp st' :
  Local.serve (Local.PostItems clock form parts) st = (resp, st') ->
  status resp = 200%Z ->
  exists title desc message part rest,
    let files := map Local.storedFile parts in
    let media := map Local.mediaOfFile files in
    let newItem :=
      object [("id", JStr ("item-" +:+ decimal (Local.now clock) +:+ "-"
                           +:+ decimal (Local.rnd clock)));
              ("title", JStr title);
              ("desc", JStr desc);
              ("whatsappMessage", JStr message);
              ("media", JArr media);
              ("type", or_ (optProp (first media) "type") (JStr "image"));
              ("url", or_ (optProp (first media) "url") (JStr ""));
              ("createdAt", JStr (Local.isoDate clock))] in
    parts = part :: rest
    /\ trimOf (or_ (prop form "title") (JStr "Novo imovel")) = Done title
    /\ trimOf (or_ (prop form "desc") (JStr "Mais detalhes no WhatsApp.")) = Done desc
    /\ trimOf (or_ (prop form "whatsappMessage") (JStr DEFAULT_WHATS_MESSAGE)) = Done message
    /\ st' = {| Local.dataFile := Local.dataFile st ++ [newItem];
                Local.uploadsDir :=
                  list_to_set (map Local.filename files) ∪ Local.uploadsDir st |}
    /\ Local.toItemResponse newItem = Done (body resp).
Proof.
  intros Hrun Hok.
  unfold Local.serve, Local.route, bind, Local.uploadArray in Hrun. crunch Hrun.
  destruct (existsb _ parts); crunch Hrun; [bad Hrun|].
  unfold Local.postItem, Local.readItems, Local.writeItems in Hrun. monad_in Hrun.
  destruct (trimOf (or_ (prop form "title") _)) as [title|]; crunch Hrun; [|bad Hrun].
  destruct (trimOf (or_ (prop form "desc") _)) as [desc|]; crunch Hrun; [|bad Hrun].
  destruct (trimOf (or_ (prop form "whatsappMessage") _)) as [message|];
    crunch Hrun; [|bad Hrun].
  destruct parts as [|part rest]; cbn [map] in Hrun; crunch Hrun; [bad Hrun|].
  cbn [Local.dataFile Local.uploadsDir] in Hrun.
  match type of Hrun with
  | context [Local.toItemResponse ?item] =>
      destruct (Local.toItemResponse item) as [out|] eqn:Hout; crunch Hrun; [|bad Hrun]
  end.
  exists title, desc, message, part, rest. inversion Hrun; subst. cbn [body map].
  repeat split. exact Hout.
Qed.

Lemma forEach_unlinkMedia_frame entries :
  forall st r st' f,
    forEach Local.unlinkMedia entries st = (r, st') ->
    (forall entry, In entry entries -> get entry "filename" ≠ Done (JStr f)) ->
    f ∈ Local.uploadsDir st -> f ∈ Local.uploadsDir st'.
Proof.
  induction entries as [|entry entries IH]; intros st r st' f.
  - cbn [forEach]. unfold ret. intros [= _ <-] _ Hf. exact Hf.
  - cbn [forEach]. unfold bind at 1. intros Hrun Hno Hf.
    destruct (Local.unlinkMedia entry st) as [[[]|e] st1] eqn:H1.
    + eapply IH; [exact Hrun | intros x Hx; apply Hno; right; exact Hx |].
      unfold Local.unlinkMedia, Local.unlink, bind, lift, ret, throw, modify in H1.
      destruct (get entry "filename") as [name|] eqn:Hname; [|discriminate].
      destruct (negb (truthy name)); [injection H1 as <-; exact Hf|].
      destruct name; try discriminate. injection H1 as <-. cbn [Local.uploadsDir].
      apply elem_of_difference. split; [exact Hf|].
      rewrite elem_of_singleton. intros ->. apply (Hno entry); [left; reflexivity | exact Hname].
    + injection Hrun as _ <-.
      unfold Local.unlinkMedia, Local.unlink, bind, lift, ret, throw, modify in H1.
      destruct (get entry "filename") as [name|]; [|injection H1 as _ <-; exact Hf].
      destruct (negb (truthy name)); [discriminate|].
      destruct name; try discriminate; injection H1 as _ <-; exact Hf.
Qed.

(** What a 200 of the local server's DELETE route means. *)
Lemma local_delete_effects targetId st resp st' :
  Local.serve (Local.DeleteItem targetId) st = (resp, st') ->
  status resp = 200%Z ->
  exists index item old,
    Local.findIndex targetId (Local.dataFile st) = Some (index, item)
    /\ prop (Local.normalizeItem item) "media" = JArr old
    /\ Local.dataFile st' = delete index (Local.dataFile st)
    /\ (forall entry f, In entry old -> get entry "filename" = Done (JStr f) -> f ≠ "" ->
                        f ∉ Local.uploadsDir st')
    /\ (forall f, f ∈ Local.uploadsDir st' -> f ∈ Local.uploadsDir st)
    /\ (forall f, (forall entry, In entry old -> get entry "filename" ≠ Done (JStr f)) ->
                  f ∈ Local.uploadsDir st -> f ∈ Local.uploadsDir st').
Proof.
  intros Hrun Hok.
  unfold Local.serve, Local.route, Local.deleteItem, Local.readItems, Local.writeItems,
         Local.mediaList in Hrun.
  monad_in Hrun.
  destruct (Local.findIndex targetId (Local.dataFile st)) as [[index item]|] eqn:Hfind;
    crunch Hrun; [|bad Hrun].
  destruct (prop (Local.normalizeItem item) "media") as [| | | | |old|] eqn:Hold;
    crunch Hrun; try bad Hrun.
  destruct (forEach Local.unlinkMedia old st) as [r st1] eqn:Hloop.
  pose proof (fun f => forEach_unlinkMedia_frame _ _ _ _ f Hloop) as Hframe.
  apply forEach_unlinkMedia_run in Hloop as (Hd1 & Hu1 & Hf1).
  destruct r as [[]|e]; crunch Hrun; [|bad Hrun].
  inversion Hrun; subst. cbn [Local.dataFile Local.uploadsDir].
  exists index, item, old. split; [reflexivity|]. split; [exact Hold|].
  split; [reflexivity|]. split; [apply Hf1; reflexivity|].
  split; [intros f Hf; apply Hu1; exact Hf | intros f Hno Hf; apply Hframe; assumption].
Qed.

(** The record behind a 200 of the local server's PUT route. *)
Lemma local_put_item targetId form parts st resp st' :
  Local.serve (Local.PutItem targetId form parts) st = (resp, st') ->
  status resp = 200%Z ->
  exists index item item',
    Local.findIndex targetId (Local.dataFile st) = Some (index, item)
    /\ Local.dataFile st' = <[index := item']> (Local.dataFile st)
    /\ Local.toItemResponse item' = Done (body resp)
    /\ (forall k, ~ In k ["title"; "desc"; "whatsappMessage"; "media"; "type"; "url"] ->
                  prop item' k = prop item k)
    /\ match parts with
       | [] => prop item' "type" = prop item "type"
               /\ prop item' "url" = prop item "url"
               /\ Local.uploadsDir st' = Local.uploadsDir st
       | part :: _ =>
           prop item' "type" = JStr (mediaType (Local.mimetype part))
           /\ prop item' "url" = JStr ("/uploads/" +:+ Local.diskFilename part)
       end.
Proof.
  intros Hrun Hok.
  unfold Local.serve, Local.route, bind, Local.uploadArray in Hrun. crunch Hrun.
  destruct (existsb _ parts); crunch Hrun; [bad Hrun|].
  unfold Local.putItem, Local.readItems, Local.writeItems in Hrun. monad_in Hrun.
  cbn [Local.dataFile Local.uploadsDir] in Hrun.
  destruct (Local.findIndex targetId (Local.dataFile st)) as [[index item]|] eqn:Hfind;
    crunch Hrun; [|bad Hrun].
  set (n := Local.normalizeItem item) in *.
  destruct (trimOf (or_ (prop form "title") _)) as [title|]; crunch Hrun; [|bad Hrun].
  destruct (trimOf (or_ (prop form "desc") _)) as [desc|]; crunch Hrun; [|bad Hrun].
  destruct (trimOf (or_ (or_ (prop form "whatsappMessage") _) _)) as [message|];
    crunch Hrun; [|bad Hrun].
  assert (Hother : forall k, ~ In k ["title"; "desc"; "whatsappMessage"; "media"; "type"; "url"] ->
                             k ≠ "title" /\ k ≠ "desc" /\ k ≠ "whatsappMessage"
                             /\ k ≠ "media" /\ k ≠ "type" /\ k ≠ "url")
    by (intros k Hk; cbn [In] in Hk; repeat split; intros ->; tauto).
  destruct parts as [|part parts]; cbn [map] in Hrun; crunch Hrun.
  - match type of Hrun with
    | context [Local.toItemResponse ?it] =>
        destruct (Local.toItemResponse it) as [out|] eqn:Hout; crunch Hrun; [|bad Hrun];
        exists index, item, it
    end.
    inversion Hrun; subst. cbn [Local.dataFile Local.uploadsDir body].
    split; [reflexivity|]. split; [reflexivity|]. split; [exact Hout|]. split.
    + intros k Hk. destruct (Hother k Hk) as (? & ? & ? & ? & ? & ?).
      rewrite !prop_set_ne by congruence. apply normalizeItem_other; congruence.
    + rewrite !prop_set_ne by discriminate. unfold n.
      rewrite !normalizeItem_other by discriminate.
      repeat split. apply (left_id_L ∅ (∪)).
  - unfold Local.mediaList in Hrun.
    destruct (prop _ "media") as [| | | | |old|] in Hrun; crunch Hrun; try bad Hrun.
    match type of Hrun with
    | context [forEach Local.unlinkMedia old ?s] =>
        destruct (forEach Local.unlinkMedia old s) as [[[]|e] st1]
    end; crunch Hrun; [|bad Hrun].
    match type of Hrun with
    | context [Local.toItemResponse ?it] =>
        destruct (Local.toItemResponse it) as [out|] eqn:Hout; crunch Hrun; [|bad Hrun];
        exists index, item, it
    end.
    inversion Hrun; subst. cbn [Local.dataFile Local.uploadsDir body].
    split; [reflexivity|]. split; [reflexivity|]. split; [exact Hout|]. split.
    + intros k Hk. destruct (Hother k Hk) as (? & ? & ? & ? & ? & ?).
      rewrite !prop_set_ne by congruence. apply normalizeItem_other; congruence.
    + rewrite prop_set_ne by discriminate. rewrite !prop_set_eq.
      unfold Local.mediaOfFile, first, optProp. prop_object.
      unfold or_, mediaType. split.
      * destruct (startsWith _ _); reflexivity.
      * reflexivity.
Qed.

(* ===================================================================== *)
(** ** Refusals *)
(* ===================================================================== *)

(** X1. A request answered with a status in the 400s has persisted nothing:
    the local server has left the data file as it was, and the hosted
    functions have left the table and the media store as their seeding step
    left them. *)
Theorem refusals_persist_nothing :
  (forall req st resp st',
      Local.serve req st = (resp, st') ->
      (400 <= status resp < 500)%Z ->
      Local.dataFile st' = Local.dataFile st)
  /\ (forall env req st resp st',
        Neon.handler env req st = (resp, st') ->
        (400 <= status resp < 500)%Z ->
        Neon.seedIfEmpty env st = (Done tt, st'))
  /\ (forall env req st resp st',
        Supabase.handler env req st = (resp, st') ->
        (400 <= status resp < 500)%Z ->
        Supabase.ensureSeed env st = (Done tt, st')).
Proof.
  split; [exact local_refused|]. split.
  - intros env req st resp st' Hrun Hst.
    apply neon_handler_ok in Hrun as (st0 & Hseed & Hrun); [|lia].
    apply neon_dispatch_refused in Hrun as ->; [exact Hseed | exact Hst].
  - intros env req st resp st' Hrun Hst.
    apply supabase_handler_ok in Hrun as (_ & st0 & Hseed & Hrun); [|lia].
    apply supabase_dispatch_refused in Hrun as ->; [exact Hseed | exact Hst].
Qed.

(** The blob-store function refuses an item without a title, and stores
    neither the row nor the file sent with it. *)
Lemma refusals_persist_nothing_witness :
  status (Neon.handler sampleNeonEnv postUntitled (sampleTable "key")).1 = 400%Z
  /\ filesOf postUntitled ≠ []
  /\ Neon.seedIfEmpty sampleNeonEnv (sampleTable "key")
     = (Done tt, (Neon.handler sampleNeonEnv postUntitled (sampleTable "key")).2).
Proof.
  assert (Hst : status (Neon.handler sampleNeonEnv postUntitled (sampleTable "key")).1
                = 400%Z) by (vm_compute; reflexivity).
  split; [exact Hst|]. split; [vm_compute; discriminate|].
  apply (proj1 (proj2 refusals_persist_nothing) sampleNeonEnv postUntitled
               (sampleTable "key")
               (Neon.handler sampleNeonEnv postUntitled (sampleTable "key")).1
               (Neon.handler sampleNeonEnv postUntitled (sampleTable "key")).2
               (surjective_pairing _)).
  rewrite Hst. lia.
Defined.



(** X3. A hosted function answers a request whose method is none of GET,
    POST, PUT and DELETE (in any letter case) with 405 and changes nothing. *)
Theorem other_methods_not_allowed :
  (forall env req st st0,
      ~ In (Hosted.toUpperCase (Hosted.method req)) ["GET"; "POST"; "PUT"; "DELETE"] ->
      Neon.seedIfEmpty env st = (Done tt, st0) ->
      Neon.handler env req st
      = (jsonResponse 405 (Hosted.errorBody "Method not allowed."), st0))
  /\ (forall env req st st0,
        configured env ->
        ~ In (Hosted.toUpperCase (Hosted.method req)) ["GET"; "POST"; "PUT"; "DELETE"] ->
        Supabase.ensureSeed env st = (Done tt, st0) ->
        Supabase.handler env req st
        = (jsonResponse 405 (Hosted.errorBody "Method not allowed."), st0)).
Proof.
  assert (Hno : forall m, ~ In m ["GET"; "POST"; "PUT"; "DELETE"] ->
                          String.eqb m "GET" = false /\ String.eqb m "POST" = false
                          /\ String.eqb m "PUT" = false /\ String.eqb m "DELETE" = false).
  { intros m Hm. repeat split; apply String.eqb_neq; intros ->; apply Hm;
      cbn [In]; tauto. }
  split.
  - intros env req st st0 Hm Hseed.
    rewrite (neon_handler_seeded _ _ _ _ Hseed). unfold Neon.dispatch.
    destruct (Hno _ Hm) as (-> & -> & -> & ->). reflexivity.
  - intros env req st st0 Hcfg Hm Hseed.
    rewrite (supabase_handler_seeded _ _ _ _ Hcfg Hseed). unfold Supabase.dispatch.
    destruct (Hno _ Hm) as (-> & -> & -> & ->). reflexivity.
Qed.

(** The blob-store function does not allow PATCH. *)
Lemma other_methods_not_allowed_witness :
  Neon.handler sampleNeonEnv patchItem (sampleTable "key")
  = (jsonResponse 405 (Hosted.errorBody "Method not allowed."), sampleTable "key").
Proof.
  apply (proj1 other_methods_not_allowed sampleNeonEnv patchItem
               (sampleTable "key") (sampleTable "key")).
  - vm_compute. intros [H|[H|[H|[H|[]]]]]; discriminate H.
  - vm_compute. reflexivity.
Defined.

(** X4. When one of the two environment variables of the object-storage
    function is not set, every request is answered 500 ["Server error."]
    and neither the table nor the bucket is touched. *)
Theorem supabase_needs_its_environment (env : Supabase.Env) (req : Hosted.Request)
    (st : Hosted.Store) :
  Supabase.SUPABASE_URL env = "" \/ Supabase.SUPABASE_SERVICE_ROLE_KEY env = "" ->
  Supabase.handler env req st
  = (jsonResponse 500 (Hosted.errorBody "Server error."), st).
Proof.
  intros Hunset.
  unfold Supabase.handler, Supabase.handle, Supabase.getSupabase, bind, throw.
  destruct Hunset as [-> | ->]; [reflexivity|].
  destruct (Supabase.SUPABASE_URL env); reflexivity.
Qed.

(** The function without its service key answers a listing with 500. *)
Lemma supabase_needs_its_environment_witness :
  Supabase.handler unsetSupabaseEnv getAll (sampleTable "path")
  = (jsonResponse 500 (Hosted.errorBody "Server error."), sampleTable "path").
Proof.
  apply (supabase_needs_its_environment unsetSupabaseEnv getAll (sampleTable "path")).
  right. reflexivity.
Defined.

(** X5. A GET writes nothing: the local server leaves its store as it was,
    and a hosted function leaves the store as the seeding step leaves it,
    whatever it answers. *)
Theorem get_writes_nothing :
  (forall st, (Local.serve Local.GetItems st).2 = st)
  /\ (forall env req st,
        Hosted.toUpperCase (Hosted.method req) = "GET" ->
        (Neon.handler env req st).2 = (Neon.seedIfEmpty env st).2)
  /\ (forall env req st,
        configured env ->
        Hosted.toUpperCase (Hosted.method req) = "GET" ->
        (Supabase.handler env req st).2 = (Supabase.ensureSeed env st).2).
Proof.
  split; [|split].
  - intros st. unfold Local.serve, Local.route, Local.getItems, Local.readItems,
                 bind, gets, lift, ret.
    destruct (mapM _ _) as [out|[]]; reflexivity.
  - intros env req st Hm. unfold Neon.handler, Neon.handle, bind.
    destruct (Neon.seedIfEmpty env st) as [[[]|e] st0]; [|reflexivity].
    rewrite (neon_dispatch_get _ _ Hm).
    destruct (Neon.getBranch _ st0) as [r st1] eqn:Hget.
    apply neon_get_run in Hget as ->. destruct r; reflexivity.
  - intros env req st [Hu Hk] Hm.
    unfold Supabase.handler, Supabase.handle, Supabase.getSupabase, bind, ret.
    destruct (Supabase.SUPABASE_URL env); [congruence|].
    destruct (Supabase.SUPABASE_SERVICE_ROLE_KEY env); [congruence|].
    destruct (Supabase.ensureSeed env st) as [[[]|e] st0]; [|reflexivity].
    rewrite (supabase_dispatch_get _ _ Hm).
    destruct (Supabase.getBranch env _ st0) as [r st1] eqn:Hget.
    apply supabase_get_run in Hget as ->. destruct r; reflexivity.
Qed.

(** A listing by the blob-store function leaves the sample table alone. *)
Lemma get_writes_nothing_witness :
  (Neon.handler sampleNeonEnv getAll (sampleTable "key")).2 = sampleTable "key".
Proof.
  rewrite (proj1 (proj2 get_writes_nothing) sampleNeonEnv getAll (sampleTable "key") eq_refl).
  reflexivity.
Defined.

(* ===================================================================== *)
(** ** Reading back what was written *)
(* ===================================================================== *)







(* ===================================================================== *)
(** ** Trimmed text *)
(* ===================================================================== *)

Lemma trimEnd_trimEnd s : trimEnd (trimEnd s) = trimEnd s.
Proof.
  induction s as [|c s IH]; [reflexivity|]. cbn [trimEnd].
  destruct (trimEnd s) as [|d r] eqn:Hs.
  - destruct (isSpace c) eqn:Hc; [reflexivity|]. cbn [trimEnd]. rewrite Hc. reflexivity.
  - cbn [trimEnd]. cbn [trimEnd] in IH.
    destruct (trimEnd r) as [|d' r'] eqn:Hr.
    + destruct (isSpace d); [discriminate|]. rewrite IH. reflexivity.
    + rewrite IH. reflexivity.
Qed.

Lemma trimStart_head s :
  match trimStart s with
  | EmptyString => True
  | String c _ => isSpace c = false
  end.
Proof.
  induction s as [|c s IH]; [exact I|]. cbn [trimStart].
  destruct (isSpace c) eqn:Hc; [exact IH | exact Hc].
Qed.

Lemma trimEnd_head c s :
  isSpace c = false -> exists r, trimEnd (String c s) = String c r.
Proof.
  intros Hc. cbn [trimEnd]. destruct (trimEnd s); [rewrite Hc|]; eexists; reflexivity.
Qed.

(** Trimming a trimmed string changes nothing. *)
Lemma trim_trim s : trim (trim s) = trim s.
Proof.
  unfold trim. pose proof (trimStart_head s) as Hhead.
  destruct (trimStart s) as [|c t]; [reflexivity|].
  destruct (trimEnd_head c t Hhead) as [r Hr]. rewrite Hr.
  cbn [trimStart]. rewrite Hhead, <- Hr. apply trimEnd_trimEnd.
Qed.

Lemma supplied_trimmed req field : trim (supplied req field) = supplied req field.
Proof.
  unfold supplied. destruct (get (fieldsOf req) field); [|reflexivity].
  unfold Hosted.normalizeText. apply trim_trim.
Qed.

(** X8. The row a hosted function creates holds the title and the
    description of the request as trimmed text: neither is empty and
    neither has white space at its ends.  Its WhatsApp message is the
    trimmed text of the request, or the fixed default when the request
    gives none, and is never empty. *)
Theorem created_row_text :
  (forall env req st resp st',
      Hosted.toUpperCase (Hosted.method req) = "POST" ->
      Neon.handler env req st = (resp, st') ->
      status resp = 201%Z ->
      exists st0 row,
        Neon.seedIfEmpty env st = (Done tt, st0)
        /\ Hosted.items st' = Hosted.items st0 ++ [row]
        /\ Hosted.title row = supplied req "title"
        /\ Hosted.description row = supplied req "desc"
        /\ Hosted.whatsapp_message row
           = orElse (supplied req "whatsappMessage") DEFAULT_WHATS_MESSAGE
        /\ Forall (fun text => text ≠ "" /\ trim text = text)
                  [Hosted.title row; Hosted.description row]
        /\ Hosted.whatsapp_message row ≠ "")
  /\ (forall env req st resp st',
        Hosted.toUpperCase (Hosted.method req) = "POST" ->
        Supabase.handler env req st = (resp, st') ->
        status resp = 201%Z ->
        exists st0 row,
          Supabase.ensureSeed env st = (Done tt, st0)
          /\ Hosted.items st' = Hosted.items st0 ++ [row]
          /\ Hosted.title row = supplied req "title"
          /\ Hosted.description row = supplied req "desc"
          /\ Hosted.whatsapp_message row
             = orElse (supplied req "whatsappMessage") DEFAULT_WHATS_MESSAGE
          /\ Forall (fun text => text ≠ "" /\ trim text = text)
                    [Hosted.title row; Hosted.description row]
          /\ Hosted.whatsapp_message row ≠ "").
Proof.
  split.
  - intros env req st resp st' Hm Hrun Hok.
    apply neon_handler_ok in Hrun as (st0 & Hseed & Hrun); [|rewrite Hok; discriminate].
    rewrite (neon_dispatch_post _ _ Hm) in Hrun.
    destruct (neon_post_row _ _ _ _ _ Hrun Hok)
      as (refs & out & _ & Ht & Hd & Hitems & _).
    eexists st0, _. split; [exact Hseed|]. split; [exact Hitems|].
    cbn [Hosted.title Hosted.description Hosted.whatsapp_message].
    split; [reflexivity|]. split; [reflexivity|]. split; [reflexivity|].
    split; [|apply orElse_nonempty; discriminate].
    repeat constructor; try assumption; apply supplied_trimmed.
  - intros env req st resp st' Hm Hrun Hok.
    apply supabase_handler_ok in Hrun as (_ & st0 & Hseed & Hrun);
      [|rewrite Hok; discriminate].
    rewrite (supabase_dispatch_post _ _ Hm) in Hrun.
    destruct (supabase_post_row _ _ _ _ _ Hrun Hok) as (refs & Ht & Hd & Hitems & _).
    eexists st0, _. split; [exact Hseed|]. split; [exact Hitems|].
    cbn [Hosted.title Hosted.description Hosted.whatsapp_message].
    split; [reflexivity|]. split; [reflexivity|]. split; [reflexivity|].
    split; [|apply orElse_nonempty; discriminate].
    repeat constructor; try assumption; apply supplied_trimmed.
Qed.

(** The blob-store function stores the title [" Sobrado "] of the sample
    upload as ["Sobrado"], and the default message. *)
Lemma created_row_text_witness :
  status (Neon.handler sampleNeonEnv postFiles (sampleTable "key")).1 = 201%Z
  /\ exists row,
       Hosted.items (Neon.handler sampleNeonEnv postFiles (sampleTable "key")).2
       = Hosted.items (sampleTable "key") ++ [row]
       /\ Hosted.title row = "Sobrado"
       /\ Hosted.whatsapp_message row = DEFAULT_WHATS_MESSAGE.
Proof.
  assert (Hok : status (Neon.handler sampleNeonEnv postFiles (sampleTable "key")).1
                = 201%Z) by (vm_compute; reflexivity).
  split; [exact Hok|].
  destruct (proj1 created_row_text sampleNeonEnv postFiles (sampleTable "key") _ _
                  eq_refl (surjective_pairing _) Hok)
    as (st0 & row & Hseed & Hitems & Ht & _ & Hmsg & _).
  injection Hseed as <-.
  exists row. split; [exact Hitems|]. split; [rewrite Ht | rewrite Hmsg]; reflexivity.
Defined.

(* ===================================================================== *)
(** ** The rows and blobs an update or a removal leaves alone *)
(* ===================================================================== *)

(** X9. A PUT that a hosted function answers with 200 keeps the table's
    rows in number, in order and by id, and leaves every row of another id
    exactly as it was; a PUT without files leaves the media store as it
    was. *)
Theorem update_leaves_other_rows :
  (forall env req target st resp st',
      Hosted.toUpperCase (Hosted.method req) = "PUT" ->
      Hosted.extractId (Hosted.pathname req) = Some target ->
      Neon.handler env req st = (resp, st') ->
      status resp = 200%Z ->
      exists st0,
        Neon.seedIfEmpty env st = (Done tt, st0)
        /\ Forall2 (fun r r' => Hosted.id r' = Hosted.id r
                                /\ (Hosted.id r ≠ target -> r' = r))
                   (Hosted.items st0) (Hosted.items st')
        /\ (filesOf req = [] -> Hosted.blobs st' = Hosted.blobs st0))
  /\ (forall env req target st resp st',
        Hosted.toUpperCase (Hosted.method req) = "PUT" ->
        Hosted.extractId (Hosted.pathname req) = Some target ->
        Supabase.handler env req st = (resp, st') ->
        status resp = 200%Z ->
        exists st0,
          Supabase.ensureSeed env st = (Done tt, st0)
          /\ Forall2 (fun r r' => Hosted.id r' = Hosted.id r
                                  /\ (Hosted.id r ≠ target -> r' = r))
                     (Hosted.items st0) (Hosted.items st')
          /\ (filesOf req = [] -> Hosted.blobs st' = Hosted.blobs st0)).
Proof.
  split.
  - intros env req target st resp st' Hm Hid Hrun Hok.
    apply neon_handler_ok in Hrun as (st0 & Hseed & Hrun); [|rewrite Hok; discriminate].
    rewrite (neon_dispatch_put _ _ Hm), Hid in Hrun.
    exists st0. split; [exact Hseed|]. eapply neon_put_rows; eauto.
  - intros env req target st resp st' Hm Hid Hrun Hok.
    apply supabase_handler_ok in Hrun as (_ & st0 & Hseed & Hrun);
      [|rewrite Hok; discriminate].
    rewrite (supabase_dispatch_put _ _ Hm), Hid in Hrun.
    exists st0. split; [exact Hseed|]. eapply supabase_put_rows; eauto.
Qed.

(** The blob-store function retitles row ["a1"] of a table of two rows and
    leaves row ["z9"] alone. *)
Lemma update_leaves_other_rows_witness :
  status (Neon.handler sampleNeonEnv putDescriptors (twoRows "key")).1 = 200%Z
  /\ Forall2 (fun r r' => Hosted.id r' = Hosted.id r /\ (Hosted.id r ≠ "a1" -> r' = r))
             (Hosted.items (twoRows "key"))
             (Hosted.items (Neon.handler sampleNeonEnv putDescriptors (twoRows "key")).2)
  /\ Hosted.blobs (Neon.handler sampleNeonEnv putDescriptors (twoRows "key")).2
     = Hosted.blobs (twoRows "key").
Proof.
  assert (Hok : status (Neon.handler sampleNeonEnv putDescriptors (twoRows "key")).1
                = 200%Z) by (vm_compute; reflexivity).
  split; [exact Hok|].
  destruct (proj1 update_leaves_other_rows sampleNeonEnv putDescriptors "a1"
                  (twoRows "key") _ _ eq_refl eq_refl (surjective_pairing _) Hok)
    as (st0 & Hseed & Hrows & Hblobs).
  injection Hseed as <-. split; [exact Hrows | apply Hblobs; reflexivity].
Defined.

(** X10. A DELETE of the id of a row whose media entries can be read is
    answered 200 by a hosted function, which removes the rows of that id and
    no other row, removes from the media store every blob that an entry of
    the row names (by [key] in the blob-store function, by [path] in the
    object-storage function), and leaves every other blob as it was. *)
Theorem delete_removes_row_and_media :
  (forall env req target st st0 row,
      Hosted.toUpperCase (Hosted.method req) = "DELETE" ->
      Hosted.extractId (Hosted.pathname req) = Some target ->
      Neon.seedIfEmpty env st = (Done tt, st0) ->
      rowOf target st0 = Some row ->
      forallb readable (default [] (Hosted.media row)) = true ->
      exists st',
        Neon.handler env req st = (jsonResponse 200 okBody, st')
        /\ Hosted.items st' = filter (fun r => Hosted.id r ≠ target) (Hosted.items st0)
        /\ (forall entry k, In entry (default [] (Hosted.media row)) ->
                            get entry "key" = Done (JStr k) -> k ≠ "" ->
                            Hosted.blobs st' !! k = None)
        /\ (forall k, (forall entry, In entry (default [] (Hosted.media row)) ->
                                     get entry "key" ≠ Done (JStr k)) ->
                      Hosted.blobs st' !! k = Hosted.blobs st0 !! k))
  /\ (forall env req target st st0 row,
        configured env ->
        Hosted.toUpperCase (Hosted.method req) = "DELETE" ->
        Hosted.extractId (Hosted.pathname req) = Some target ->
        Supabase.ensureSeed env st = (Done tt, st0) ->
        rowOf target st0 = Some row ->
        forallb readable (default [] (Hosted.media row)) = true ->
        exists st',
          Supabase.handler env req st = (jsonResponse 200 okBody, st')
          /\ Hosted.items st' = filter (fun r => Hosted.id r ≠ target) (Hosted.items st0)
          /\ (forall entry p, In entry (default [] (Hosted.media row)) ->
                              get entry "path" = Done (JStr p) -> p ≠ "" ->
                              Hosted.blobs st' !! p = None)
          /\ (forall p, (forall entry, In entry (default [] (Hosted.media row)) ->
                                       get entry "path" ≠ Done (JStr p)) ->
                        Hosted.blobs st' !! p = Hosted.blobs st0 !! p)).
Proof.
  split.
  - intros env req target st st0 row Hm Hid Hseed Hrow Hall.
    rewrite (neon_handler_seeded _ _ _ _ Hseed), (neon_dispatch_delete _ _ Hm), Hid.
    destruct (neon_delete_effects _ _ _ Hrow Hall) as (st' & Hrun & Hrest).
    exists st'. rewrite Hrun. split; [reflexivity | exact Hrest].
  - intros env req target st st0 row Hcfg Hm Hid Hseed Hrow Hall.
    rewrite (supabase_handler_seeded _ _ _ _ Hcfg Hseed),
      (supabase_dispatch_delete _ _ Hm), Hid.
    destruct (supabase_delete_effects _ _ _ Hrow Hall) as (st' & Hrun & Hrest).
    exists st'. rewrite Hrun. split; [reflexivity | exact Hrest].
Qed.

(** The object-storage function deletes row ["a1"] of a table of two rows:
    the row and its blob go, row ["z9"] and its blob stay. *)
Lemma delete_removes_row_and_media_witness :
  rowOf "a1" (twoRows "path") = Some (sampleRow "path")
  /\ exists st',
       Supabase.handler sampleSupabaseEnv deleteKnown (twoRows "path")
       = (jsonResponse 200 okBody, st')
       /\ map Hosted.id (Hosted.items st') = ["z9"]
       /\ Hosted.blobs st' !! "a1/1700000000000-uuid-foto.png" = None
       /\ Hosted.blobs st' !! "z9/1700000000009-uuid-sala.png" = Some sampleBlob.
Proof.
  split; [reflexivity|].
  destruct (proj2 delete_removes_row_and_media sampleSupabaseEnv deleteKnown "a1"
                  (twoRows "path") (twoRows "path") (sampleRow "path"))
    as (st' & Hrun & Hitems & Hgone & Hkept).
  - split; discriminate.
  - reflexivity.
  - reflexivity.
  - reflexivity.
  - reflexivity.
  - reflexivity.
  - exists st'. split; [exact Hrun|]. split; [rewrite Hitems; reflexivity|]. split.
    + apply (Hgone _ _ (or_introl eq_refl)); [reflexivity | discriminate].
    + rewrite Hkept; [reflexivity|].
      intros entry [<-|[]]. vm_compute. discriminate.
Defined.

(* ===================================================================== *)
(** ** Uploads to the bucket *)
(* ===================================================================== *)

Lemma supabase_storeFiles_keeps env itemId files :
  forall n st r st' p b,
    Supabase.storeFiles env n files itemId st = (r, st') ->
    Hosted.blobs st !! p = Some b ->
    Hosted.blobs st' !! p = Some b.
Proof.
  induction files as [|file files IH]; intros n st r st' p b.
  - cbn [Supabase.storeFiles]. unfold ret. intros [= _ <-] Hp. exact Hp.
  - cbn [Supabase.storeFiles]. unfold bind at 1, Supabase.upload. unfold bind at 1, gets.
    cbv beta iota zeta.
    destruct (Hosted.blobs st !! Hosted.storageKey _ _ _ _) as [taken|] eqn:Htaken.
    + unfold throw. intros [= _ <-] Hp. exact Hp.
    + unfold Hosted.putBlob, modify. unfold bind at 1.
      destruct (Supabase.storeFiles env (S n) files itemId _) as [[media|e] st1] eqn:Hrest;
        unfold ret; intros [= _ <-] Hp;
        apply (IH _ _ _ _ p b Hrest); cbn [Hosted.blobs];
        (rewrite lookup_insert_ne; [exact Hp | congruence]).
Qed.

Lemma supabase_insertSeeds_blobs env rows :
  forall n st, exists st',
    Supabase.insertSeeds env n rows st = (Done tt, st')
    /\ Hosted.blobs st' = Hosted.blobs st.
Proof.
  induction rows as [|s rows IH]; intros n st.
  - exists st. split; reflexivity.
  - cbn [Supabase.insertSeeds]. unfold bind, Hosted.appendRow, modify.
    destruct (IH (S n) {| Hosted.items := Hosted.items st ++ [Hosted.seedRow (Supabase.seedId env n) s];
                          Hosted.blobs := Hosted.blobs st |}) as (st' & Hrun & Hb).
    exists st'. split; [exact Hrun | exact Hb].
Qed.

Lemma supabase_ensureSeed_blobs env st :
  exists st', Supabase.ensureSeed env st = (Done tt, st')
              /\ Hosted.blobs st' = Hosted.blobs st.
Proof.
  unfold Supabase.ensureSeed, bind, gets.
  destruct (0 <? length (Hosted.items st))%nat.
  - exists st. split; reflexivity.
  - apply supabase_insertSeeds_blobs.
Qed.

Lemma supabase_post_keeps env req st r st' p b :
  Supabase.postBranch env req st = (r, st') ->
  Hosted.blobs st !! p = Some b ->
  Hosted.blobs st' !! p = Some b.
Proof.
  intros Hrun Hp. unfold Supabase.postBranch in Hrun.
  destruct (withBody_cases req
              ltac:(match type of Hrun with Hosted.withBody _ ?k _ = _ => exact k end) st)
    as [Hgo | [H413 | [e He]]];
    rewrite ?Hgo, ?H413, ?He in Hrun; [|congruence|congruence].
  clear Hgo. unfold Hosted.appendRow in Hrun. monad_in Hrun.
  destruct (filesOf req) as [|file files] eqn:Hfiles.
  - repeat match type of Hrun with
           | context [match ?x with _ => _ end] => destruct_inner x; crunch Hrun
           end;
      inversion Hrun; subst; exact Hp.
  - destruct (get (fieldsOf req) "title") as [rawTitle|]; crunch Hrun; [|congruence].
    destruct (get (fieldsOf req) "desc") as [rawDesc|]; crunch Hrun; [|congruence].
    destruct (get (fieldsOf req) "whatsappMessage") as [rawMessage|]; crunch Hrun;
      [|congruence].
    destruct (_ || _); crunch Hrun; [congruence|].
    destruct (Supabase.storeFiles env 0 (file :: files) (Supabase.folderId env) st)
      as [refs st1] eqn:Hst.
    pose proof (supabase_storeFiles_keeps _ _ _ _ _ _ _ p b Hst Hp) as Hp1.
    repeat match type of Hrun with
           | context [match ?x with _ => _ end] => destruct_inner x; crunch Hrun
           end;
      inversion Hrun; subst; exact Hp1.
Qed.

(** X11. A POST to the object-storage function never replaces or removes a
    blob that is in the bucket: whatever the request and whatever the
    answer, every path that held a blob holds the same blob afterwards. *)
Theorem post_keeps_the_bucket (env : Supabase.Env) (req : Hosted.Request)
    (st : Hosted.Store) (p : string) (b : Hosted.Blob) :
  Hosted.toUpperCase (Hosted.method req) = "POST" ->
  Hosted.blobs st !! p = Some b ->
  Hosted.blobs (Supabase.handler env req st).2 !! p = Some b.
Proof.
  intros Hm Hp.
  unfold Supabase.handler, Supabase.handle, Supabase.getSupabase, bind, ret, throw.
  destruct (Supabase.SUPABASE_URL env); [exact Hp|].
  destruct (Supabase.SUPABASE_SERVICE_ROLE_KEY env); [exact Hp|].
  destruct (supabase_ensureSeed_blobs env st) as (st0 & -> & Hb).
  rewrite (supabase_dispatch_post _ _ Hm).
  destruct (Supabase.postBranch env req st0) as [r st'] eqn:Hrun.
  rewrite <- Hb in Hp. pose proof (supabase_post_keeps _ _ _ _ _ _ _ Hrun Hp) as Hp'.
  destruct r; exact Hp'.
Qed.

(** The blob of row ["a1"] is still in the bucket after the sample
    upload. *)
Lemma post_keeps_the_bucket_witness :
  Hosted.blobs (Supabase.handler sampleSupabaseEnv postFiles (sampleTable "path")).2
    !! "a1/1700000000000-uuid-foto.png"
  = Some sampleBlob.
Proof.
  apply (post_keeps_the_bucket sampleSupabaseEnv postFiles (sampleTable "path")).
  - reflexivity.
  - reflexivity.
Defined.

(* ===================================================================== *)
(** ** Media URLs, ids and multipart bodies *)
(* ===================================================================== *)

Lemma withMediaUrl_settles item v :
  Neon.withMediaUrl item = Done v ->
  Neon.withMediaUrl v = Done v
  /\ (forall o, v = JObj o -> truthy (prop o "key") = true -> truthy (prop o "url") = true).
Proof.
  unfold Neon.withMediaUrl.
  destruct item as [| |b|n|s|l|o]; cbn [get andThen truthy negb]; try discriminate;
    try (intros [= <-]; cbn [get andThen truthy negb]; split;
         [reflexivity | intros o; discriminate]).
  destruct (truthy (prop o "url")) eqn:Hurl.
  - intros [= <-]. cbn [get andThen]. rewrite Hurl. split; [reflexivity|].
    intros o' [= <-] _. exact Hurl.
  - destruct (truthy (prop o "key")) eqn:Hkey; cbn [negb].
    + intros [= <-]. cbn [get andThen]. rewrite prop_set_eq.
      split; [reflexivity|]. intros o' [= <-] _. rewrite prop_set_eq. reflexivity.
    + intros [= <-]. cbn [get andThen]. rewrite Hurl, Hkey. split; [reflexivity|].
      intros o' [= <-] Hk. congruence.
Qed.

Lemma withMediaUrl_shown item v :
  Neon.withMediaUrl item = Done v -> WithUrl item v.
Proof.
  unfold Neon.withMediaUrl, WithUrl.
  destruct item as [| |b|n|s|l|o]; cbn [get andThen truthy negb]; try discriminate;
    try (intros [= <-]; left; reflexivity).
  destruct (truthy (prop o "url")) eqn:Hurl; [intros [= <-]; left; reflexivity|].
  destruct (truthy (prop o "key")) eqn:Hkey; cbn [negb];
    [|intros [= <-]; left; reflexivity].
  intros [= <-]. right. exists o. repeat split; first [assumption | reflexivity].
Qed.

(** X12. [withMediaUrls] keeps the number and the order of the entries:
    the entry at each position of its result is the entry it was given at
    that position, as it is or (when that one is an object with a key and no
    URL) with the URL of its key added and nothing else changed.  In its
    result every entry that has a key has a URL; and applying it to its own
    result changes nothing. *)
Theorem withMediaUrls_settles (media : option (list JValue)) (out : list JValue) :
  Neon.withMediaUrls media = Done out ->
  Forall2 WithUrl (default [] media) out
  /\ length out = length (default [] media)
  /\ Forall (fun entry => forall o, entry = JObj o ->
                                    truthy (prop o "key") = true ->
                                    truthy (prop o "url") = true) out
  /\ Neon.withMediaUrls (Some out) = Done out.
Proof.
  unfold Neon.withMediaUrls. change (default [] (Some out)) with out.
  generalize (default [] media) as entries.
  intros entries Hout. apply mapM_Forall2 in Hout.
  induction Hout as [|item v entries out Hv _ (Hpos & Hlen & Hall & Hagain)].
  - repeat split; constructor.
  - destruct (withMediaUrl_settles _ _ Hv) as [Hv' Hkey].
    split; [constructor; [apply withMediaUrl_shown; exact Hv | exact Hpos]|].
    split; [cbn [length]; congruence|]. split; [constructor; assumption|].
    cbn [mapM]. rewrite Hv', Hagain. reflexivity.
Qed.

(** The stored entry of the sample row gets its URL, once. *)
Lemma withMediaUrls_settles_witness :
  exists out,
    Neon.withMediaUrls (Hosted.media (sampleRow "key")) = Done out
    /\ Forall2 WithUrl (default [] (Hosted.media (sampleRow "key"))) out
    /\ length out = 1
    /\ Neon.withMediaUrls (Some out) = Done out.
Proof.
  eexists. split; [vm_compute; reflexivity|].
  destruct (withMediaUrls_settles (Hosted.media (sampleRow "key")) _ eq_refl)
    as (Hpos & Hlen & _ & Hagain).
  split; [exact Hpos|]. split; [exact Hlen | exact Hagain].
Defined.

Lemma afterItems_spec parts id :
  Hosted.afterItems parts = Some id
  <-> exists pre post, parts = pre ++ "items" :: id :: post /\ ~ In "items" pre.
Proof.
  split.
  - induction parts as [|part rest IH]; [discriminate|]. cbn [Hosted.afterItems].
    destruct (String.eqb_spec part "items") as [->|Hne].
    + destruct rest as [|next rest']; [discriminate|]. intros [= ->].
      exists [], rest'. split; [reflexivity | intros []].
    + intros Hrest. destruct (IH Hrest) as (pre & post & -> & Hpre).
      exists (part :: pre), post. split; [reflexivity|].
      intros [Heq|Hin]; [congruence | exact (Hpre Hin)].
  - intros (pre & post & -> & Hpre). induction pre as [|p pre IH]; [reflexivity|].
    cbn [app Hosted.afterItems].
    destruct (String.eqb_spec p "items") as [->|Hne];
      [contradiction Hpre; left; reflexivity|].
    apply IH. intros Hin. apply Hpre. right. exact Hin.
Qed.

(** X13. [extractId] gives the segment that follows the first [items]
    segment of the path, empty segments apart, and this is the only id it
    gives: it gives none when the path has no [items] segment or ends with
    its first one. *)
Theorem extractId_after_first_items (path : list string) (found : string) :
  Hosted.extractId path = Some found
  <-> exists pre post,
        filter (fun s => s ≠ "") path = pre ++ "items" :: found :: post
        /\ ~ In "items" pre.
Proof. unfold Hosted.extractId. apply afterItems_spec. Qed.





(* ===================================================================== *)
(** ** Seeding *)
(* ===================================================================== *)




(* ===================================================================== *)
(** ** The local server: listing, creating, updating, removing *)
(* ===================================================================== *)

Lemma normalizeItem_again item k :
  prop (Local.normalizeItem (Local.normalizeItem item)) k
  = prop (Local.normalizeItem item) k.
Proof.
  destruct (decide (k = "media")) as [->|Hm].
  - rewrite (normalizeItem_media (Local.normalizeItem item)).
    rewrite (normalizeItem_other item "url") by discriminate.
    rewrite (normalizeItem_media item).
    destruct (prop item "media") as [| | | | |[|x l]|];
      destruct (truthy (prop item "url")); reflexivity.
  - destruct (decide (k = "whatsappMessage")) as [->|Hw].
    + rewrite (normalizeItem_message (Local.normalizeItem item)).
      rewrite (normalizeItem_message item).
      destruct (prop item "whatsappMessage") as [| | | |[|c s]| |]; reflexivity.
    + rewrite !normalizeItem_other by assumption. reflexivity.
Qed.

(** A record that was normalised is shown as it would be without. *)
Lemma toItemResponse_normalized item :
  Local.toItemResponse (Local.normalizeItem item) = Local.toItemResponse item.
Proof.
  unfold Local.toItemResponse, Local.mediaList. cbv zeta.
  rewrite !normalizeItem_again. reflexivity.
Qed.

Lemma mapM_snoc {A B} (f : A -> Outcome B) xs x ys y :
  mapM f xs = Done ys -> f x = Done y -> mapM f (xs ++ [x]) = Done (ys ++ [y]).
Proof.
  revert ys. induction xs as [|x0 xs IH]; intros ys Hxs Hx.
  - injection Hxs as <-. cbn [app mapM]. rewrite Hx. reflexivity.
  - cbn [app mapM] in Hxs |- *. destruct (f x0) as [y0|]; [|discriminate].
    destruct (mapM f xs) as [ys0|]; [|discriminate]. injection Hxs as <-.
    rewrite (IH ys0 eq_refl Hx). reflexivity.
Qed.

(** The listing of the local server, when it answers 200. *)
Lemma local_listing st vs :
  Local.serve Local.GetItems st = (jsonResponse 200 (JArr vs), st)
  <-> mapM Local.toItemResponse (Local.dataFile st) = Done vs.
Proof.
  unfold Local.serve, Local.route, Local.getItems, Local.readItems, bind, gets, lift, ret.
  assert (Hsame : mapM Local.toItemResponse (map Local.normalizeItem (Local.dataFile st))
                  = mapM Local.toItemResponse (Local.dataFile st)).
  { induction (Local.dataFile st) as [|item items IH]; [reflexivity|].
    cbn [map mapM]. rewrite toItemResponse_normalized, IH. reflexivity. }
  rewrite Hsame. destruct (mapM _ (Local.dataFile st)) as [out|e].
  - split; [intros [= ->]; reflexivity | intros [= ->]; reflexivity].
  - split; [destruct e; discriminate | discriminate].
Qed.

(** X16. After the local server has created an item, its listing is the
    listing from before with the answer of the POST added at the end. *)
Theorem local_listing_shows_created (clock : Local.Clock) (form : Obj)
    (parts : list Local.Part) (st : Local.Store) (resp : Response) (st' : Local.Store)
    (vs : list JValue) :
  Local.serve (Local.PostItems clock form parts) st = (resp, st') ->
  status resp = 200%Z ->
  Local.serve Local.GetItems st = (jsonResponse 200 (JArr vs), st) ->
  Local.serve Local.GetItems st' = (jsonResponse 200 (JArr (vs ++ [body resp])), st').
Proof.
  intros Hrun Hok Hlist.
  destruct (local_post_item _ _ _ _ _ _ Hrun Hok)
    as (title & desc & message & part & rest & _ & _ & _ & _ & -> & Hshown).
  apply local_listing in Hlist. apply local_listing. cbn [Local.dataFile].
  apply mapM_snoc; assumption.
Qed.

(** The item created from a photo and a video is the one item listed. *)
Lemma local_listing_shows_created_witness :
  status (Local.serve (Local.PostItems sampleClock sampleBody [samplePhoto; sampleVideo])
                      emptyDisk).1 = 200%Z
  /\ Local.serve Local.GetItems sampleDisk
     = (jsonResponse 200
          (JArr [body (Local.serve
                         (Local.PostItems sampleClock sampleBody [samplePhoto; sampleVideo])
                         emptyDisk).1]),
        sampleDisk).
Proof.
  assert (Hok : status (Local.serve
                          (Local.PostItems sampleClock sampleBody [samplePhoto; sampleVideo])
                          emptyDisk).1 = 200%Z) by (vm_compute; reflexivity).
  split; [exact Hok|].
  apply (local_listing_shows_created sampleClock sampleBody [samplePhoto; sampleVideo]
           emptyDisk _ sampleDisk [] (surjective_pairing _) Hok).
  vm_compute. reflexivity.
Defined.

(** X17. A DELETE that the local server answers with 200 has removed one
    record, the first of that id, and from the uploads directory every file
    that a media entry of the record names; every other file of the
    directory is still there, and no file was added. *)
Theorem local_delete_removes_files (targetId : string) (st : Local.Store)
    (resp : Response) (st' : Local.Store) :
  Local.serve (Local.DeleteItem targetId) st = (resp, st') ->
  status resp = 200%Z ->
  exists index item old,
    Local.findIndex targetId (Local.dataFile st) = Some (index, item)
    /\ prop (Local.normalizeItem item) "media" = JArr old
    /\ Local.dataFile st' = delete index (Local.dataFile st)
    /\ (forall entry f, In entry old -> get entry "filename" = Done (JStr f) -> f ≠ "" ->
                        f ∉ Local.uploadsDir st')
    /\ (forall f, f ∈ Local.uploadsDir st' -> f ∈ Local.uploadsDir st)
    /\ (forall f, (forall entry, In entry old -> get entry "filename" ≠ Done (JStr f)) ->
                  f ∈ Local.uploadsDir st -> f ∈ Local.uploadsDir st').
Proof. exact (local_delete_effects targetId st resp st'). Qed.

(** The local server deletes the sample item with its two files. *)
Lemma local_delete_removes_files_witness :
  status (Local.serve (Local.DeleteItem sampleItemId) sampleDisk).1 = 200%Z
  /\ exists index item old,
       Local.findIndex sampleItemId (Local.dataFile sampleDisk) = Some (index, item)
       /\ prop (Local.normalizeItem item) "media" = JArr old
       /\ Local.dataFile (Local.serve (Local.DeleteItem sampleItemId) sampleDisk).2
          = delete index (Local.dataFile sampleDisk)
       /\ (forall entry f, In entry old -> get entry "filename" = Done (JStr f) -> f ≠ "" ->
              f ∉ Local.uploadsDir (Local.serve (Local.DeleteItem sampleItemId) sampleDisk).2).
Proof.
  assert (Hok : status (Local.serve (Local.DeleteItem sampleItemId) sampleDisk).1 = 200%Z)
    by (vm_compute; reflexivity).
  split; [exact Hok|].
  destruct (local_delete_removes_files sampleItemId sampleDisk _ _
              (surjective_pairing _) Hok)
    as (index & item & old & Hfind & Hold & Hdata & Hgone & _).
  exists index, item, old. repeat split; assumption.
Defined.

(** X18. A PUT that the local server answers with 200 changes one record,
    the first of that id, and in it no field but [title], [desc],
    [whatsappMessage], [media], [type] and [url]: the id, the creation date
    and any other field stay.  Without new files, [type] and [url] stay too
    and the uploads directory is as it was; with new files, [type] and [url]
    are those of the first new file. *)
Theorem local_update_keeps_other_fields (targetId : string) (form : Obj)
    (parts : list Local.Part) (st : Local.Store) (resp : Response) (st' : Local.Store) :
  Local.serve (Local.PutItem targetId form parts) st = (resp, st') ->
  status resp = 200%Z ->
  exists index item item',
    Local.findIndex targetId (Local.dataFile st) = Some (index, item)
    /\ Local.dataFile st' = <[index := item']> (Local.dataFile st)
    /\ (forall k, ~ In k ["title"; "desc"; "whatsappMessage"; "media"; "type"; "url"] ->
                  prop item' k = prop item k)
    /\ match parts with
       | [] => prop item' "type" = prop item "type"
               /\ prop item' "url" = prop item "url"
               /\ Local.uploadsDir st' = Local.uploadsDir st
       | part :: _ =>
           prop item' "type" = JStr (mediaType (Local.mimetype part))
           /\ prop item' "url" = JStr ("/uploads/" +:+ Local.diskFilename part)
       end.
Proof.
  intros Hrun Hok.
  destruct (local_put_item _ _ _ _ _ _ Hrun Hok)
    as (index & item & item' & Hfind & Hdata & _ & Hother & Hlegacy).
  exists index, item, item'. repeat split; assumption.
Qed.

(** The local server retitles the sample item. *)
Lemma local_update_keeps_other_fields_witness :
  status (Local.serve (Local.PutItem sampleItemId sampleRetitle []) sampleDisk).1 = 200%Z
  /\ exists index item item',
       Local.findIndex sampleItemId (Local.dataFile sampleDisk) = Some (index, item)
       /\ Local.dataFile
            (Local.serve (Local.PutItem sampleItemId sampleRetitle []) sampleDisk).2
          = <[index := item']> (Local.dataFile sampleDisk)
       /\ prop item' "id" = prop item "id"
       /\ prop item' "createdAt" = prop item "createdAt".
Proof.
  assert (Hok : status (Local.serve (Local.PutItem sampleItemId sampleRetitle [])
                                    sampleDisk).1 = 200%Z) by (vm_compute; reflexivity).
  split; [exact Hok|].
  destruct (local_update_keeps_other_fields sampleItemId sampleRetitle [] sampleDisk _ _
              (surjective_pairing _) Hok)
    as (index & item & item' & Hfind & Hdata & Hother & _).
  exists index, item, item'. split; [exact Hfind|]. split; [exact Hdata|].
  split; apply Hother; cbn [In]; intros H; repeat destruct H as [H|H]; discriminate H || exact H.
Defined.

(** X19. The record the local server creates.  Its id is [item-], the time
    and the random number of the request; its creation date is the date of
    the request; [type] and [url] are those of its first media entry; a
    text field the form does not give (or gives empty) takes the fixed
    default of the field; and each file of the request is in the uploads
    directory under the name it was stored with. *)
Theorem local_created_record (clock : Local.Clock) (form : Obj) (parts : list Local.Part)
    (st : Local.Store) (resp : Response) (st' : Local.Store) :
  Local.serve (Local.PostItems clock form parts) st = (resp, st') ->
  status resp = 200%Z ->
  exists newItem part rest,
    parts = part :: rest
    /\ Local.dataFile st' = Local.dataFile st ++ [newItem]
    /\ prop newItem "id"
       = JStr ("item-" +:+ decimal (Local.now clock) +:+ "-" +:+ decimal (Local.rnd clock))
    /\ prop newItem "createdAt" = JStr (Local.isoDate clock)
    /\ prop newItem "type" = JStr (mediaType (Local.mimetype part))
    /\ prop newItem "url" = JStr ("/uploads/" +:+ Local.diskFilename part)
    /\ (truthy (prop form "title") = false -> prop newItem "title" = JStr "Novo imovel")
    /\ (truthy (prop form "desc") = false ->
        prop newItem "desc" = JStr "Mais detalhes no WhatsApp.")
    /\ (truthy (prop form "whatsappMessage") = false ->
        prop newItem "whatsappMessage" = JStr DEFAULT_WHATS_MESSAGE)
    /\ (forall p, In p parts -> Local.diskFilename p ∈ Local.uploadsDir st').
Proof.
  intros Hrun Hok.
  destruct (local_post_item _ _ _ _ _ _ Hrun Hok)
    as (title & desc & message & part & rest & -> & Ht & Hd & Hm & -> & _).
  eexists _, part, rest. split; [reflexivity|]. cbn [Local.dataFile Local.uploadsDir].
  split; [reflexivity|].
  split; [prop_object; reflexivity|]. split; [prop_object; reflexivity|].
  split; [prop_object; cbn [map first]; unfold Local.mediaOfFile, optProp; prop_object;
          unfold or_, mediaType; cbn [Local.storedFile Local.file_mimetype];
          destruct (startsWith _ _); reflexivity|].
  split; [prop_object; cbn [map first]; unfold Local.mediaOfFile, optProp; prop_object;
          reflexivity|].
  assert (Hdefault : forall v fallback text,
             trimOf (or_ v (JStr fallback)) = Done text -> truthy v = false ->
             text = trim fallback).
  { intros v fallback text Htrim Hv. unfold or_ in Htrim. rewrite Hv in Htrim.
    injection Htrim as <-. reflexivity. }
  split; [intros Hno; prop_object; rewrite (Hdefault _ _ _ Ht Hno); reflexivity|].
  split; [intros Hno; prop_object; rewrite (Hdefault _ _ _ Hd Hno); reflexivity|].
  split; [intros Hno; prop_object; rewrite (Hdefault _ _ _ Hm Hno); reflexivity|].
  intros p Hin. apply elem_of_union_l, elem_of_list_to_set.
  rewrite map_map. apply list_elem_of_In, in_map_iff. exists p. split; [reflexivity | exact Hin].
Qed.

(** The item created from a photo and a video, with no WhatsApp message in
    the form. *)
Lemma local_created_record_witness :
  status (Local.serve (Local.PostItems sampleClock sampleBody [samplePhoto; sampleVideo])
                      emptyDisk).1 = 200%Z
  /\ exists newItem,
       Local.dataFile sampleDisk = [newItem]
       /\ prop newItem "id" = JStr sampleItemId
       /\ prop newItem "type" = JStr "image"
       /\ prop newItem "whatsappMessage" = JStr DEFAULT_WHATS_MESSAGE.
Proof.
  assert (Hok : status (Local.serve
                          (Local.PostItems sampleClock sampleBody [samplePhoto; sampleVideo])
                          emptyDisk).1 = 200%Z) by (vm_compute; reflexivity).
  split; [exact Hok|].
  destruct (local_created_record sampleClock sampleBody [samplePhoto; sampleVideo]
              emptyDisk _ _ (surjective_pairing _) Hok)
    as (newItem & part & rest & Hparts & Hdata & Hid & _ & Htype & _ & _ & _ & Hmsg & _).
  injection Hparts as <- <-.
  exists newItem. split; [exact Hdata|]. split; [exact Hid|]. split; [exact Htype|].
  apply Hmsg. vm_compute. reflexivity.
Defined.

(* ===================================================================== *)
(** ** Ids that name no item *)
(* ===================================================================== *)



(* ===================================================================== *)
(** ** Names that are safe already, and the names of stored files *)
(* ===================================================================== *)

Lemma mapChars_safe name :
  allChars safeChar name = true ->
  mapChars (fun c => if safeChar c then c else "-"%char) name = name.
Proof.
  induction name as [|c s IH]; [reflexivity|]. cbn [allChars mapChars].
  intros [Hc Hs]%andb_true_iff. rewrite Hc, (IH Hs). reflexivity.
Qed.

Lemma replaceRuns_safe_name name :
  allChars safeChar name = true -> replaceRuns false name = name.
Proof.
  induction name as [|c s IH]; [reflexivity|]. cbn [allChars replaceRuns].
  intros [Hc Hs]%andb_true_iff. rewrite Hc, (IH Hs). reflexivity.
Qed.

Lemma sanitizeFilename_safe_name name :
  allChars safeChar name = true -> name ≠ "" -> sanitizeFilename name = name.
Proof.
  intros Hsafe Hne. destruct name as [|c s]; [congruence|].
  rewrite sanitizeFilename_nonempty. apply replaceRuns_safe_name. exact Hsafe.
Qed.

Lemma sanitizeFilename_never_empty name : sanitizeFilename name ≠ "".
Proof.
  unfold sanitizeFilename.
  destruct (replaceRuns false (orElse name "file")); cbn [orElse]; discriminate.
Qed.

(** X21. The two sanitisers keep a name that is safe already: a name of
    characters of [[A-Za-z0-9._-]] only comes out as it went in (the hosted
    one gives ["file"] for the empty name), so sanitising a sanitised name
    changes nothing. *)
Theorem safe_names_are_kept (name : string) :
  (allChars safeChar name = true ->
   Local.safeName name = name
   /\ (name ≠ "" -> sanitizeFilename name = name))
  /\ Local.safeName (Local.safeName name) = Local.safeName name
  /\ sanitizeFilename (sanitizeFilename name) = sanitizeFilename name.
Proof.
  split; [|split].
  - intros Hsafe. split; [apply mapChars_safe; exact Hsafe|].
    apply sanitizeFilename_safe_name. exact Hsafe.
  - apply mapChars_safe, safeName_safe.
  - apply sanitizeFilename_safe_name;
      [apply sanitizeFilename_safe | apply sanitizeFilename_never_empty].
Qed.

(** The name ["tour.mp4"] is kept by both. *)
Lemma safe_names_are_kept_witness :
  Local.safeName "tour.mp4" = "tour.mp4" /\ sanitizeFilename "tour.mp4" = "tour.mp4".
Proof.
  destruct (proj1 (safe_names_are_kept "tour.mp4") eq_refl) as [Hlocal Hhosted].
  split; [exact Hlocal | apply Hhosted; discriminate].
Defined.

Lemma string_of_uint_safe d : allChars safeChar (NilEmpty.string_of_uint d) = true.
Proof. induction d; cbn [NilEmpty.string_of_uint allChars]; try rewrite IHd; reflexivity. Qed.

Lemma decimal_safe n : allChars safeChar (decimal n) = true.
Proof.
  unfold decimal, NilZero.string_of_int, NilZero.string_of_uint.
  destruct (Z.to_int n) as [d|d]; destruct d; try reflexivity;
    cbn [allChars]; rewrite ?andb_true_l;
    first [ apply (string_of_uint_safe (Decimal.D0 _))
          | apply (string_of_uint_safe (Decimal.D1 _))
          | apply (string_of_uint_safe (Decimal.D2 _))
          | apply (string_of_uint_safe (Decimal.D3 _))
          | apply (string_of_uint_safe (Decimal.D4 _))
          | apply (string_of_uint_safe (Decimal.D5 _))
          | apply (string_of_uint_safe (Decimal.D6 _))
          | apply (string_of_uint_safe (Decimal.D7 _))
          | apply (string_of_uint_safe (Decimal.D8 _))
          | apply (string_of_uint_safe (Decimal.D9 _)) ].
Qed.

(** X22. The name under which the local server stores an uploaded file has
    only characters of [[A-Za-z0-9._-]], whatever name the client sent: it
    has no path separator, and it ends with the sanitised name of the
    client. *)
Theorem local_stored_names_are_safe (p : Local.Part) :
  allChars safeChar (Local.diskFilename p) = true
  /\ allChars (fun c => negb (Ascii.eqb c "/")) (Local.diskFilename p) = true
  /\ exists unique,
       Local.diskFilename p = unique +:+ "-" +:+ Local.safeName (Local.originalname p).
Proof.
  assert (Hsafe : allChars safeChar (Local.diskFilename p) = true).
  { unfold Local.diskFilename. cbv zeta.
    rewrite !allChars_app, !decimal_safe, safeName_safe. reflexivity. }
  split; [exact Hsafe|]. split.
  - revert Hsafe. generalize (Local.diskFilename p) as s.
    induction s as [|c s IH]; [reflexivity|]. cbn [allChars].
    intros [Hc Hs]%andb_true_iff. rewrite (IH Hs), andb_true_r.
    destruct (Ascii.eqb_spec c "/") as [->|]; [discriminate | reflexivity].
  - eexists. reflexivity.
Qed.

(* ===================================================================== *)
(** ** The listing of the hosted functions *)
(* ===================================================================== *)

Lemma itemJson_fields id title desc message media :
  exists o,
    Hosted.itemJson id title desc message media = JObj o
    /\ prop o "id" = JStr id /\ prop o "title" = JStr title
    /\ prop o "desc" = JStr desc /\ prop o "whatsappMessage" = JStr message.
Proof.
  eexists. split; [reflexivity|]. repeat split; prop_object; reflexivity.
Qed.

(** The listing of the blob-store function, when it answers 200. *)
Lemma neon_listing env req st vs st' :
  Hosted.toUpperCase (Hosted.method req) = "GET" ->
  Hosted.extractId (Hosted.pathname req) = None ->
  Neon.handler env req st = (jsonResponse 200 (JArr vs), st') ->
  Neon.seedIfEmpty env st = (Done tt, st')
  /\ mapM Neon.rowJson (rev (Hosted.items st')) = Done vs.
Proof.
  intros Hm Hid Hrun.
  apply neon_handler_ok in Hrun as (st0 & Hseed & Hrun); [|discriminate].
  rewrite (neon_dispatch_get _ _ Hm), Hid in Hrun.
  pose proof (neon_get_run _ _ _ _ Hrun) as ->. split; [exact Hseed|].
  unfold Neon.getBranch, bind, gets, lift, ret in Hrun.
  destruct (mapM Neon.rowJson (rev (Hosted.items st0))) as [out|]; [|discriminate].
  injection Hrun as ->. reflexivity.
Qed.

Lemma supabase_listing env req st vs st' :
  Hosted.toUpperCase (Hosted.method req) = "GET" ->
  Hosted.extractId (Hosted.pathname req) = None ->
  Supabase.handler env req st = (jsonResponse 200 (JArr vs), st') ->
  Supabase.ensureSeed env st = (Done tt, st')
  /\ mapM (Supabase.rowJson env) (rev (Hosted.items st')) = Done vs.
Proof.
  intros Hm Hid Hrun.
  apply supabase_handler_ok in Hrun as (_ & st0 & Hseed & Hrun); [|discriminate].
  rewrite (supabase_dispatch_get _ _ Hm), Hid in Hrun.
  pose proof (supabase_get_run _ _ _ _ _ Hrun) as ->. split; [exact Hseed|].
  unfold Supabase.getBranch, bind, gets, lift, ret in Hrun.
  destruct (mapM (Supabase.rowJson env) (rev (Hosted.items st0))) as [out|]; [|discriminate].
  injection Hrun as ->. reflexivity.
Qed.

(** X23. The listing of a hosted function, when it is answered 200, has one
    entry for each row of the table, the row added last coming first, and
    each entry gives the row's id, its title, its description as [desc] and
    its message as [whatsappMessage]. *)
Theorem listing_shows_every_row :
  (forall env req st vs st',
      Hosted.toUpperCase (Hosted.method req) = "GET" ->
      Hosted.extractId (Hosted.pathname req) = None ->
      Neon.handler env req st = (jsonResponse 200 (JArr vs), st') ->
      Forall2 (fun row v =>
                 exists o, v = JObj o
                           /\ prop o "id" = JStr (Hosted.id row)
                           /\ prop o "title" = JStr (Hosted.title row)
                           /\ prop o "desc" = JStr (Hosted.description row)
                           /\ prop o "whatsappMessage" = JStr (Hosted.whatsapp_message row))
              (rev (Hosted.items st')) vs)
  /\ (forall env req st vs st',
        Hosted.toUpperCase (Hosted.method req) = "GET" ->
        Hosted.extractId (Hosted.pathname req) = None ->
        Supabase.handler env req st = (jsonResponse 200 (JArr vs), st') ->
        Forall2 (fun row v =>
                   exists o, v = JObj o
                             /\ prop o "id" = JStr (Hosted.id row)
                             /\ prop o "title" = JStr (Hosted.title row)
                             /\ prop o "desc" = JStr (Hosted.description row)
                             /\ prop o "whatsappMessage"
                                = JStr (Hosted.whatsapp_message row))
                (rev (Hosted.items st')) vs).
Proof.
  split.
  - intros env req st vs st' Hm Hid Hrun.
    destruct (neon_listing _ _ _ _ _ Hm Hid Hrun) as [_ Hout].
    eapply Forall2_impl; [exact (mapM_Forall2 _ _ _ Hout)|].
    cbv beta. intros row v Hrow. unfold Neon.rowJson, andThen in Hrow.
    destruct (Neon.withMediaUrls _) as [media|]; [|discriminate].
    injection Hrow as <-. apply itemJson_fields.
  - intros env req st vs st' Hm Hid Hrun.
    destruct (supabase_listing _ _ _ _ _ Hm Hid Hrun) as [_ Hout].
    eapply Forall2_impl; [exact (mapM_Forall2 _ _ _ Hout)|].
    cbv beta. intros row v Hrow. unfold Supabase.rowJson, andThen in Hrow.
    destruct (Supabase.withPublicUrls _ _) as [media|]; [|discriminate].
    injection Hrow as <-. apply itemJson_fields.
Qed.

(** The listing of the sample table of two rows. *)
Lemma listing_shows_every_row_witness :
  exists vs,
    Neon.handler sampleNeonEnv getAll (twoRows "key") = (jsonResponse 200 (JArr vs), twoRows "key")
    /\ Forall2 (fun row v => exists o, v = JObj o /\ prop o "id" = JStr (Hosted.id row))
               [otherRow "key"; sampleRow "key"] vs.
Proof.
  eexists. split; [vm_compute; reflexivity|].
  eapply Forall2_impl;
    [apply (proj1 listing_shows_every_row sampleNeonEnv getAll (twoRows "key") _
                  (twoRows "key") eq_refl eq_refl); vm_compute; reflexivity|].
  cbv beta. intros row v (o & Hv & Hid & _). exists o. split; assumption.
Defined.



(* ===================================================================== *)
(** ** The media function *)
(* ===================================================================== *)

Lemma encodeURIComponent_cons c s :
  Neon.encodeURIComponent (String c s) = encodeChar c +:+ Neon.encodeURIComponent s.
Proof. reflexivity. Qed.

Lemma encodeChar_no_slash c :
  allChars (fun x => negb (Ascii.eqb x "/")) (encodeChar c) = true.
Proof. destruct c as [[] [] [] [] [] [] [] []]; vm_compute; reflexivity. Qed.

Lemma encodeURIComponent_no_slash s :
  allChars (fun x => negb (Ascii.eqb x "/")) (Neon.encodeURIComponent s) = true.
Proof.
  induction s as [|c s IH]; [reflexivity|].
  rewrite encodeURIComponent_cons, allChars_app, encodeChar_no_slash, IH. reflexivity.
Qed.

Lemma encodeChar_nonempty c : exists x t, encodeChar c = String x t.
Proof. destruct c as [[] [] [] [] [] [] [] []]; eexists; eexists; vm_compute; reflexivity. Qed.

Lemma encodeURIComponent_nonempty s : s ≠ "" -> Neon.encodeURIComponent s ≠ "".
Proof.
  destruct s as [|c s]; [congruence|]. intros _.
  rewrite encodeURIComponent_cons. destruct (encodeChar_nonempty c) as (x & t & ->).
  discriminate.
Qed.

Lemma split_whole sep s :
  allChars (fun x => negb (Ascii.eqb x sep)) s = true -> Media.split sep s = [s].
Proof.
  induction s as [|c s IH]; [reflexivity|].
  cbn [allChars Media.split]. intros [Hc Hs]%andb_true_iff.
  apply negb_true_iff in Hc. rewrite Hc, (IH Hs). reflexivity.
Qed.

Lemma tokens_lit c t :
  Ascii.eqb c "%" = false ->
  Media.tokens (String c t) = let? ts := Media.tokens t in Done (Media.Lit c :: ts).
Proof. intros H. cbn [Media.tokens]. rewrite H. reflexivity. Qed.

Lemma tokens_esc h l t a b :
  Media.hexValue h = Some a -> Media.hexValue l = Some b ->
  Media.tokens (String "%" (String h (String l t)))
  = let? ts := Media.tokens t in Done (Media.Esc (16 * a + b)%N :: ts).
Proof. intros Ha Hb. cbn [Media.tokens]. rewrite Ha, Hb. reflexivity. Qed.

Ltac encoded :=
  match goal with
  | |- context [encodeChar ?c +:+ ?t] =>
      let x := eval vm_compute in (encodeChar c +:+ t) in
      change (encodeChar c +:+ t) with x
  end.

(** Decoding the escaped form of one character gives the character back. *)
Lemma decode_encodeChar c t :
  Media.decodeURIComponent (encodeChar c +:+ t)
  = Media.push c (Media.decodeURIComponent t).
Proof.
  unfold Media.decodeURIComponent.
  destruct c as [[] [] [] [] [] [] [] []];
    encoded;
    repeat first [ rewrite tokens_lit by reflexivity
                 | erewrite tokens_esc by (vm_compute; reflexivity) ];
    (destruct (Media.tokens t) as [ts|e]; [|reflexivity]);
    cbn [andThen Media.utf8]; generalize (Media.utf8 ts); intros r;
    vm_compute; reflexivity.
Qed.

(** Decoding undoes encoding. *)
Lemma decode_encode s :
  Media.decodeURIComponent (Neon.encodeURIComponent s) = Done (Media.Narrow s).
Proof.
  induction s as [|c s IH]; [reflexivity|].
  rewrite encodeURIComponent_cons, decode_encodeChar, IH. reflexivity.
Qed.

(** The key comes back from the path of the URL that [withMediaUrls] builds for it. *)
Lemma extractKey_mediaUrl key :
  key ≠ "" ->
  Media.extractKey ("/.netlify/functions/media/" +:+ Neon.encodeURIComponent key)
  = Done (Some (Media.Narrow key)).
Proof.
  intros Hkey. unfold Media.extractKey.
  pose proof (split_whole "/" _ (encodeURIComponent_no_slash key)) as Hsplit.
  pose proof (encodeURIComponent_nonempty key Hkey) as Hne.
  set (enc := Neon.encodeURIComponent key) in *.
  assert (Hparts : Media.split "/" ("/.netlify/functions/media/" +:+ enc)
                   = [""; ".netlify"; "functions"; "media"; enc]).
  { change ("/.netlify/functions/media/" +:+ enc)
      with (String "/" (".netlify" +:+ String "/" ("functions" +:+ String "/"
              ("media" +:+ String "/" enc)))).
    unfold String.append. cbn [Media.split Ascii.eqb Bool.eqb]. rewrite Hsplit. reflexivity. }
  rewrite Hparts.
  rewrite filter_cons, decide_False by (intros H; apply H; reflexivity).
  do 3 rewrite filter_cons, decide_True by discriminate.
  rewrite filter_cons, decide_True by exact Hne. rewrite filter_nil.
  cbn [Media.sliceAfter String.eqb Ascii.eqb Bool.eqb String.concat].
  rewrite eqb_empty by exact Hne. unfold enc. rewrite decode_encode. reflexivity.
Qed.

Lemma tokens_nonempty s ts : Media.tokens s = Done ts -> s ≠ "" -> ts ≠ [].
Proof.
  destruct s as [|c s]; [congruence|]. intros Hts _.
  cbn [Media.tokens] in Hts. unfold andThen in Hts.
  repeat match type of Hts with
         | context [if ?x then _ else _] => destruct x
         | context [match ?x with _ => _ end] => destruct x
         end; try discriminate; injection Hts as <-; discriminate.
Qed.

Lemma push_nonempty c tail : Media.push c tail ≠ Done (Media.Narrow "").
Proof. destruct tail as [[s|]|e]; discriminate. Qed.

Lemma codePoint_nonempty least cp tail :
  Media.codePoint least cp tail ≠ Done (Media.Narrow "").
Proof.
  unfold Media.codePoint.
  destruct (_ || _ || _); [discriminate|].
  destruct (cp <? 256)%N; [apply push_nonempty|].
  destruct tail; discriminate.
Qed.

Lemma utf8_nonempty ts : ts ≠ [] -> Media.utf8 ts ≠ Done (Media.Narrow "").
Proof.
  destruct ts as [|[c|b] rest]; [congruence| |]; intros _; cbn [Media.utf8].
  - apply push_nonempty.
  - repeat match goal with
           | |- context [if ?x then _ else _] => destruct x
           | |- (match ?x with _ => _ end) ≠ _ => destruct x
           end;
      first [discriminate | apply push_nonempty | apply codePoint_nonempty].
Qed.

(** A component that is not empty does not decode to the empty string. *)
Lemma decode_nonempty s :
  s ≠ "" -> Media.decodeURIComponent s ≠ Done (Media.Narrow "").
Proof.
  intros Hs. unfold Media.decodeURIComponent.
  destruct (Media.tokens s) as [ts|e] eqn:Hts; [|discriminate].
  cbn [andThen]. apply utf8_nonempty. eapply tokens_nonempty; eauto.
Qed.

Lemma sliceAfter_suffix name parts rest :
  Media.sliceAfter name parts = Some rest -> forall x, In x rest -> In x parts.
Proof.
  induction parts as [|p parts IH]; [discriminate|]. cbn [Media.sliceAfter].
  destruct (String.eqb p name).
  - intros [= <-] x Hx. right. exact Hx.
  - intros Hs x Hx. right. eapply IH; eauto.
Qed.

Lemma segments_nonempty pathname x : In x (segments pathname) -> x ≠ "".
Proof.
  unfold segments. intros Hin%list_elem_of_In%list_elem_of_filter. apply Hin.
Qed.

Lemma concat_nonempty sep x rest : x ≠ "" -> String.concat sep (x :: rest) ≠ "".
Proof.
  destruct x as [|c x]; [congruence|]. intros _.
  destruct rest; cbn [String.concat]; discriminate.
Qed.

(** X25. The media function answers 400 exactly when the path has no
    non-empty segment after its first [media] segment. *)
Theorem media_missing_key (pathname : string) (blobs : gmap string Hosted.Blob) :
  Media.code (Media.handler pathname blobs) = 400%Z
  <-> match Media.sliceAfter "media" (segments pathname) with
      | Some (_ :: _) => False
      | _ => True
      end.
Proof.
  unfold Media.handler, Media.serve, Media.extractKey. fold (segments pathname).
  destruct (Media.sliceAfter "media" (segments pathname)) as [[|x rest]|] eqn:Hslice;
    [cbn; tauto | | cbn; tauto].
  assert (Hx : x ≠ "").
  { eapply segments_nonempty, sliceAfter_suffix; [exact Hslice | left; reflexivity]. }
  pose proof (concat_nonempty "/" x rest Hx) as Hraw.
  rewrite eqb_empty by exact Hraw.
  pose proof (decode_nonempty _ Hraw) as Hdec.
  destruct (Media.decodeURIComponent (String.concat "/" (x :: rest))) as [[[|c s]|]|e];
    [contradiction Hdec; reflexivity | | |];
    cbn [andThen Media.isEmpty Media.getWithMetadata Media.code];
    try (destruct (blobs !! _)); cbn [Media.code]; split; (discriminate || tauto).
Qed.

(** The media function serves, under the URL of a key, what the store
    holds under the key. *)
Lemma handler_mediaUrl key blobs :
  key ≠ "" ->
  Media.handler ("/.netlify/functions/media/" +:+ Neon.encodeURIComponent key) blobs
  = match blobs !! key with
    | Some blob => served blob
    | None => Media.reply 404 [] (Media.Text "Not found")
    end.
Proof.
  intros Hne. unfold Media.handler, Media.serve. rewrite extractKey_mediaUrl by exact Hne.
  cbn [andThen Media.getWithMetadata].
  destruct key; [congruence|]. cbn [Media.isEmpty].
  destruct (blobs !! _); reflexivity.
Qed.

(** The entry [withMediaUrls] shows for a stored entry with a key and no
    URL. *)
Lemma withMediaUrl_key (o : Obj) key :
  truthy (prop o "url") = false ->
  prop o "key" = JStr key ->
  key ≠ "" ->
  Neon.withMediaUrl (JObj o)
  = Done (JObj (set "url"
                    (JStr ("/.netlify/functions/media/" +:+ Neon.encodeURIComponent key))
                    o)).
Proof.
  intros Hurl Hk Hne. unfold Neon.withMediaUrl. cbn [get andThen]. rewrite Hurl, Hk.
  destruct key; [congruence|]. reflexivity.
Qed.

(** X26. The URL that [withMediaUrls] gives a stored entry is one the media
    function resolves to the entry's key, for every key but [.] and [..]:
    asked for that path, it serves the blob the store holds under the key,
    with the blob's content type, and answers 404 when the store holds none.
    (The function reads the path from the parsed URL, and the URL parser
    drops a segment that is [.] or [..]; the escaped form of any other key
    is a segment it leaves as written, so the path read is the path of the
    URL.) *)
Theorem media_url_is_served (o : Obj) (key : string) (blobs : gmap string Hosted.Blob) :
  truthy (prop o "url") = false ->
  prop o "key" = JStr key ->
  key ≠ "" ->
  key ≠ "." ->
  key ≠ ".." ->
  exists url,
    Neon.withMediaUrl (JObj o) = Done (JObj (set "url" (JStr url) o))
    /\ Media.handler url blobs
       = match blobs !! key with
         | Some blob => served blob
         | None => Media.reply 404 [] (Media.Text "Not found")
         end.
Proof.
  intros Hurl Hk Hne _ _.
  exists ("/.netlify/functions/media/" +:+ Neon.encodeURIComponent key). split.
  - apply withMediaUrl_key; assumption.
  - apply handler_mediaUrl. exact Hne.
Qed.

(** The stored photo of row ["a1"] is served under its URL. *)
Lemma media_url_is_served_witness :
  exists url,
    Neon.withMediaUrl (JObj sampleRef) = Done (JObj (set "url" (JStr url) sampleRef))
    /\ Media.handler url (Hosted.blobs (sampleTable "key")) = served sampleBlob.
Proof.
  destruct (media_url_is_served sampleRef "a1/1700000000000-uuid-foto.png"
              (Hosted.blobs (sampleTable "key")))
    as (url & Hshown & Hserved).
  - reflexivity.
  - reflexivity.
  - discriminate.
  - discriminate.
  - discriminate.
  - exists url. split; [exact Hshown|]. rewrite Hserved. reflexivity.
Defined.

(* ===================================================================== *)
(** ** From an upload to the media function *)
(* ===================================================================== *)

Lemma storageKey_nonempty itemId now uuid file :
  Hosted.storageKey itemId now uuid file ≠ "".
Proof. unfold Hosted.storageKey. destruct itemId; discriminate. Qed.

(** [storeFiles] leaves alone every key but the ones it stores under. *)
Lemma neon_storeFiles_frame env itemId files :
  forall n st r st' k,
    Neon.storeFiles env n files itemId st = (r, st') ->
    ~ In k (storageKeys env n itemId files) ->
    Hosted.blobs st' !! k = Hosted.blobs st !! k.
Proof.
  induction files as [|file files IH]; intros n st r st' k.
  - cbn [Neon.storeFiles]. unfold ret. intros [= _ <-] _. reflexivity.
  - cbn [Neon.storeFiles storageKeys In]. unfold bind at 1, Hosted.putBlob, modify.
    cbv beta iota zeta. unfold bind at 1.
    destruct (Neon.storeFiles env (S n) files itemId _) as [[media|e] st1] eqn:Hrest;
      unfold ret; intros [= _ <-] Hno;
      rewrite (IH _ _ _ _ k Hrest) by tauto;
      cbn [Hosted.blobs]; apply lookup_insert_ne; tauto.
Qed.

(** When the keys are distinct, every file is in the store under the key
    of its MediaRef once [storeFiles] has ended. *)
Lemma neon_storeFiles_blobs env itemId files :
  forall n st refs st',
    Neon.storeFiles env n files itemId st = (Done refs, st') ->
    NoDup (storageKeys env n itemId files) ->
    Forall2 (fun file ref =>
               exists key,
                 ref = JObj (object [("type", JStr (mediaType (Hosted.contentType file)));
                                     ("key", JStr key);
                                     ("contentType", JStr (Hosted.contentType file))])
                 /\ key ≠ ""
                 /\ Hosted.blobs st' !! key = Some (blobOf file))
            files refs.
Proof.
  induction files as [|file files IH]; intros n st refs st'.
  - cbn [Neon.storeFiles]. unfold ret. intros [= <- <-] _. constructor.
  - cbn [Neon.storeFiles storageKeys]. unfold bind at 1, Hosted.putBlob, modify.
    cbv beta iota zeta. unfold bind at 1.
    destruct (Neon.storeFiles env (S n) files itemId _) as [[media|e] st1] eqn:Hrest;
      unfold ret; [|discriminate].
    intros [= <- <-] [Hfresh Hdup]%NoDup_cons. constructor.
    + eexists. split; [reflexivity|]. split; [apply storageKey_nonempty|].
      rewrite (neon_storeFiles_frame _ _ _ _ _ _ _ _ Hrest)
        by (rewrite <- list_elem_of_In; exact Hfresh).
      cbn [Hosted.blobs]. apply lookup_insert_eq.
    + eapply IH; [exact Hrest | exact Hdup].
Qed.

Lemma Forall2_compose {A B C} (R : A -> C -> Prop) (P : A -> B -> Prop)
    (Q : B -> C -> Prop) xs ys zs :
  (forall x y z, P x y -> Q y z -> R x z) ->
  Forall2 P xs ys -> Forall2 Q ys zs -> Forall2 R xs zs.
Proof.
  intros Hstep Hxy. revert zs. induction Hxy as [|x y xs ys Hp _ IH]; intros zs Hyz.
  - inversion Hyz. constructor.
  - inversion Hyz as [|? z ? zs' Hq Hrest]; subst. constructor; eauto.
Qed.

(** A 201 of the blob-store function's POST branch for a request with
    files: the files were stored, and the answer shows their MediaRefs. *)
Lemma neon_post_files env req st resp st' :
  Neon.postBranch env req st = (Done resp, st') ->
  status resp = 201%Z ->
  filesOf req ≠ [] ->
  exists refs st1 out o,
    Neon.storeFiles env 0 (filesOf req) (Neon.newId env) st = (Done refs, st1)
    /\ Hosted.blobs st' = Hosted.blobs st1
    /\ mapM Neon.withMediaUrl refs = Done out
    /\ body resp = JObj o
    /\ prop o "media" = JArr out.
Proof.
  intros Hrun Hok Hfiles. unfold Neon.postBranch in Hrun.
  destruct (withBody_cases req
              ltac:(match type of Hrun with Hosted.withBody _ ?k _ = _ => exact k end) st)
    as [Hgo | [H413 | [e He]]];
    rewrite ?Hgo, ?H413, ?He in Hrun; [|bad Hrun|bad Hrun].
  clear Hgo. monad_in Hrun.
  destruct (get (fieldsOf req) "title") as [rawTitle|]; crunch Hrun; [|bad Hrun].
  destruct (get (fieldsOf req) "desc") as [rawDesc|]; crunch Hrun; [|bad Hrun].
  destruct (get (fieldsOf req) "whatsappMessage") as [rawMessage|]; crunch Hrun; [|bad Hrun].
  destruct (_ || _); crunch Hrun; [bad Hrun|].
  destruct (filesOf req) as [|file files]; [congruence|].
  destruct (neon_storeFiles_run env (file :: files) (Neon.newId env) 0 st)
    as (refs & st1 & Hst & Hitems & Hrefs).
  rewrite Hst in Hrun. crunch Hrun.
  destruct refs as [|ref refs]; crunch Hrun; [bad Hrun|].
  match type of Hrun with
  | context [Neon.insertRow ?r st1] =>
      destruct (neon_insertRow_run r st1) as [[Hins _] | [e Hins]];
        rewrite Hins in Hrun; crunch Hrun; [|bad Hrun]
  end.
  destruct (Neon.withMediaUrls (Some (ref :: refs))) as [out|] eqn:Hout;
    crunch Hrun; [|bad Hrun].
  inversion Hrun; subst resp st'.
  eexists (ref :: refs), st1, out, _. split; [exact Hst|].
  split; [reflexivity|]. split; [exact Hout|]. split; [reflexivity|].
  prop_object. reflexivity.
Qed.

(** X27. Every file a POST to the blob-store function uploads is served
    back by the media function.  When the POST is answered 201 and the
    storage keys of its files are distinct, the answer shows one media entry
    for each file, in order, with a URL under which the media function, on
    the store the POST left, answers 200 with the file's content type and
    its bytes. *)
Theorem uploaded_files_are_served (env : Neon.Env) (req : Hosted.Request)
    (st : Hosted.Store) (resp : Response) (st' : Hosted.Store) :
  Hosted.toUpperCase (Hosted.method req) = "POST" ->
  filesOf req ≠ [] ->
  NoDup (storageKeys env 0 (Neon.newId env) (filesOf req)) ->
  Neon.handler env req st = (resp, st') ->
  status resp = 201%Z ->
  exists o shown,
    body resp = JObj o
    /\ prop o "media" = JArr shown
    /\ Forall2 (fun file entry =>
                  exists e url,
                    entry = JObj e
                    /\ prop e "url" = JStr url
                    /\ Media.handler url (Hosted.blobs st') = served (blobOf file))
               (filesOf req) shown.
Proof.
  intros Hm Hfiles Hdup Hrun Hok.
  apply neon_handler_ok in Hrun as (st0 & Hseed & Hrun); [|rewrite Hok; discriminate].
  rewrite (neon_dispatch_post _ _ Hm) in Hrun.
  destruct (neon_post_files _ _ _ _ _ Hrun Hok Hfiles)
    as (refs & st1 & out & o & Hst & Hblobs & Hout & Hbody & Hmedia).
  exists o, out. split; [exact Hbody|]. split; [exact Hmedia|].
  eapply Forall2_compose;
    [| exact (neon_storeFiles_blobs _ _ _ _ _ _ _ Hst Hdup)
     | exact (mapM_Forall2 _ _ _ Hout)].
  cbv beta. intros file ref entry (key & -> & Hne & Hblob) Hshown.
  rewrite withMediaUrl_key with (key := key) in Hshown;
    [| prop_object; reflexivity | prop_object; reflexivity | exact Hne].
  injection Hshown as <-. eexists _, _. split; [reflexivity|].
  split; [apply prop_set_eq|].
  rewrite handler_mediaUrl by exact Hne. rewrite Hblobs, Hblob. reflexivity.
Qed.

(** The photo and the video of the sample upload are both served back. *)
Lemma uploaded_files_are_served_witness :
  status (Neon.handler sampleNeonEnv postFiles (sampleTable "key")).1 = 201%Z
  /\ exists o shown,
       body (Neon.handler sampleNeonEnv postFiles (sampleTable "key")).1 = JObj o
       /\ prop o "media" = JArr shown
       /\ Forall2 (fun file entry =>
                     exists e url,
                       entry = JObj e
                       /\ prop e "url" = JStr url
                       /\ Media.handler
                            url
                            (Hosted.blobs
                               (Neon.handler sampleNeonEnv postFiles (sampleTable "key")).2)
                          = served (blobOf file))
                  (filesOf postFiles) shown.
Proof.
  assert (Hok : status (Neon.handler sampleNeonEnv postFiles (sampleTable "key")).1
                = 201%Z) by (vm_compute; reflexivity).
  split; [exact Hok|].
  apply (uploaded_files_are_served sampleNeonEnv postFiles (sampleTable "key") _ _ eq_refl).
  - vm_compute. discriminate.
  - vm_compute. apply NoDup_ListNoDup. repeat constructor; cbn [In]; intuition discriminate.
  - apply surjective_pairing.
  - exact Hok.
Defined.
